(** * STEREO/SEPT loader

    A shallow embedding of [stereo_loader/__init__.py]: the four functions
    [resample_df], [stereo_sept_download], [stereo_sept_loader] and
    [stereo_load], over a
    model of the values they handle (Python strings and exceptions, binary64
    floats, calendar days, a directory of data files, pandas tables), and the
    properties of the specification checked against them. *)

From Stdlib Require Import ZArith List String Ascii Bool Lia Floats Sorted Permutation.
From Stdlib Require Uint63.
Import ListNotations.

Set Warnings "-inexact-float".

Open Scope string_scope.
Open Scope list_scope.
Open Scope Z_scope.

(** Python's [+] on strings. *)
Infix "+++" := String.append (right associativity, at level 60).

(* ================================================================= *)
(** ** Python values *)

(** An exception is identified by its class and carries a message. *)
Record exn := Exn { exn_class : string; exn_msg : string }.

Inductive result (A : Type) : Type :=
| Ok (a : A)
| Raise (e : exn).
Arguments Ok {A} a.
Arguments Raise {A} e.

Definition bindR {A B} (r : result A) (k : A -> result B) : result B :=
  match r with
  | Ok a => k a
  | Raise e => Raise e
  end.

Notation "x <-r c ;; k" := (bindR c (fun x => k))
  (at level 61, c at next level, right associativity).

Definition IndexError : exn := Exn "IndexError" "list index out of range".
Definition ValueError (msg : string) : exn := Exn "ValueError" msg.

(** The message is the one of Python up to 3.10; later versions word it
    differently, for the same class and variable. *)
Definition UnboundLocalError (var : string) : exn :=
  Exn "UnboundLocalError"
      ("local variable '" +++ var +++ "' referenced before assignment").

(** [l[i]] *)
Definition item {A} (l : list A) (i : nat) : result A :=
  match nth_error l i with
  | Some a => Ok a
  | None => Raise IndexError
  end.

(** The value passed as [resample]: the loader only asks whether it is a
    [str]. *)
Inductive pyobj :=
| PyNone
| PyStr (s : string)
| PyInt (n : Z)
| PyFloat (x : float)
| PyTimedelta (ns : Z).

Definition isinstance_str (o : pyobj) : bool :=
  match o with
  | PyStr _ => true
  | _ => false
  end.

(* ----------------------------------------------------------------- *)
(** *** Strings *)

Definition lower_ascii (c : ascii) : ascii :=
  let n := nat_of_ascii c in
  if ((65 <=? n) && (n <=? 90))%nat then ascii_of_nat (n + 32) else c.

(** [s.lower()] (ASCII). *)
Fixpoint lower (s : string) : string :=
  match s with
  | EmptyString => EmptyString
  | String c s' => String (lower_ascii c) (lower s')
  end.

Definition upper_ascii (c : ascii) : ascii :=
  let n := nat_of_ascii c in
  if ((97 <=? n) && (n <=? 122))%nat then ascii_of_nat (n - 32) else c.

(** [s.upper()] (ASCII). *)
Fixpoint upper (s : string) : string :=
  match s with
  | EmptyString => EmptyString
  | String c s' => String (upper_ascii c) (upper s')
  end.

(** [s[0]] on a string. *)
Definition str_item0 (s : string) : result string :=
  match s with
  | String c _ => Ok (String c "")
  | EmptyString => Raise (Exn "IndexError" "string index out of range")
  end.

(** [s[:n]] *)
Fixpoint firstn_str (n : nat) (s : string) : string :=
  match n, s with
  | S n', String c s' => String c (firstn_str n' s')
  | _, _ => EmptyString
  end.

Definition digit_char (d : Z) : ascii := ascii_of_nat (48 + Z.to_nat d).

Fixpoint str_digits (fuel : nat) (n : Z) (acc : string) : string :=
  match fuel with
  | O => acc
  | S fuel' =>
      let acc' := String (digit_char (n mod 10)) acc in
      if n <? 10 then acc' else str_digits fuel' (n / 10) acc'
  end.

(** [str(n)] for an integer. *)
Definition str_int (n : Z) : string :=
  if n <? 0
  then String "-" (str_digits (S (Z.to_nat (Z.log2 (- n)))) (- n) "")
  else str_digits (S (Z.to_nat (Z.log2 n))) n "".

Fixpoint zeros (k : nat) : string :=
  match k with
  | O => ""
  | S k' => String "0" (zeros k')
  end.

(** [s.zfill(width)] for the unsigned numerals it is used on. *)
Definition zfill (width : nat) (s : string) : string :=
  zeros (width - String.length s) +++ s.

(** [s.startswith(p)] *)
Fixpoint startswith (p s : string) : bool :=
  match p, s with
  | EmptyString, _ => true
  | String a p', String b s' => Ascii.eqb a b && startswith p' s'
  | String _ _, EmptyString => false
  end.

(** [s[n:]] *)
Fixpoint skipn_str (n : nat) (s : string) : string :=
  match n, s with
  | O, _ => s
  | S n', String _ s' => skipn_str n' s'
  | S _, EmptyString => EmptyString
  end.

Definition endswith (suf s : string) : bool :=
  (String.length suf <=? String.length s)%nat
  && String.eqb (skipn_str (String.length s - String.length suf) s) suf.

(** [s.split(sep)] for a non-empty separator: the pieces between successive
    occurrences of [sep], scanned left to right.  [skip] counts the
    characters of a recognised separator still to be passed over. *)
Fixpoint split_go (sep s : string) (skip : nat) (cur : string) : list string :=
  match s with
  | EmptyString => [cur]
  | String c s' =>
      match skip with
      | S k => split_go sep s' k cur
      | O =>
          if startswith sep s
          then cur :: split_go sep s' (String.length sep - 1) ""
          else split_go sep s' 0 (cur +++ String c "")
      end
  end.

Definition str_split (sep s : string) : list string := split_go sep s 0 "".

(* ----------------------------------------------------------------- *)
(** *** Floats

    Python's [float] is IEEE binary64, here the kernel's primitive floats.
    A float literal of the source is written as the same decimal literal
    (both denote the nearest binary64 value). *)

Definition float_of_Z (n : Z) : float := PrimFloat.of_uint63 (Uint63.of_Z n).

Definition is_space (c : ascii) : bool :=
  let n := nat_of_ascii c in
  ((n =? 32) || ((9 <=? n) && (n <=? 13)))%nat.

Fixpoint lstrip (l : list ascii) : list ascii :=
  match l with
  | c :: l' => if is_space c then lstrip l' else l
  | [] => []
  end.

Definition strip (l : list ascii) : list ascii := rev (lstrip (rev (lstrip l))).

Definition digit_val (c : ascii) : option Z :=
  let n := nat_of_ascii c in
  if ((48 <=? n) && (n <=? 57))%nat then Some (Z.of_nat n - 48) else None.

(** Reads a run of digits: the number read so far, how many digits were
    read, and the rest of the input. *)
Fixpoint read_digits (l : list ascii) (acc : Z) (n : nat) : Z * nat * list ascii :=
  match l with
  | c :: l' =>
      match digit_val c with
      | Some d => read_digits l' (10 * acc + d) (S n)
      | None => (acc, n, l)
      end
  | [] => (acc, n, [])
  end.

(** [float(s)] for plain decimal notation [[sign] digits [. digits]],
    surrounding blanks allowed: the digits read as the integer [m] with [k]
    of them after the point give [m / 10^k], one correctly rounded division
    (exact for the numerals of at most 15 digits the loader meets).
    Anything else is a [ValueError]. *)
Definition float_of_string (s : string) : result float :=
  let bad := Raise (ValueError ("could not convert string to float: '" +++ s +++ "'")) in
  let l := strip (list_ascii_of_string s) in
  let '(neg, l) :=
    match l with
    | "-"%char :: l' => (true, l')
    | "+"%char :: l' => (false, l')
    | _ => (false, l)
    end in
  let '(ip, ni, l) := read_digits l 0 0 in
  let '(m, nf, l) :=
    match l with
    | "."%char :: l' => read_digits l' ip 0
    | _ => (ip, O, l)
    end in
  match l with
  | [] =>
      if (ni + nf =? 0)%nat then bad
      else
        let x := (float_of_Z m / float_of_Z (10 ^ Z.of_nat nf))%float in
        Ok (if neg then (- x)%float else x)
  | _ :: _ => bad
  end.

(* ================================================================= *)
(** ** Calendar days

    The loader reads three things off each [Timestamp] of its date range:
    [.year], [.day_of_year] and [strftime('%j')].  A day is modelled by its
    year and its day of the year: the start and the end of a range are
    given as days (a [date], or a [datetime] at midnight); a start later in
    its day than the end, with which [pd.date_range] leaves out the last
    day, is outside the model. *)

Record date := Date { year : Z; day_of_year : Z }.

Definition is_leap (y : Z) : bool :=
  (y mod 4 =? 0) && (negb (y mod 100 =? 0) || (y mod 400 =? 0)).

Definition year_length (y : Z) : Z := if is_leap y then 366 else 365.

Definition next_day (d : date) : date :=
  if day_of_year d <? year_length (year d)
  then Date (year d) (day_of_year d + 1)
  else Date (year d + 1) 1.

(** Days from 0001-01-01 to the first day of year [y]. *)
Definition days_before_year (y : Z) : Z :=
  365 * (y - 1) + (y - 1) / 4 - (y - 1) / 100 + (y - 1) / 400.

(** [date.toordinal()] *)
Definition toordinal (d : date) : Z := days_before_year (year d) + day_of_year d.

Fixpoint days_from (n : nat) (d : date) : list date :=
  match n with
  | O => []
  | S n' => d :: days_from n' (next_day d)
  end.

(** [pd.date_range(start=startdate, end=enddate, freq='D')] on two days. *)
Definition date_range (startdate enddate : date) : list date :=
  days_from (Z.to_nat (toordinal enddate - toordinal startdate + 1)) startdate.

(** [date.strftime('%j')]: day of the year, zero-padded to three digits. *)
Definition strftime_j (d : date) : string := zfill 3 (str_int (day_of_year d)).

(** The days a [pd.Timestamp] can hold lie in the years 1677 to 2262. *)
Definition valid_date (d : date) : Prop :=
  1677 <= year d <= 2262 /\ 1 <= day_of_year d <= year_length (year d).

(* ================================================================= *)
(** ** Data files, the local directory and the server *)

(** A line of a data file as the reader tokenises it: a comment line, or
    the numeric fields of a record (no field: a blank line). *)
Inductive line :=
| Comment (text : string)
| Fields (values : list float).

Definition datafile := list line.

(** What a run cannot change: the working directory, pooch's default cache
    directory, the file system's reading of a path ([Path(p).resolve()]:
    absolute, symbolic links followed), the files the server holds, whether
    the progress-bar package is installed, and the three pandas conversions
    the loader relies on: the bin width in nanoseconds of a resampling rule
    of fixed positive width ([None]: pandas raises [ValueError]; rules of
    zero width and rules anchored to the calendar are not modelled),
    [pd.Timedelta] of a string in nanoseconds ([None]: [ValueError]), and
    [pd.to_datetime(., origin='julian', unit='D')] on one value, in
    nanoseconds since the epoch. *)
Record Env := {
  cwd : string;
  pooch_cache : string;
  resolve : string -> string;
  remote : string -> option datafile;
  tqdm : bool;
  to_offset : string -> option positive;
  Timedelta : string -> option Z;
  julian_to_datetime : float -> Z
}.

(** What a run can change: the local files, in directory order, each
    under its resolved path, and the log of the URLs downloaded. *)
Record fs := { files : list (string * datafile); fetched : list string }.

Definition M (A : Type) : Type := fs -> result A * fs.

Definition ret {A} (a : A) : M A := fun st => (Ok a, st).
Definition raise {A} (e : exn) : M A := fun st => (Raise e, st).
Definition bind {A B} (m : M A) (k : A -> M B) : M B :=
  fun st =>
    match m st with
    | (Ok a, st') => k a st'
    | (Raise e, st') => (Raise e, st')
    end.
Definition lift {A} (r : result A) : M A := fun st => (r, st).

Notation "x <- c ;; k" := (bind c (fun x => k))
  (at level 61, c at next level, right associativity).

(** [try: m  except cls: handler].  The class is compared by its name:
    the calls modelled here raise no exception of a subclass of a class
    the code catches. *)
Definition try_except {A} (m : M A) (cls : string) (handler : M A) : M A :=
  fun st =>
    match m st with
    | (Raise e, st') => if (exn_class e =? cls)%string then handler st' else (Raise e, st')
    | r => r
    end.

Definition try_exceptR {A} (r : result A) (cls : string) (handler : result A) : result A :=
  match r with
  | Raise e => if (exn_class e =? cls)%string then handler else Raise e
  | _ => r
  end.

Fixpoint mapM {A B} (f : A -> M B) (l : list A) : M (list B) :=
  match l with
  | [] => ret []
  | a :: l' => b <- f a ;; bs <- mapM f l' ;; ret (b :: bs)
  end.

Definition os_sep : string := "/".

Fixpoint drop_seps (l : list ascii) : list ascii :=
  match l with
  | "/"%char :: l' => drop_seps l'
  | _ => l
  end.

(** [path.rstrip(os.sep)]: the directory a path names, whatever the number
    of separators it ends with. *)
Definition rstrip_sep (path : string) : string :=
  string_of_list_ascii (rev (drop_seps (rev (list_ascii_of_string path)))).

(** [name] appended to the directory string [path], whatever the number
    of separators that ends with. *)
Definition join (path name : string) : string := rstrip_sep path +++ os_sep +++ name.

Fixpoint contains_sep (s : string) : bool :=
  match s with
  | EmptyString => false
  | String c s' => Ascii.eqb c "/" || contains_sep s'
  end.

(** Whether a path is [dir/stem*suf]: the star stands for any run of
    characters without a separator. *)
Definition glob_match (dir stem suf k : string) : bool :=
  let pre := join dir stem in
  startswith pre k
  && (let rest := skipn_str (String.length pre) k in
      endswith suf rest && negb (contains_sep rest)).

Fixpoint lookup {A} (k : string) (l : list (string * A)) : option A :=
  match l with
  | [] => None
  | (k', a) :: l' => if (k' =? k)%string then Some a else lookup k l'
  end.

Definition HTTPError (url : string) : exn :=
  Exn "HTTPError" ("404 Client Error: Not Found for url: " +++ url).
Definition FileNotFoundError (p : string) : exn :=
  Exn "FileNotFoundError" ("No such file or directory: '" +++ p +++ "'").

Section WithEnv.

Variable env : Env.

(** [glob.glob(f"{dir}{stem}*{suf}")], for a [dir] ending in a separator
    and strings free of glob's special characters: the entries of the
    directory that [dir] names whose names match, each returned as the
    string [dir] with the name appended. *)
Definition glob (dir stem suf : string) : M (list string) :=
  fun st =>
    let real := resolve env dir in
    (Ok (map (fun k => join dir (skipn_str (String.length (join real "")) k))
             (filter (glob_match real stem suf) (map fst (files st)))), st).

(** [pooch.retrieve(url=url, known_hash=None, fname=fname, path=path,
    progressbar=progressbar)]: the destination is [fname] in the resolved
    directory, and its path is what is returned; a file already there is
    returned as it is; otherwise it is fetched from the server and saved,
    which with [progressbar=True] needs the package tqdm. *)
Definition pooch_retrieve (url fname : string) (path : option string)
    (progressbar : bool) : M string :=
  fun st =>
    let dir :=
      match path with
      | None => pooch_cache env
      | Some p => p
      end in
    let full_path := join (resolve env dir) fname in
    match lookup full_path (files st) with
    | Some _ => (Ok full_path, st)
    | None =>
        if progressbar && negb (tqdm env)
        then (Raise (ValueError "Missing package 'tqdm' required for progress bars."), st)
        else
          match remote env url with
          | Some content =>
              (Ok full_path,
               {| files := files st ++ [(full_path, content)];
                  fetched := fetched st ++ [url] |})
          | None => (Raise (HTTPError url), st)
          end
    end.

End WithEnv.

(* ================================================================= *)
(** ** pandas tables *)

(** A table with a datetime index (nanoseconds since the epoch) and named
    columns of floats, each column as long as the index. *)
Record DataFrame := {
  index_name : option string;
  index : list Z;
  columns : list (string * list float)
}.

Definition column_names (df : DataFrame) : list string := map fst (columns df).

(** [df[name]] *)
Definition getitem (df : DataFrame) (name : string) : result (list float) :=
  match lookup name (columns df) with
  | Some v => Ok v
  | None => Raise (Exn "KeyError" name)
  end.

Definition mem_str (s : string) (l : list string) : bool :=
  existsb (String.eqb s) l.

(** The records of a file: comment lines and blank lines are skipped. *)
Definition data_rows (f : datafile) : list (list float) :=
  flat_map (fun l => match l with
                     | Fields (x :: v) => [x :: v]
                     | _ => []
                     end) f.

Definition ParserError : exn := Exn "ParserError" "Error tokenizing data".

(** [pd.read_csv(., header=None, sep='\s+', names=names, comment='#')] on
    the records of a file.  The table is as wide as the first record or
    the list of names, whichever is longer; a later record with more fields
    than that is an error; a record with fewer is filled up with NaN; when
    the first record has more fields than there are names, the surplus
    leading fields become the index and the names go to the fields after
    them.  The index is positional here: the loader replaces it. *)
Definition read_csv_rows (names : list string) (rows : list (list float))
  : result DataFrame :=
  let n := List.length names in
  let width := Nat.max (List.length (hd [] rows)) n in
  if existsb (fun r => (width <? List.length r)%nat) (tl rows)
  then Raise ParserError
  else
    let lead := (width - n)%nat in
    Ok {| index_name := None;
          index := map Z.of_nat (seq 0 (List.length rows));
          columns :=
            map (fun jn => (snd jn, map (fun r => nth (lead + fst jn) r nan) rows))
                (combine (seq 0 n) names) |}.

(** [pd.concat([df, t_df])]: the rows of [t_df] after those of [df],
    columns aligned by name. *)
Definition concat (df t_df : DataFrame) : DataFrame :=
  {| index_name := index_name df;
     index := index df ++ index t_df;
     columns :=
       map (fun c => (fst c, snd c ++ match lookup (fst c) (columns t_df) with
                                      | Some v => v
                                      | None => map (fun _ => nan) (index t_df)
                                      end))
           (columns df) |}.

(** [df.drop(columns=labels)] *)
Definition drop (labels : list string) (df : DataFrame) : result DataFrame :=
  match filter (fun l => negb (mem_str l (column_names df))) labels with
  | l :: _ => Raise (Exn "KeyError" l)
  | [] =>
      Ok {| index_name := index_name df;
            index := index df;
            columns := filter (fun c => negb (mem_str (fst c) labels)) (columns df) |}
  end.

(** [df.replace(to_replace, value)] *)
Definition replace (to_replace value : float) (df : DataFrame) : DataFrame :=
  {| index_name := index_name df;
     index := index df;
     columns :=
       map (fun c => (fst c, map (fun x => if PrimFloat.eqb x to_replace then value else x)
                                 (snd c)))
           (columns df) |}.

(* ----------------------------------------------------------------- *)
(** *** Resampling to a fixed bin width *)

Definition day_ns : Z := 86400 * 10 ^ 9.

(** [Timestamp.normalize()]: midnight of the same day. *)
Definition normalize (t : Z) : Z := t - t mod day_ns.

(** The edges of the first and past the last bin for a table whose index
    runs from [first] to [last]: bins are [n] wide, closed on the left, and
    aligned to the midnight of the first day. *)
Definition bin_edges (first last n : Z) : Z * Z :=
  let origin := normalize first in
  let foffset := (first - origin) mod n in
  let loffset := (last - origin) mod n in
  (if 0 <? foffset then first - foffset else first,
   if 0 <? loffset then last + (n - loffset) else last + n).

(** The left edges of the bins from [fresult] up to [lresult]. *)
Definition bin_labels (fresult lresult n : Z) : list Z :=
  map (fun i => fresult + Z.of_nat i * n)
      (seq 0 (Z.to_nat ((lresult - fresult) / n))).

(** One step of the compensated sum a group mean is accumulated with:
    missing values are passed over. *)
Definition kahan_step (acc : float * float * Z) (val : float) : float * float * Z :=
  let '(sumx, comp, nobs) := acc in
  if PrimFloat.eqb val val then
    let y := (val - comp)%float in
    let t := (sumx + y)%float in
    let comp' := (t - sumx - y)%float in
    (t, if PrimFloat.eqb comp' comp' then comp' else 0%float, nobs + 1)
  else acc.

(** The mean of the values that are not NaN; NaN when there is none. *)
Definition mean_skipna (vals : list float) : float :=
  let '(sumx, _, nobs) := fold_left kahan_step vals (0%float, 0%float, 0) in
  if nobs =? 0 then nan else (sumx / float_of_Z nobs)%float.

Fixpoint insert_row (r : Z * float) (l : list (Z * float)) : list (Z * float) :=
  match l with
  | [] => [r]
  | r' :: l' => if fst r <=? fst r' then r :: l else r' :: insert_row r l'
  end.

(** Rows in index order, rows of equal index in their original order. *)
Definition sort_rows (l : list (Z * float)) : list (Z * float) :=
  fold_right insert_row [] l.

Definition in_bin (n b t : Z) : bool := (b <=? t) && (t <? b + n).

(** The values of the rows whose index falls in the bin starting at [b]. *)
Definition bin_values (n : Z) (rows : list (Z * float)) (b : Z) : list float :=
  map snd (filter (fun r => in_bin n b (fst r)) (sort_rows rows)).

(** [df.resample(rule).mean()] for a rule that is a fixed width of [n]
    nanoseconds: one row per bin from the first to the last row of [df],
    labelled with the left edge of the bin, holding for each column the
    mean of the values that fall in the bin. *)
Definition resample_mean (n : Z) (df : DataFrame) : DataFrame :=
  match index df with
  | [] => df
  | t0 :: ts =>
      let first := fold_left Z.min ts t0 in
      let last := fold_left Z.max ts t0 in
      let '(fresult, lresult) := bin_edges first last n in
      let labels := bin_labels fresult lresult n in
      {| index_name := index_name df;
         index := labels;
         columns :=
           map (fun c => (fst c,
                          map (fun b => mean_skipna (bin_values n (combine (index df) (snd c)) b))
                              labels))
               (columns df) |}
  end.

(* ================================================================= *)
(** ** The channel catalog *)

(** The dictionaries [echannels] and [pchannels]. *)
Record channels_dict := {
  bins : list Z;
  ch_strings : list string;
  DE : list float;
  mean_E : list float
}.

(** A row of [channels_dict_df]: the table is indexed by bin. *)
Record channel := {
  ch_bin : Z;
  ch_string : string;
  ch_DE : float;
  ch_mean_E : float
}.

(** [pd.DataFrame.from_dict(channels_dict)], then [bins] made the index. *)
Definition from_dict (d : channels_dict) : result (list channel) :=
  let n := List.length (bins d) in
  if ((List.length (ch_strings d) =? n) && (List.length (DE d) =? n)
      && (List.length (mean_E d) =? n))%nat
  then Ok (map (fun r => {| ch_bin := fst (fst (fst r)); ch_string := snd (fst (fst r));
                            ch_DE := snd (fst r); ch_mean_E := snd r |})
               (combine (combine (combine (bins d) (ch_strings d)) (DE d)) (mean_E d)))
  else Raise (ValueError "All arrays must be of the same length").

Definition e_ch_strings : list string :=
  ["45.0-55.0 keV"; "55.0-65.0 keV"; "65.0-75.0 keV"; "75.0-85.0 keV";
   "85.0-105.0 keV"; "105.0-125.0 keV"; "125.0-145.0 keV"; "145.0-165.0 keV";
   "165.0-195.0 keV"; "195.0-225.0 keV"; "225.0-255.0 keV"; "255.0-295.0 keV";
   "295.0-335.0 keV"; "335.0-375.0 keV"; "375.0-425.0 keV"].

(** The lower and upper bound an energy-range label states. *)
Definition label_bounds (s : string) : result (float * float) :=
  temp0 <-r item (str_split " keV" s) 0 ;;
  let clims := str_split "-" temp0 in
  c0 <-r item clims 0 ;;
  lower_ <-r float_of_string c0 ;;
  c1 <-r item clims 1 ;;
  upper <-r float_of_string c1 ;;
  Ok (lower_, upper).

(** The loop filling [mean_E] for the electron channels. *)
Fixpoint mean_E_loop (strings : list string) : result (list float) :=
  match strings with
  | [] => Ok []
  | s :: rest =>
      b <-r label_bounds s ;;
      tl_ <-r mean_E_loop rest ;;
      Ok (PrimFloat.sqrt (snd b * fst b) :: tl_)
  end.

Definition echannels (mean_E : list float) : channels_dict :=
  {| bins := [2; 3; 4; 5; 6; 7; 8; 9; 10; 11; 12; 13; 14; 15; 16];
     ch_strings := e_ch_strings;
     DE := [0.0100; 0.0100; 0.0100; 0.0100; 0.0200; 0.0200; 0.0200; 0.0200;
            0.0300; 0.0300; 0.0300; 0.0400; 0.0400; 0.0400; 0.0500]%float;
     mean_E := mean_E |}.

Definition pchannels : channels_dict :=
  {| bins := [2; 3; 4; 5; 6; 7; 8; 9; 10; 11; 12; 13; 14; 15; 16; 17; 18; 19;
              20; 21; 22; 23; 24; 25; 26; 27; 28; 29; 30; 31];
     ch_strings :=
       ["84.1-92.7 keV"; "92.7-101.3 keV"; "101.3-110.0 keV"; "110.0-118.6 keV";
        "118.6-137.0 keV"; "137.0-155.8 keV"; "155.8-174.6 keV"; "174.6-192.6 keV";
        "192.6-219.5 keV"; "219.5-246.4 keV"; "246.4-273.4 keV"; " 273.4-312.0 keV";
        "312.0-350.7 keV"; "350.7-389.5 keV"; "389.5-438.1 keV"; "438.1-496.4 keV";
        "496.4-554.8 keV"; " 554.8-622.9 keV"; "622.9-700.7 keV"; "700.7-788.3 keV";
        "788.3-875.8 keV"; "875.8- 982.8 keV"; "982.8-1111.9 keV"; "1111.9-1250.8 keV";
        "1250.8-1399.7 keV"; "1399.7-1578.4 keV"; "1578.4-1767.0 keV";
        "1767.0-1985.3 keV"; "1985.3-2223.6 keV"; "2223.6-6500.0 keV"];
     DE := [0.0086; 0.0086; 0.0087; 0.0086; 0.0184; 0.0188; 0.0188; 0.018; 0.0269;
            0.0269; 0.027; 0.0386; 0.0387; 0.0388; 0.0486; 0.0583; 0.0584; 0.0681;
            0.0778; 0.0876; 0.0875; 0.107; 0.1291; 0.1389; 0.1489; 0.1787; 0.1886;
            0.2183; 0.2383; 4.2764]%float;
     mean_E := [88.30; 96.90; 105.56; 114.22; 127.47; 146.10; 164.93; 183.38;
                205.61; 232.56; 259.55; 292.06; 330.78; 369.59; 413.09; 466.34;
                524.79; 587.86; 660.66; 743.21; 830.90; 927.76; 1045.36; 1179.31;
                1323.16; 1486.37; 1670.04; 1872.97; 2101.07; 3801.76]%float |}.

(** Lines 143 to 171 of the loader: the catalog for the species as the
    loader has normalised it. *)
Definition channel_catalog (species : string) : result (list channel) :=
  mean_E <-r mean_E_loop e_ch_strings ;;
  channels_dict <-r
    (if (species =? "ele")%string then Ok (echannels mean_E)
     else if (species =? "ion")%string then Ok pchannels
     else Raise (UnboundLocalError "channels_dict")) ;;
  from_dict channels_dict.

(* ================================================================= *)
(** ** The functions of the loader *)

(** [np.sort] on a list of strings: ascending by code point. *)
Fixpoint insert_str (s : string) (l : list string) : list string :=
  match l with
  | [] => [s]
  | x :: l' => if String.leb s x then s :: l else x :: insert_str s l'
  end.

Definition np_sort (l : list string) : list string := fold_right insert_str [] l.

Definition helper_columns : list string :=
  ["julian_date"; "year"; "frac_doy"; "hour"; "min"; "sec"; "integration_time"].

Definition ch_names (cat : list channel) : list string :=
  map (fun c => "ch_" +++ str_int (ch_bin c)) cat.

Definition err_ch_names (cat : list channel) : list string :=
  map (fun c => "err_ch_" +++ str_int (ch_bin c)) cat.

(** [col_names] of the loader, from the index of [channels_dict_df]. *)
Definition col_names (cat : list channel) : list string :=
  ["julian_date"; "year"; "frac_doy"; "hour"; "min"; "sec"]
  ++ ch_names cat ++ err_ch_names cat ++ ["integration_time"].

(** [pd.read_csv(file, header=None, sep='\s+', names=names, comment='#')] *)
Definition read_csv (env : Env) (file : string) (names : list string) : M DataFrame :=
  fun st =>
    match lookup (resolve env file) (files st) with
    | Some f => (read_csv_rows names (data_rows f), st)
    | None => (Raise (FileNotFoundError file), st)
    end.

Fixpoint read_more (env : Env) (names : list string) (files_ : list string)
    (df : DataFrame) : M DataFrame :=
  match files_ with
  | [] => ret df
  | file :: rest =>
      t_df <- read_csv env file names ;;
      read_more env names rest (concat df t_df)
  end.

Definition set_index (df : DataFrame) (idx : list Z) (name : option string) : DataFrame :=
  {| index_name := name; index := idx; columns := columns df |}.

Definition Warning (msg : string) : exn := Exn "Warning" msg.

Definition sentinel : float := (-9999.900)%float.

Definition ahead_base : string :=
  "http://www2.physik.uni-kiel.de/STEREO/data/sept/level2/ahead/1min/".
Definition behind_base : string :=
  "http://www2.physik.uni-kiel.de/STEREO/data/sept/level2/behind/1min/".

Section Loader.

Variable env : Env.

(** [df.resample(resample)]: the bin width of the rule. *)
Definition resample_rule (resample : string) : result Z :=
  match to_offset env resample with
  | Some n => Ok (Z.pos n)
  | None => Raise (ValueError ("Invalid frequency: " +++ resample))
  end.

(** [pd.Timedelta(resample)] *)
Definition pd_Timedelta (resample : string) : result Z :=
  match Timedelta env resample with
  | Some td => Ok td
  | None => Raise (ValueError "unit abbreviation w/o a number")
  end.

Definition resample_df (df : DataFrame) (resample : string) : result DataFrame :=
  try_exceptR
    (n <-r resample_rule resample ;;
     let df := resample_mean n df in
     td <-r pd_Timedelta resample ;;
     Ok (set_index df (map (fun t => t + td / 2) (index df)) (index_name df)))
    "ValueError"
    (Raise (Warning ("Your 'resample' option of [" +++ resample
                     +++ "] doesn't seem to be a proper Pandas frequency!"))).

Definition stereo_sept_download (date_ : date) (spacecraft species viewing : string)
    (path : option string) : M string :=
  let path :=
    match path with
    | Some (String c p) =>
        if negb (endswith os_sep (String c p))
        then Some (String c p +++ os_sep)
        else Some (String c p)
    | _ => path
    end in
  let species := if (lower species =? "e")%string then "ele" else species in
  let species :=
    if ((lower species =? "p") || (lower species =? "h") || (lower species =? "i"))%string
    then "ion" else species in
  let base :=
    if ((lower spacecraft =? "ahead") || (lower spacecraft =? "a"))%string
    then Some ahead_base
    else if ((lower spacecraft =? "behind") || (lower spacecraft =? "b"))%string
    then Some behind_base
    else None in
  let file := "sept_" +++ lower spacecraft +++ "_" +++ lower species +++ "_"
              +++ lower viewing +++ "_" +++ str_int (year date_) +++ "_"
              +++ strftime_j date_ +++ "_1min_l2_v03.dat" in
  match base with
  | None => raise (UnboundLocalError "base")
  | Some base =>
      let url := base +++ str_int (year date_) +++ "/" +++ file in
      try_except (pooch_retrieve env url file path true)
                 "ModuleNotFoundError"
                 (pooch_retrieve env url file path false)
  end.

(** The body of the loop building [filelist]. *)
Definition resolve_file (path spacecraft species viewing : string) (d : date)
  : M string :=
  found <- glob env (path +++ os_sep)
                ("sept_" +++ spacecraft +++ "_" +++ species +++ "_" +++ viewing
                 +++ "_" +++ str_int (year d) +++ "_" +++ str_int (day_of_year d)
                 +++ "_")
                ".dat" ;;
  match found with
  | file :: _ => ret file
  | [] => stereo_sept_download d spacecraft species viewing (Some path)
  end.

(** Lines 132 to 141: one file per day of the range, then sorted. *)
Definition build_filelist (path spacecraft species viewing : string)
    (dates : list date) : M (list string) :=
  filelist <- mapM (resolve_file path spacecraft species viewing) dates ;;
  ret (np_sort filelist).

(** Lines 184 to 188: the first file read, the others appended to it. *)
Definition read_files (col_names : list string) (filelist : list string)
  : M DataFrame :=
  file0 <- lift (item filelist 0) ;;
  df <- read_csv env file0 col_names ;;
  read_more env col_names (tl filelist) df.

(** Lines 190 to 199: the datetime index from the Julian date, the helper
    columns dropped, the sentinel replaced. *)
Definition assemble (all_columns : bool) (df : DataFrame) : result DataFrame :=
  julian_date <-r getitem df "julian_date" ;;
  let df := set_index df (map (julian_to_datetime env) julian_date) (Some "time") in
  df <-r (if all_columns then Ok df else drop helper_columns df) ;;
  Ok (replace sentinel nan df).

Definition stereo_sept_loader (startdate enddate : date)
    (spacecraft species viewing : string) (resample : pyobj)
    (path : option string) (all_columns : bool) : M (DataFrame * list channel) :=
  let species := if (lower species =? "e")%string then "ele" else species in
  let species :=
    if ((lower species =? "p") || (lower species =? "h") || (lower species =? "i"))%string
    then "ion" else species in
  let spacecraft :=
    if ((lower spacecraft =? "a") || (lower spacecraft =? "sta"))%string
    then "ahead" else spacecraft in
  let spacecraft :=
    if ((lower spacecraft =? "b") || (lower spacecraft =? "stb"))%string
    then "behind" else spacecraft in
  let path :=
    match path with
    | Some (String c p) => String c p
    | _ => cwd env +++ os_sep +++ "data"
    end in
  let dates := date_range startdate enddate in
  filelist <- build_filelist path spacecraft species viewing dates ;;
  channels_dict_df <- lift (channel_catalog species) ;;
  df <- read_files (col_names channels_dict_df) filelist ;;
  df <- lift (assemble all_columns df) ;;
  df <- match resample with
        | PyStr s => lift (resample_df df s)
        | _ => ret df
        end ;;
  ret (df, channels_dict_df).

End Loader.

(* ================================================================= *)
(** ** The dispatching function

    [stereo_load] hands SEPT requests to [stereo_sept_loader] and gets every
    other data set from CDAWeb through sunpy.  Its start and end values are
    strings or date objects, which it passes on as they are; of such a
    value it uses three things, which are parameters here: whether two of
    them are equal ([==]), how one prints in a formatted string, and, for
    SEPT, the calendar day pandas reads it as (a [ValueError] when it reads
    none).  Of sunpy it uses four things, parameters as well: the time
    range [a.Time], the search and the download of [Fido], and
    [TimeSeries(files, concatenate=True).to_dataframe()]. *)

Record Sunpy := {
  time_arg : Type;
  arg_eqb : time_arg -> time_arg -> bool;
  str_date : time_arg -> string;
  to_day : time_arg -> result date;
  trange : Type;
  UnifiedResponse : Type;
  a_Time : time_arg -> time_arg -> result trange;
  Fido_search : trange -> string -> M UnifiedResponse;
  Fido_fetch : UnifiedResponse -> option string -> M (list string);
  TimeSeries : list string -> M DataFrame
}.

(** What [stereo_load] returns: the table and the channel catalog for SEPT,
    the table and the list of downloaded files for the other instruments,
    or a pair of empty lists when the data could not be obtained. *)
Inductive loaded :=
| SeptData (df : DataFrame) (channels_dict_df : list channel)
| CdawebData (df : DataFrame) (downloaded_files : list string)
| NoData.

Definition dquote : string := String "034"%char "".

(** The line printed at line 250. *)
Definition must_differ_message : string :=
  dquote +++ "startdate" +++ dquote +++ " and " +++ dquote +++ "enddate" +++ dquote
  +++ " must be different!".

Section Load.

Variable env : Env.
Variable sunpy : Sunpy.

(** The line printed at line 289. *)
Definition unable_message (dataset : string) (startdate enddate : time_arg sunpy)
  : string :=
  "Unable to obtain " +++ dquote +++ dataset +++ dquote +++ " data for "
  +++ str_date sunpy startdate +++ "-" +++ str_date sunpy enddate +++ "!".

(** Lines 270 to 276: the name of the CDAWeb data set. *)
Definition cdaweb_dataset (instrument spacecraft mag_coord : string) : result string :=
  c <-r str_item0 (upper spacecraft) ;;
  let sc := "ST" +++ c in
  if (firstn_str 3 (upper instrument) =? "MAG")%string
  then Ok (sc +++ "_L1_" +++ upper instrument +++ "_" +++ upper mag_coord)
  else Ok (sc +++ "_L1_" +++ upper instrument).

(** Lines 281 to 287: the body of the [try]. *)
Definition cdaweb_load (tr : trange sunpy) (dataset : string) (path : option string)
    (resample : pyobj) : M (DataFrame * list string) :=
  result_ <- Fido_search sunpy tr dataset ;;
  downloaded_files <- Fido_fetch sunpy result_ path ;;
  let downloaded_files := np_sort downloaded_files in
  df <- TimeSeries sunpy downloaded_files ;;
  df <- match resample with
        | PyStr s => lift (resample_df env df s)
        | _ => ret df
        end ;;
  ret (df, downloaded_files).

(** [stereo_load]: the lines printed, the outcome and the directory. *)
Definition stereo_load (instrument : string) (startdate enddate : time_arg sunpy)
    (spacecraft mag_coord sept_species sept_viewing : string)
    (path : option string) (resample : pyobj)
  : fs -> list string * (result loaded * fs) :=
  fun st =>
    let printed :=
      if arg_eqb sunpy startdate enddate then [must_differ_message] else [] in
    let spacecraft :=
      if ((lower spacecraft =? "a") || (lower spacecraft =? "sta"))%string
      then "ahead" else spacecraft in
    let spacecraft :=
      if ((lower spacecraft =? "b") || (lower spacecraft =? "stb"))%string
      then "behind" else spacecraft in
    if (upper instrument =? "SEPT")%string
    then
      (printed,
       (start_day <- lift (to_day sunpy startdate) ;;
        end_day <- lift (to_day sunpy enddate) ;;
        res <- stereo_sept_loader env start_day end_day spacecraft sept_species
                                  sept_viewing resample path false ;;
        ret (SeptData (fst res) (snd res))) st)
    else
      match cdaweb_dataset instrument spacecraft mag_coord with
      | Raise e => (printed, (Raise e, st))
      | Ok dataset =>
          match a_Time sunpy startdate enddate with
          | Raise e => (printed, (Raise e, st))
          | Ok tr =>
              match cdaweb_load tr dataset path resample st with
              | (Ok (df, downloaded_files), st') =>
                  (printed, (Ok (CdawebData df downloaded_files), st'))
              | (Raise e, st') =>
                  if (exn_class e =? "RuntimeError")%string
                  then (printed ++ [unable_message dataset startdate enddate],
                        (Ok NoData, st'))
                  else (printed, (Raise e, st'))
              end
          end
      end.

End Load.

(* ================================================================= *)
(** ** The vocabulary of the properties *)

(** The exception [resample_df] raises (line 36). *)
Definition resample_warning (resample : string) : exn :=
  Warning ("Your 'resample' option of [" +++ resample
           +++ "] doesn't seem to be a proper Pandas frequency!").

(** The spacecraft codes [stereo_sept_download] has a base URL for. *)
Definition known_spacecraft (spacecraft : string) : bool :=
  ((lower spacecraft =? "ahead") || (lower spacecraft =? "a")
   || (lower spacecraft =? "behind") || (lower spacecraft =? "b"))%string.

(** The arguments as the loader normalises them (lines 120 to 130). *)
Definition loader_species (species : string) : string :=
  let species := if (lower species =? "e")%string then "ele" else species in
  if ((lower species =? "p") || (lower species =? "h") || (lower species =? "i"))%string
  then "ion" else species.

Definition loader_spacecraft (spacecraft : string) : string :=
  let spacecraft :=
    if ((lower spacecraft =? "a") || (lower spacecraft =? "sta"))%string
    then "ahead" else spacecraft in
  if ((lower spacecraft =? "b") || (lower spacecraft =? "stb"))%string
  then "behind" else spacecraft.

Definition loader_path (env : Env) (path : option string) : string :=
  match path with
  | Some (String c p) => String c p
  | _ => cwd env +++ os_sep +++ "data"
  end.

Definition valid_day (d : date) : Prop :=
  1 <= day_of_year d <= year_length (year d).

(** The name [stereo_sept_download] gives the file of a day (line 77). *)
Definition file_name (spacecraft species viewing : string) (d : date) : string :=
  "sept_" +++ lower spacecraft +++ "_" +++ lower (loader_species species) +++ "_"
  +++ lower viewing +++ "_" +++ str_int (year d) +++ "_" +++ strftime_j d
  +++ "_1min_l2_v03.dat".

(** What comes before the star in the pattern the loader looks for
    (line 136). *)
Definition glob_stem (spacecraft species viewing : string) (d : date) : string :=
  "sept_" +++ spacecraft +++ "_" +++ species +++ "_" +++ viewing +++ "_"
  +++ str_int (year d) +++ "_" +++ str_int (day_of_year d) +++ "_".

(** The directory the downloader hands to pooch (lines 63 to 65). *)
Definition download_dir (path : string) : string :=
  if negb (endswith os_sep path) then path +++ os_sep else path.

(** Where the downloader saves the file of a day, which is the path it
    returns: the name of the file in the resolved directory. *)
Definition local_path (env : Env) (path spacecraft species viewing : string)
    (d : date) : string :=
  join (resolve env (download_dir path)) (file_name spacecraft species viewing d).

Definition is_local_path (env : Env) (path spacecraft species viewing : string)
    (k : string) : Prop :=
  exists e, valid_date e /\ k = local_path env path spacecraft species viewing e.

(** The local files the patterns of the loader find for the days of
    [dates] are the files the downloader writes for these days. *)
Definition finds_only_downloads (env : Env) (path spacecraft species viewing : string)
    (dates : list date) (st : fs) : Prop :=
  forall d k,
    In d dates -> In k (map fst (files st)) ->
    glob_match (resolve env (path +++ os_sep)) (glob_stem spacecraft species viewing d)
               ".dat" k = true ->
    k = local_path env path spacecraft species viewing d.

(** The directory is given as the file system resolves it: absolute, free
    of symbolic links and of segments to normalise, so that the pattern of
    the loader (which looks in [path] with a separator appended) and pooch
    (which is handed [download_dir path]) name its files alike. *)
Definition resolved_directory (env : Env) (path : string) : Prop :=
  rstrip_sep (resolve env (path +++ os_sep)) = rstrip_sep path
  /\ rstrip_sep (resolve env (download_dir path)) = rstrip_sep path.

(** The mean energy of the channel is the geometric mean of the two bounds
    its label states, as binary64 computes it. *)
Definition is_geometric_mean (c : channel) : bool :=
  match label_bounds (ch_string c) with
  | Ok (lower_, upper) => PrimFloat.eqb (ch_mean_E c) (PrimFloat.sqrt (upper * lower_))
  | Raise _ => false
  end.

(** The mean energy of the channel is within 0.005 of that geometric mean:
    it is the geometric mean written with two decimals. *)
Definition is_geometric_mean_to_2_decimals (c : channel) : bool :=
  match label_bounds (ch_string c) with
  | Ok (lower_, upper) =>
      PrimFloat.leb (abs (ch_mean_E c - PrimFloat.sqrt (upper * lower_))) 0.005
  | Raise _ => false
  end.

(** What line 199 does to one value. *)
Definition replace_sentinel (x : float) : float :=
  if PrimFloat.eqb x sentinel then nan else x.

(** No value of the table equals the sentinel. *)
Definition no_sentinel (df : DataFrame) : Prop :=
  Forall (fun c => Forall (fun x => PrimFloat.eqb x sentinel = false) (snd c))
         (columns df).

(** Some value of the table equals the sentinel. *)
Definition has_sentinel (df : DataFrame) : bool :=
  existsb (fun c => existsb (fun x => PrimFloat.eqb x sentinel) (snd c)) (columns df).

(** The column of a table, empty when the table has none of that name. *)
Definition col (name : string) (df : DataFrame) : list float :=
  match lookup name (columns df) with
  | Some v => v
  | None => []
  end.

(** The integers from [a], [n] of them. *)
Fixpoint zrange (a : Z) (n : nat) : list Z :=
  match n with
  | O => []
  | S n' => a :: zrange (a + 1) n'
  end.

(** The electron catalog. *)
Definition ele_catalog : list channel :=
  match channel_catalog "ele" with
  | Ok cat => cat
  | Raise _ => []
  end.

(** The address [stereo_sept_download] fetches the file of a day from
    (lines 72 to 79), for a spacecraft it has a base for. *)
Definition base_url (spacecraft : string) : string :=
  if ((lower spacecraft =? "ahead") || (lower spacecraft =? "a"))%string
  then ahead_base else behind_base.

Definition download_url (spacecraft species viewing : string) (d : date) : string :=
  base_url spacecraft +++ str_int (year d) +++ "/"
  +++ file_name spacecraft species viewing d.

(** Every column has one value per row of the index. *)
Definition well_formed (df : DataFrame) : Prop :=
  Forall (fun c => List.length (snd c) = List.length (index df)) (columns df).

Definition is_nan (x : float) : bool := negb (PrimFloat.eqb x x).

(** The values of a list that are there, NaN standing for a missing one. *)
Definition present (vals : list float) : list float :=
  filter (fun x => negb (is_nan x)) vals.

(** The mean as the specification words it: the sum of the values that
    are not missing, added one after the other, divided by their number;
    NaN when all are missing. *)
Definition arithmetic_mean (vals : list float) : float :=
  match present vals with
  | [] => nan
  | p => (fold_left PrimFloat.add p 0 / float_of_Z (Z.of_nat (List.length p)))%float
  end.

(** Adding [v] to the running sum [s] loses nothing: what the sum gained,
    less [v], is zero (or is not a number, the sum being infinite). *)
Definition exact_step (s v : float) : Prop :=
  let lost := (s + v - s - v)%float in lost = 0%float \/ is_nan lost = true.

(** The values [p] add up from [s] without loss at any step but the
    last. *)
Fixpoint sums_exactly (s : float) (p : list float) : Prop :=
  match p with
  | [] => True
  | v :: p' =>
      match p' with
      | [] => True
      | _ :: _ => exact_step s v /\ sums_exactly (s + v) p'
      end
  end.

(** The species the loader has a catalog for, as it compares them
    (lines 163 to 166). *)
Definition known_species (species : string) : bool :=
  ((loader_species species =? "ele") || (loader_species species =? "ion"))%string.

(** The width [DE] of the channel, given in MeV, is the width of the range
    its label states in keV, up to the rounding of binary64. *)
Definition DE_is_label_width (c : channel) : bool :=
  match label_bounds (ch_string c) with
  | Ok (lower_, upper) =>
      PrimFloat.leb (abs (ch_DE c * 1000 - (upper - lower_))) 1e-9
  | Raise _ => false
  end.

(** Each channel starts at the energy the channel before it ends at. *)
Fixpoint contiguous (cat : list channel) : bool :=
  match cat with
  | c1 :: (c2 :: _) as rest =>
      match label_bounds (ch_string c1), label_bounds (ch_string c2) with
      | Ok (_, upper), Ok (lower_, _) => PrimFloat.eqb upper lower_
      | _, _ => false
      end && contiguous rest
  | _ => true
  end.

(** The codes [stereo_load] takes for the two spacecraft, in any case. *)
Definition is_ahead (spacecraft : string) : bool :=
  ((lower spacecraft =? "a") || (lower spacecraft =? "sta")
   || (lower spacecraft =? "ahead"))%string.

Definition is_behind (spacecraft : string) : bool :=
  ((lower spacecraft =? "b") || (lower spacecraft =? "stb")
   || (lower spacecraft =? "behind"))%string.

(** The files a run added to the directory: each is the file of one of the
    days [days], saved under the name of the downloader with the content
    the server holds at its address, at a path that was free. *)
Definition downloads_of (env : Env) (path spacecraft species viewing : string)
    (days : list date) (st st' : fs) : Prop :=
  exists added,
    files st' = files st ++ added
    /\ fetched st' = fetched st ++ map (download_url spacecraft species viewing) days
    /\ Forall2 (fun d kc =>
                  fst kc = local_path env path spacecraft species viewing d
                  /\ remote env (download_url spacecraft species viewing d)
                     = Some (snd kc)
                  /\ lookup (fst kc) (files st) = None)
               days added.

(* ================================================================= *)
(** ** A concrete environment to run the loader on *)

(** A fragment of the notation pandas reads durations in: a number followed
    by one of the units D, h, min, s, ms, us, ns. *)
Definition unit_ns (u : string) : option Z :=
  if (u =? "D")%string then Some day_ns
  else if (u =? "h")%string then Some (3600 * 10 ^ 9)
  else if (u =? "min")%string then Some (60 * 10 ^ 9)
  else if (u =? "s")%string then Some (10 ^ 9)
  else if (u =? "ms")%string then Some (10 ^ 6)
  else if (u =? "us")%string then Some (10 ^ 3)
  else if (u =? "ns")%string then Some 1
  else None.

Definition parse_duration (s : string) : option Z :=
  let '(k, n, rest) := read_digits (list_ascii_of_string s) 0 0 in
  match n with
  | O => None
  | S _ =>
      match unit_ns (string_of_list_ascii rest) with
      | Some u => Some (k * u)
      | None => None
      end
  end.

(** A resampling rule: as a duration, but the number may be left out and
    is then 1; the width must be positive. *)
Definition parse_rule (s : string) : option positive :=
  let '(k, n, rest) := read_digits (list_ascii_of_string s) 0 0 in
  match unit_ns (string_of_list_ascii rest) with
  | Some u =>
      match (match n with O => 1 | S _ => k end) * u with
      | Z.pos p => Some p
      | _ => None
      end
  | None => None
  end.

(** An absolute path is resolved; another one is read from the working
    directory [/home/user]. *)
Definition sample_resolve (p : string) : string :=
  if startswith "/" p then p else "/home/user/" +++ p.

(** The exact value of a finite float times [scale], rounded down. *)
Definition floor_scaled (scale : Z) (x : float) : Z :=
  match Prim2SF x with
  | S754_finite s m e =>
      let v := if s then - Z.pos m else Z.pos m in
      if 0 <=? e then v * 2 ^ e * scale else (v * scale) / 2 ^ (- e)
  | _ => 0
  end.

(** Days since the Julian epoch to nanoseconds since 1970-01-01, which is
    the Julian date 2440587.5. *)
Definition julian_ns (jd : float) : Z := floor_scaled day_ns (jd - 2440587.5)%float.

(** A record of a data file with [nch] channels: the Julian date, five
    calendar fields, the fluxes, the uncertainties, the integration time. *)
Definition sample_record (nch : nat) (jd flux : float) : line :=
  Fields ([jd; 2010; 107; 0; 0; 0]%float ++ repeat flux nch
          ++ repeat 0.1%float nch ++ [60%float]).

(** Day 107 of 2010 starts at the Julian date 2455303.5. *)
Definition sample_day_107 : datafile :=
  [Comment "# STEREO/SEPT level 2";
   sample_record 15 2455303.5 1.5;
   sample_record 15 2455303.5007 (-9999.900);
   sample_record 15 2455303.5014 2.5].

Definition sample_day_108 : datafile :=
  [sample_record 15 2455304.5 3.5; sample_record 15 2455304.5007 4.5].

Definition sample_ion_day_107 : datafile :=
  [sample_record 30 2455303.5 1.5; sample_record 30 2455303.5007 2.5].

Definition sample_url (species doy : string) : string :=
  ahead_base +++ "2010/sept_ahead_" +++ species +++ "_sun_2010_" +++ doy
  +++ "_1min_l2_v03.dat".

(** The last day of 2009 and the first day of 2010, which starts at the
    Julian date 2455197.5. *)
Definition sample_day_365 : datafile := [sample_record 15 2455196.5 5.5].
Definition sample_day_001 : datafile := [sample_record 15 2455197.5 6.5].

Definition sample_url_365 : string :=
  ahead_base +++ "2009/sept_ahead_ele_sun_2009_365_1min_l2_v03.dat".

(** The server holds five files. *)
Definition sample_remote (url : string) : option datafile :=
  if (url =? sample_url "ele" "107")%string then Some sample_day_107
  else if (url =? sample_url "ele" "108")%string then Some sample_day_108
  else if (url =? sample_url "ion" "107")%string then Some sample_ion_day_107
  else if (url =? sample_url_365)%string then Some sample_day_365
  else if (url =? sample_url "ele" "001")%string then Some sample_day_001
  else None.

Definition sample_env : Env :=
  {| cwd := "/home/user";
     pooch_cache := "/home/user/.cache/pooch";
     resolve := sample_resolve;
     remote := sample_remote;
     tqdm := true;
     to_offset := parse_rule;
     Timedelta := parse_duration;
     julian_to_datetime := julian_ns |}.

Definition empty_dir : fs := {| files := []; fetched := [] |}.

Definition sample_path_107 : string :=
  "/home/user/data/sept_ahead_ele_sun_2010_107_1min_l2_v03.dat".

(** A directory that already holds the file of day 107 of 2010. *)
Definition dir_with_day_107 : fs :=
  {| files := [(sample_path_107, sample_day_107)]; fetched := [] |}.

(** A directory whose file of day 107 has two records a minute apart with
    the fluxes -9998.9 and -10000.9. *)
Definition dir_with_mean_sentinel : fs :=
  {| files := [(sample_path_107,
                [sample_record 15 2455303.5 (-9998.9);
                 sample_record 15 2455303.5007 (-10000.9)])];
     fetched := [] |}.

(** A directory whose file of day 107 has a second record that stops after
    three fields. *)
Definition dir_with_short_record : fs :=
  {| files := [(sample_path_107,
                [sample_record 15 2455303.5 1.5;
                 Fields [2455303.5007; 2010; 107]%float])];
     fetched := [] |}.

(** A directory holding the files of days 9 and 10 of 2010 under names
    with the day of the year unpadded, which are the names the patterns of
    the loader match for these days. *)
Definition dir_with_unpadded_names : fs :=
  {| files := [("/home/user/data/sept_ahead_ele_sun_2010_9_a.dat",
                [sample_record 15 2455205.5 1.5]);
               ("/home/user/data/sept_ahead_ele_sun_2010_10_a.dat",
                [sample_record 15 2455206.5 2.5])];
     fetched := [] |}.

(** A table of three rows, at 00:01:00, 00:02:05 and 00:21:40 of day 107
    of 2010. *)
Definition sample_table : DataFrame :=
  {| index_name := Some "time";
     index := [1271462460000000000; 1271462525000000000; 1271463700000000000];
     columns := [("ch_2", [1; nan; 3]%float); ("err_ch_2", [0.5; 0.25; 0.125]%float)] |}.

(** A directory holding a file for the species code ELE, under the name
    the pattern of the loader asks for. *)
Definition dir_with_upper_case_species : fs :=
  {| files := [("/home/user/data/sept_ahead_ELE_sun_2010_107_a.dat", sample_day_107)];
     fetched := [] |}.

(** The days of 2010 as strings of the form 2010/doy or 2010-doy. *)
Definition sample_to_day (s : string) : result date :=
  if (startswith "2010/" s || startswith "2010-" s)
  then let '(doy, _, _) := read_digits (list_ascii_of_string (skipn_str 5 s)) 0 0 in
       Ok (Date 2010 doy)
  else Raise (ValueError ("Unknown datetime string format, unable to parse: " +++ s)).

(** A stand-in for the caller's values and for sunpy: start and end are
    strings, equal when they are the same string; a time range is a pair
    of strings; a search returns the name of the data set, the download
    gives two files for the HET of STEREO A and fails for any other data
    set, and every list of files reads as [sample_table]. *)
Definition sample_sunpy : Sunpy :=
  {| time_arg := string;
     arg_eqb := String.eqb;
     str_date := fun s => s;
     to_day := sample_to_day;
     trange := string * string;
     UnifiedResponse := string;
     a_Time := fun startdate enddate => Ok (startdate, enddate);
     Fido_search := fun _ dataset => ret dataset;
     Fido_fetch := fun found _ =>
       if (found =? "STA_L1_HET")%string
       then ret ["/home/user/sunpy/data/sta_l1_het_20100418_v01.cdf";
                 "/home/user/sunpy/data/sta_l1_het_20100417_v01.cdf"]
       else raise (Exn "RuntimeError" "Download failed");
     TimeSeries := fun _ => ret sample_table |}.

(* ================================================================= *)
(** ** Results *)

(* ----------------------------------------------------------------- *)
(** *** Lists and association lists *)

Lemma lookup_map_values {A B} (f : A -> B) (k : string) (l : list (string * A)) :
  lookup k (map (fun c => (fst c, f (snd c))) l) = option_map f (lookup k l).
Proof.
  induction l as [| [k' a] l IH]; simpl; [reflexivity |].
  destruct (k' =? k)%string; [reflexivity | exact IH].
Qed.

Lemma lookup_filter_if {A} (p : string -> bool) (k : string) (l : list (string * A)) :
  lookup k (filter (fun c => p (fst c)) l) = if p k then lookup k l else None.
Proof.
  induction l as [| [k' a] l IH]; simpl; [destruct (p k); reflexivity |].
  destruct (k' =? k)%string eqn:E.
  - apply String.eqb_eq in E. subst k'. revert IH. destruct (p k); simpl; intros IH.
    + rewrite String.eqb_refl. reflexivity.
    + exact IH.
  - destruct (p k'); simpl; [rewrite E |]; exact IH.
Qed.

Lemma lookup_in_names {A} (k : string) (l : list (string * A)) :
  In k (map fst l) -> exists a, lookup k l = Some a.
Proof.
  induction l as [| [k' a] l IH]; simpl; [contradiction |].
  intros [-> | Hin].
  - rewrite String.eqb_refl. exists a. reflexivity.
  - destruct (k' =? k)%string; [exists a; reflexivity | apply IH; exact Hin].
Qed.

Lemma lookup_in_keys {A} (k : string) (l : list (string * A)) a :
  lookup k l = Some a -> In k (map fst l).
Proof.
  induction l as [| [k' a'] l IH]; simpl; [discriminate |].
  destruct (k' =? k)%string eqn:E.
  - intros _. left. apply String.eqb_eq. exact E.
  - intros H. right. apply IH. exact H.
Qed.

Lemma lookup_filter {A} (p : string -> bool) (k : string) (l : list (string * A)) :
  p k = true -> lookup k (filter (fun c => p (fst c)) l) = lookup k l.
Proof.
  intros Hk. induction l as [| [k' a] l IH]; simpl; [reflexivity |].
  destruct (k' =? k)%string eqn:E.
  - apply String.eqb_eq in E. subst k'. rewrite Hk. simpl.
    rewrite String.eqb_refl. reflexivity.
  - destruct (p k'); simpl; [rewrite E |]; exact IH.
Qed.

Lemma map_fst_filter {A} (p : string -> bool) (l : list (string * A)) :
  map fst (filter (fun c => p (fst c)) l) = filter p (map fst l).
Proof.
  induction l as [| c l IH]; simpl; [reflexivity |].
  destruct (p (fst c)); simpl; rewrite IH; reflexivity.
Qed.

Lemma lookup_map_keyed {A B} (g : string -> A -> B) (k : string) (l : list (string * A)) :
  lookup k (map (fun c => (fst c, g (fst c) (snd c))) l) = option_map (g k) (lookup k l).
Proof.
  induction l as [| [k' a] l IH]; simpl; [reflexivity |].
  destruct (k' =? k)%string eqn:E; [| exact IH].
  apply String.eqb_eq in E. subst k'. reflexivity.
Qed.

Lemma lookup_app_some {A} k (l l' : list (string * A)) a :
  lookup k l = Some a -> lookup k (l ++ l') = Some a.
Proof.
  induction l as [| [k' a'] l IH]; simpl; [discriminate |].
  destruct (k' =? k)%string; [trivial | exact IH].
Qed.

Lemma lookup_app_new {A} k (l : list (string * A)) a :
  lookup k l = None -> lookup k (l ++ [(k, a)]) = Some a.
Proof.
  induction l as [| [k' a'] l IH]; simpl.
  - rewrite String.eqb_refl. reflexivity.
  - destruct (k' =? k)%string; [discriminate | exact IH].
Qed.

Lemma existsb_false_of_Forall {A} (p : A -> bool) (l : list A) :
  Forall (fun a => p a = false) l -> existsb p l = false.
Proof.
  induction 1 as [| a l Ha _ IH]; simpl; [reflexivity |]. rewrite Ha. exact IH.
Qed.

Lemma map_snd_combine_seq {A} (l : list A) : forall k,
  map snd (combine (seq k (List.length l)) l) = l.
Proof.
  induction l as [| a l IH]; intros k; simpl; [reflexivity |]. f_equal. apply IH.
Qed.

Lemma filter_head_or_nil {A} (p : A -> bool) (x : A) (l : list A) :
  (forall k, In k l -> p k = true -> k = x) ->
  filter p l = [] \/ exists l', filter p l = x :: l'.
Proof.
  intros H. destruct (filter p l) as [| k l'] eqn:E; [left; reflexivity | right].
  assert (Hk : In k (filter p l)) by (rewrite E; left; reflexivity).
  apply filter_In in Hk as [Hin Hp]. rewrite (H k Hin Hp). exists l'. reflexivity.
Qed.

Lemma nth_map_seq (f : nat -> Z) k i :
  (i < k)%nat -> nth i (map f (seq 0 k)) 0 = f i.
Proof.
  intros Hi. rewrite (nth_indep _ 0 (f 0%nat)) by (rewrite length_map, length_seq; exact Hi).
  rewrite map_nth. rewrite seq_nth by exact Hi. reflexivity.
Qed.

(* ----------------------------------------------------------------- *)
(** *** The optional resampling *)

(** C10: whatever is passed as [resample], the loader behaves as with
    [resample=None] (same outcome, same files), except for a [str], where
    [resample_df] is applied to that unresampled table: a value that is not
    a string, a [Timedelta] included, is passed over without any error of
    its own. *)
Theorem loader_resamples_only_for_str :
  forall env startdate enddate spacecraft species viewing resample path all_columns st,
    stereo_sept_loader env startdate enddate spacecraft species viewing
                       resample path all_columns st
    = match resample with
      | PyStr s =>
          (res <- stereo_sept_loader env startdate enddate spacecraft species
                                     viewing PyNone path all_columns ;;
           df <- lift (resample_df env (fst res) s) ;;
           ret (df, snd res)) st
      | _ => stereo_sept_loader env startdate enddate spacecraft species viewing
                                PyNone path all_columns st
      end.
Proof.
  intros. destruct resample; try reflexivity.
  unfold stereo_sept_loader, bind.
  destruct (build_filelist _ _ _ _ _ _) as [[filelist | e] st1]; [| reflexivity].
  destruct (lift (channel_catalog _) st1) as [[cat | e] st2]; [| reflexivity].
  destruct (read_files env _ _ st2) as [[raw | e] st3]; [| reflexivity].
  destruct (lift (assemble env all_columns raw) st3) as [[df | e] st4]; [| reflexivity].
  reflexivity.
Qed.

(* ----------------------------------------------------------------- *)
(** *** Errors of [resample_df] and [stereo_sept_download] *)

(** C4, as the code has it: a frequency string pandas cannot read (as a
    resampling rule, or as a [Timedelta]) makes [resample_df] raise the
    built-in [Warning], whatever the table, with a message that quotes the
    string.  No table is returned. *)
Theorem resample_df_unreadable_frequency :
  forall env df resample,
    to_offset env resample = None \/ Timedelta env resample = None ->
    resample_df env df resample = Raise (resample_warning resample).
Proof.
  intros env df resample H. unfold resample_df, resample_rule, pd_Timedelta.
  destruct (to_offset env resample) as [n |]; simpl.
  - destruct H as [H | H]; [discriminate |]. rewrite H. reflexivity.
  - reflexivity.
Qed.

Lemma resample_df_unreadable_frequency_witness :
  (to_offset sample_env "notafrequency" = None
   \/ Timedelta sample_env "notafrequency" = None)
  /\ resample_df sample_env (Build_DataFrame None [] []) "notafrequency"
     = Raise (resample_warning "notafrequency").
Proof.
  split.
  - left. reflexivity.
  - apply (resample_df_unreadable_frequency sample_env (Build_DataFrame None [] [])
             "notafrequency").
    left. reflexivity.
Defined.

(** C4 as the specification words it fails: the exception raised for
    "notafrequency" is of class [Warning], not a dedicated
    [InvalidFrequency]. *)
Lemma resample_df_raises_generic_warning :
  exists e,
    resample_df sample_env (Build_DataFrame (Some "time") [0] [("ch_2", [1%float])])
                "notafrequency" = Raise e
    /\ exn_class e = "Warning"
    /\ (exn_class e =? "InvalidFrequency")%string = false.
Proof.
  eexists. split; [reflexivity | split; reflexivity].
Qed.

(** C7, as the code has it: for a spacecraft code outside the four known
    ones, [stereo_sept_download] stops at the use of the unbound [base]
    with Python's [UnboundLocalError]; nothing is fetched or written and no
    path is returned. *)
Theorem download_unknown_spacecraft_unbound :
  forall env d spacecraft species viewing path st,
    known_spacecraft spacecraft = false ->
    stereo_sept_download env d spacecraft species viewing path st
    = (Raise (UnboundLocalError "base"), st).
Proof.
  intros env d spacecraft species viewing path st H.
  unfold known_spacecraft in H.
  apply orb_false_iff in H as [H Hb]. apply orb_false_iff in H as [H Hbehind].
  apply orb_false_iff in H as [Hahead Ha].
  unfold stereo_sept_download. rewrite Hahead, Ha, Hbehind, Hb. reflexivity.
Qed.

Lemma download_unknown_spacecraft_unbound_witness :
  known_spacecraft "mars" = false
  /\ stereo_sept_download sample_env (Date 2010 107) "mars" "e" "sun" None empty_dir
     = (Raise (UnboundLocalError "base"), empty_dir).
Proof.
  split.
  - reflexivity.
  - apply (download_unknown_spacecraft_unbound sample_env (Date 2010 107) "mars" "e"
             "sun" None empty_dir).
    reflexivity.
Defined.

(** C7 as the specification words it fails: the error for the code "mars"
    is an [UnboundLocalError], not an [UnknownSpacecraft]. *)
Lemma download_error_is_not_UnknownSpacecraft :
  exists e,
    fst (stereo_sept_download sample_env (Date 2010 107) "mars" "e" "sun"
           (Some "data") empty_dir) = Raise e
    /\ exn_class e = "UnboundLocalError"
    /\ (exn_class e =? "UnknownSpacecraft")%string = false.
Proof.
  eexists. split; [reflexivity | split; reflexivity].
Qed.

(* ----------------------------------------------------------------- *)
(** *** The shape of a successful load *)

Lemma read_csv_state env names file st r st' :
  read_csv env file names st = (r, st') -> st' = st.
Proof.
  unfold read_csv. destruct (lookup _ (files st)); intros H; inversion H; reflexivity.
Qed.

Lemma read_more_state env names l : forall df st r st',
  read_more env names l df st = (r, st') -> st' = st.
Proof.
  induction l as [| file rest IH]; intros df st r st' H; simpl in H.
  - inversion H. reflexivity.
  - unfold bind in H. destruct (read_csv env file names st) as [[t | e] st1] eqn:E.
    + apply read_csv_state in E. subst st1. eapply IH. exact H.
    + apply read_csv_state in E. inversion H. subst. reflexivity.
Qed.

Lemma read_files_state env names l st r st' :
  read_files env names l st = (r, st') -> st' = st.
Proof.
  unfold read_files, bind, lift. destruct (item l 0) as [f0 | e]; intros H.
  - destruct (read_csv env f0 names st) as [[t | e] st1] eqn:E.
    + apply read_csv_state in E. subst st1. eapply read_more_state. exact H.
    + apply read_csv_state in E. inversion H. subst. reflexivity.
  - inversion H. reflexivity.
Qed.

(** A load that succeeds went through the five stages of the loader. *)
Lemma loader_inv env startdate enddate spacecraft species viewing resample path
      all_columns st df cat st' :
  stereo_sept_loader env startdate enddate spacecraft species viewing resample
                     path all_columns st = (Ok (df, cat), st') ->
  exists filelist raw tbl,
    build_filelist env (loader_path env path) (loader_spacecraft spacecraft)
                   (loader_species species) viewing
                   (date_range startdate enddate) st = (Ok filelist, st')
    /\ channel_catalog (loader_species species) = Ok cat
    /\ read_files env (col_names cat) filelist st' = (Ok raw, st')
    /\ assemble env all_columns raw = Ok tbl
    /\ match resample with
       | PyStr s => resample_df env tbl s = Ok df
       | _ => df = tbl
       end.
Proof.
  unfold stereo_sept_loader, bind, lift, ret.
  fold (loader_species species). fold (loader_spacecraft spacecraft).
  fold (loader_path env path).
  destruct (build_filelist _ _ _ _ _ _ _) as [[filelist | e] st1] eqn:Hfiles;
    [| discriminate].
  destruct (channel_catalog _) as [cat' | e] eqn:Hcat; [| discriminate].
  destruct (read_files env _ _ st1) as [[raw | e] st2] eqn:Hread; [| discriminate].
  pose proof (read_files_state _ _ _ _ _ _ Hread) as ->.
  destruct (assemble env all_columns raw) as [tbl | e] eqn:Htbl; [| discriminate].
  intros H. exists filelist, raw, tbl.
  destruct resample;
    try (inversion H; subst; repeat split; assumption).
  destruct (resample_df env tbl s) as [df' | e] eqn:Hres; [| discriminate].
  inversion H; subst. repeat split; assumption.
Qed.

(* ----------------------------------------------------------------- *)
(** *** The channel catalog *)

Lemma channel_catalog_cases species cat :
  channel_catalog species = Ok cat ->
  (species = "ele" /\ channel_catalog "ele" = Ok cat)
  \/ (species = "ion" /\ channel_catalog "ion" = Ok cat).
Proof.
  intros H.
  destruct (species =? "ele")%string eqn:Eele.
  - apply String.eqb_eq in Eele. subst. left. split; [reflexivity | exact H].
  - destruct (species =? "ion")%string eqn:Eion.
    + apply String.eqb_eq in Eion. subst. right. split; [reflexivity | exact H].
    + unfold channel_catalog in H. rewrite Eele, Eion in H.
      destruct (mean_E_loop e_ch_strings); discriminate.
Qed.

(** C1, as the code has it: the catalog a successful load returns has 15
    channels for electrons, each with the geometric mean of the bounds of
    its label as mean energy, and 30 channels for ions, whose mean energies
    are a table of constants: the geometric means written with two
    decimals. *)
Theorem loader_catalog_sizes_and_means :
  forall env startdate enddate spacecraft species viewing resample path
         all_columns st df cat st',
    stereo_sept_loader env startdate enddate spacecraft species viewing resample
                       path all_columns st = (Ok (df, cat), st') ->
    (loader_species species = "ele"
     /\ List.length cat = 15%nat
     /\ forallb is_geometric_mean cat = true)
    \/ (loader_species species = "ion"
        /\ List.length cat = 30%nat
        /\ forallb is_geometric_mean_to_2_decimals cat = true).
Proof.
  intros env startdate enddate spacecraft species viewing resample path
         all_columns st df cat st' H.
  apply loader_inv in H as (filelist & raw & tbl & _ & Hcat & _).
  apply channel_catalog_cases in Hcat as [[Hs Hcat] | [Hs Hcat]].
  - left. split; [exact Hs |].
    vm_compute in Hcat. inversion Hcat; subst cat. split; vm_compute; reflexivity.
  - right. split; [exact Hs |].
    vm_compute in Hcat. inversion Hcat; subst cat. split; vm_compute; reflexivity.
Qed.

Lemma loader_catalog_sizes_and_means_witness :
  exists df cat st',
    stereo_sept_loader sample_env (Date 2010 107) (Date 2010 108) "a" "e" "sun"
                       PyNone None false empty_dir = (Ok (df, cat), st')
    /\ ((loader_species "e" = "ele"
         /\ List.length cat = 15%nat
         /\ forallb is_geometric_mean cat = true)
        \/ (loader_species "e" = "ion"
            /\ List.length cat = 30%nat
            /\ forallb is_geometric_mean_to_2_decimals cat = true)).
Proof.
  eexists _, _, _. split.
  - vm_compute. reflexivity.
  - eapply (loader_catalog_sizes_and_means sample_env (Date 2010 107) (Date 2010 108)
              "a" "e" "sun" PyNone None false empty_dir).
    vm_compute. reflexivity.
Defined.

(** C1 as the specification words it fails for ions: the first ion channel,
    labelled 84.1-92.7 keV, has the mean energy 88.30, and the geometric
    mean of 84.1 and 92.7 is 88.2953... *)
Lemma ion_mean_E_is_not_the_geometric_mean :
  exists df cat st',
    stereo_sept_loader sample_env (Date 2010 107) (Date 2010 107) "a" "p" "sun"
                       PyNone None false empty_dir = (Ok (df, cat), st')
    /\ List.length cat = 30%nat
    /\ map ch_string (firstn 1 cat) = ["84.1-92.7 keV"]
    /\ map ch_mean_E (firstn 1 cat) = [88.30%float]
    /\ map is_geometric_mean (firstn 1 cat) = [false]
    /\ forallb is_geometric_mean cat = false.
Proof.
  eexists _, _, _. split.
  - vm_compute. reflexivity.
  - repeat split; vm_compute; reflexivity.
Qed.

(* ----------------------------------------------------------------- *)
(** *** Records of the wrong length *)

(** C6, as the code has it: the reader does not check the number of
    fields.  When no record of the file has more fields than there are
    column names, [read_csv] raises nothing: the table has the expected
    columns, and a record with fewer fields has NaN in the columns it does
    not reach. *)
Theorem read_csv_fills_short_records :
  forall env names file f st,
    lookup (resolve env file) (files st) = Some f ->
    Forall (fun r => (List.length r <= List.length names)%nat) (data_rows f) ->
    exists df,
      read_csv env file names st = (Ok df, st)
      /\ column_names df = names
      /\ columns df
         = map (fun jn => (snd jn, map (fun r => nth (fst jn) r nan) (data_rows f)))
               (combine (seq 0 (List.length names)) names).
Proof.
  intros env names file f st Hfile Hshort.
  unfold read_csv. rewrite Hfile. unfold read_csv_rows.
  assert (Hw : Nat.max (List.length (hd [] (data_rows f))) (List.length names)
               = List.length names).
  { apply Nat.max_r. destruct (data_rows f) as [| r rows]; simpl; [lia |].
    inversion Hshort; assumption. }
  rewrite Hw.
  rewrite existsb_false_of_Forall.
  - rewrite Nat.sub_diag. eexists. split; [reflexivity |]. split.
    + unfold column_names; simpl. rewrite map_map; simpl. apply map_snd_combine_seq.
    + reflexivity.
  - destruct (data_rows f) as [| r rows]; simpl; [constructor |].
    inversion Hshort as [| ? ? _ Hrows]; subst.
    eapply Forall_impl; [| exact Hrows]. simpl. intros r' Hr'.
    apply Nat.ltb_ge. exact Hr'.
Qed.

Lemma read_csv_fills_short_records_witness :
  lookup (resolve sample_env sample_path_107) (files dir_with_short_record)
  = Some [sample_record 15 2455303.5 1.5; Fields [2455303.5007; 2010; 107]%float]
  /\ Forall (fun r => (List.length r <= List.length (col_names ele_catalog))%nat)
            (data_rows [sample_record 15 2455303.5 1.5;
                        Fields [2455303.5007; 2010; 107]%float])
  /\ exists df,
      read_csv sample_env sample_path_107 (col_names ele_catalog) dir_with_short_record
      = (Ok df, dir_with_short_record)
      /\ column_names df = col_names ele_catalog
      /\ columns df
         = map (fun jn => (snd jn,
                           map (fun r => nth (fst jn) r nan)
                               (data_rows [sample_record 15 2455303.5 1.5;
                                           Fields [2455303.5007; 2010; 107]%float])))
               (combine (seq 0 (List.length (col_names ele_catalog)))
                        (col_names ele_catalog)).
Proof.
  assert (Hshort :
    Forall (fun r => (List.length r <= List.length (col_names ele_catalog))%nat)
           (data_rows [sample_record 15 2455303.5 1.5;
                       Fields [2455303.5007; 2010; 107]%float])).
  { repeat (apply Forall_cons; [vm_compute; lia |]). apply Forall_nil. }
  split; [reflexivity |]. split; [exact Hshort |].
  apply (read_csv_fills_short_records sample_env (col_names ele_catalog) sample_path_107
           [sample_record 15 2455303.5 1.5; Fields [2455303.5007; 2010; 107]%float]
           dir_with_short_record); [reflexivity | exact Hshort].
Defined.

(** The one check pandas makes: a record after the first with more fields
    than both the first record and the list of names stops the reader. *)
Lemma read_csv_long_record names first rows r :
  In r rows ->
  (Nat.max (List.length first) (List.length names) < List.length r)%nat ->
  read_csv_rows names (first :: rows) = Raise ParserError.
Proof.
  intros Hin Hlong. unfold read_csv_rows; simpl.
  replace (existsb _ rows) with true; [reflexivity |].
  symmetry. apply existsb_exists. exists r. split; [exact Hin |].
  apply Nat.ltb_lt. exact Hlong.
Qed.

(** C6 as the specification words it fails: the load of a file whose second
    record has 3 fields instead of 37 succeeds, the fluxes of that record
    being NaN. *)
Lemma short_record_loads_silently :
  exists df cat st',
    stereo_sept_loader sample_env (Date 2010 107) (Date 2010 107) "a" "e" "sun"
                       PyNone None false dir_with_short_record
    = (Ok (df, cat), st')
    /\ map (@List.length float) (data_rows [sample_record 15 2455303.5 1.5;
                                            Fields [2455303.5007; 2010; 107]%float])
       = [37%nat; 3%nat]
    /\ lookup "ch_2" (columns df) = Some [1.5%float; nan]
    /\ fetched st' = [].
Proof.
  eexists _, _, _. split.
  - vm_compute. reflexivity.
  - repeat split; vm_compute; reflexivity.
Qed.

(* ----------------------------------------------------------------- *)
(** *** Columns and index of the returned table *)

Lemma concat_column_names df t_df : column_names (concat df t_df) = column_names df.
Proof.
  unfold column_names, concat; simpl. rewrite map_map. reflexivity.
Qed.

Lemma read_csv_column_names env names file st df st' :
  read_csv env file names st = (Ok df, st') -> column_names df = names.
Proof.
  unfold read_csv, read_csv_rows. destruct (lookup _ (files st)); [| discriminate].
  destruct (existsb _ _); [discriminate |]. intros H. inversion H.
  unfold column_names; simpl. rewrite map_map; simpl. apply map_snd_combine_seq.
Qed.

Lemma read_more_column_names env names l : forall df st raw st',
  read_more env names l df st = (Ok raw, st') -> column_names raw = column_names df.
Proof.
  induction l as [| file rest IH]; intros df st raw st' H; simpl in H.
  - inversion H. reflexivity.
  - unfold bind in H. destruct (read_csv env file names st) as [[t | e] st1]; [| discriminate].
    apply IH in H. rewrite H. apply concat_column_names.
Qed.

Lemma read_files_column_names env names l st raw st' :
  read_files env names l st = (Ok raw, st') -> column_names raw = names.
Proof.
  unfold read_files, bind, lift. destruct (item l 0) as [f0 | e]; [| discriminate].
  destruct (read_csv env f0 names st) as [[t | e] st1] eqn:E; [| discriminate].
  intros H. apply read_more_column_names in H. rewrite H.
  eapply read_csv_column_names. exact E.
Qed.

(** [drop] leaves the columns it is not asked to drop as they are. *)
Lemma drop_keeps_other_columns labels df df' name :
  drop labels df = Ok df' ->
  mem_str name labels = false ->
  lookup name (columns df') = lookup name (columns df)
  /\ index df' = index df /\ index_name df' = index_name df.
Proof.
  unfold drop. destruct (filter _ labels); [| discriminate].
  intros H Hname. inversion H; simpl. split; [| split; reflexivity].
  apply (lookup_filter (fun k => negb (mem_str k labels))). rewrite Hname. reflexivity.
Qed.

Lemma drop_column_names labels df df' :
  drop labels df = Ok df' ->
  column_names df' = filter (fun k => negb (mem_str k labels)) (column_names df).
Proof.
  unfold drop. destruct (filter _ labels); [| discriminate].
  intros H. inversion H. unfold column_names; simpl.
  apply (map_fst_filter (fun k => negb (mem_str k labels))).
Qed.

Lemma replace_column_names a b df : column_names (replace a b df) = column_names df.
Proof.
  unfold column_names, replace; simpl. rewrite map_map. reflexivity.
Qed.

Lemma resample_mean_names n df :
  column_names (resample_mean n df) = column_names df
  /\ index_name (resample_mean n df) = index_name df.
Proof.
  unfold resample_mean. destruct (index df) as [| t0 ts]; [split; reflexivity |].
  destruct (bin_edges _ _ n) as [fresult lresult].
  unfold column_names; simpl. rewrite map_map. split; reflexivity.
Qed.

Lemma resample_df_names env df s out :
  resample_df env df s = Ok out ->
  column_names out = column_names df /\ index_name out = index_name df.
Proof.
  unfold resample_df, bindR.
  destruct (resample_rule env s) as [n | e]; simpl.
  - destruct (pd_Timedelta env s) as [td | e]; simpl.
    + intros H. inversion H. unfold column_names; simpl. apply resample_mean_names.
    + destruct (exn_class e =? "ValueError")%string; discriminate.
  - destruct (exn_class e =? "ValueError")%string; discriminate.
Qed.

(** C9: without [all_columns], a successful load returns a table whose
    columns are the flux columns [ch_<id>] followed by the uncertainty
    columns [err_ch_<id>] and nothing else (the seven helper columns are
    gone), and whose index is named "time".  When no resampling follows, the
    index is the column [julian_date] of the data read, converted value by
    value, and each channel column is the column read with that name, its
    sentinels replaced: the drop itself changes no value. *)
Theorem loader_keeps_channel_columns :
  forall env startdate enddate spacecraft species viewing resample path st
         df cat st',
    stereo_sept_loader env startdate enddate spacecraft species viewing resample
                       path false st = (Ok (df, cat), st') ->
    column_names df = ch_names cat ++ err_ch_names cat
    /\ Forall (fun name => mem_str name (column_names df) = false) helper_columns
    /\ index_name df = Some "time"
    /\ exists filelist raw julian_date,
        build_filelist env (loader_path env path) (loader_spacecraft spacecraft)
                       (loader_species species) viewing
                       (date_range startdate enddate) st = (Ok filelist, st')
        /\ read_files env (col_names cat) filelist st' = (Ok raw, st')
        /\ getitem raw "julian_date" = Ok julian_date
        /\ (isinstance_str resample = false ->
            index df = map (julian_to_datetime env) julian_date
            /\ forall name,
                In name (ch_names cat ++ err_ch_names cat) ->
                lookup name (columns df)
                = option_map (map replace_sentinel) (lookup name (columns raw))).
Proof.
  intros env startdate enddate spacecraft species viewing resample path st
         df cat st' H.
  apply loader_inv in H as (filelist & raw & tbl & Hfiles & Hcat & Hread & Htbl & Hres).
  pose proof (read_files_column_names _ _ _ _ _ _ Hread) as Hnames.
  unfold assemble, bindR in Htbl.
  destruct (getitem raw "julian_date") as [jd | e] eqn:Hjd; [| discriminate].
  destruct (drop helper_columns _) as [dropped | e] eqn:Hdrop; [| discriminate].
  inversion Htbl as [Htbl']; clear Htbl.
  assert (Hcols : column_names tbl = ch_names cat ++ err_ch_names cat
                  /\ Forall (fun name => mem_str name (column_names tbl) = false)
                            helper_columns
                  /\ Forall (fun name => mem_str name helper_columns = false)
                            (ch_names cat ++ err_ch_names cat)).
  { subst tbl. rewrite replace_column_names.
    rewrite (drop_column_names _ _ _ Hdrop).
    change (column_names (set_index raw (map (julian_to_datetime env) jd) (Some "time")))
      with (column_names raw).
    rewrite Hnames.
    apply channel_catalog_cases in Hcat as [[_ Hcat] | [_ Hcat]];
      vm_compute in Hcat; inversion Hcat; subst cat;
      (split; [vm_compute; reflexivity |]);
      (split; apply Forall_forall; intros name Hin; simpl in Hin;
       repeat (destruct Hin as [<- | Hin]; [vm_compute; reflexivity |]);
       contradiction). }
  destruct Hcols as (Hc1 & Hc2 & Hc3).
  assert (Hname : index_name tbl = Some "time").
  { subst tbl. simpl. unfold drop in Hdrop.
    destruct (filter _ helper_columns); [| discriminate]. inversion Hdrop. reflexivity. }
  assert (Hdf : column_names df = column_names tbl /\ index_name df = index_name tbl).
  { destruct resample; try (subst df; split; reflexivity).
    apply resample_df_names in Hres. exact Hres. }
  destruct Hdf as [Hd1 Hd2].
  split; [rewrite Hd1; exact Hc1 |].
  split; [rewrite Hd1; exact Hc2 |].
  split; [rewrite Hd2; exact Hname |].
  exists filelist, raw, jd. repeat split; try assumption.
  - destruct resample; try discriminate; subst df tbl; simpl;
      unfold drop in Hdrop; (destruct (filter _ helper_columns); [| discriminate]);
      inversion Hdrop; reflexivity.
  - intros name Hin.
    assert (Hm : mem_str name helper_columns = false).
    { rewrite Forall_forall in Hc3. apply Hc3. exact Hin. }
    assert (Hdf : df = tbl) by (destruct resample; try discriminate; assumption).
    rewrite Hdf. subst tbl. unfold replace; simpl.
    rewrite (lookup_map_values (map (fun x => if PrimFloat.eqb x sentinel then nan else x))).
    destruct (drop_keeps_other_columns _ _ _ _ Hdrop Hm) as [-> _]. reflexivity.
Qed.

Lemma loader_keeps_channel_columns_witness :
  exists df cat st',
    stereo_sept_loader sample_env (Date 2010 107) (Date 2010 108) "a" "e" "sun"
                       PyNone None false empty_dir = (Ok (df, cat), st')
    /\ column_names df = ch_names cat ++ err_ch_names cat
    /\ Forall (fun name => mem_str name (column_names df) = false) helper_columns
    /\ index_name df = Some "time"
    /\ exists filelist raw julian_date,
        build_filelist sample_env (loader_path sample_env None) (loader_spacecraft "a")
                       (loader_species "e") "sun"
                       (date_range (Date 2010 107) (Date 2010 108)) empty_dir
        = (Ok filelist, st')
        /\ read_files sample_env (col_names cat) filelist st' = (Ok raw, st')
        /\ getitem raw "julian_date" = Ok julian_date
        /\ (isinstance_str PyNone = false ->
            index df = map (julian_to_datetime sample_env) julian_date
            /\ forall name,
                In name (ch_names cat ++ err_ch_names cat) ->
                lookup name (columns df)
                = option_map (map replace_sentinel) (lookup name (columns raw))).
Proof.
  eexists _, _, _. split.
  - vm_compute. reflexivity.
  - eapply (loader_keeps_channel_columns sample_env (Date 2010 107) (Date 2010 108)
              "a" "e" "sun" PyNone None empty_dir).
    vm_compute. reflexivity.
Defined.

(* ----------------------------------------------------------------- *)
(** *** The sentinel *)

Lemma replace_no_sentinel df : no_sentinel (replace sentinel nan df).
Proof.
  unfold no_sentinel, replace; simpl.
  apply Forall_forall. intros c Hc. apply in_map_iff in Hc as (c0 & <- & _). simpl.
  apply Forall_forall. intros x Hx. apply in_map_iff in Hx as (x0 & <- & _).
  destruct (PrimFloat.eqb x0 sentinel) eqn:E; [reflexivity | exact E].
Qed.

(** Each column of the assembled table is the column read under that name
    with its sentinels replaced. *)
Lemma assemble_columns env all_columns raw tbl :
  assemble env all_columns raw = Ok tbl ->
  no_sentinel tbl
  /\ forall name,
      In name (column_names tbl) ->
      lookup name (columns tbl)
      = option_map (map replace_sentinel) (lookup name (columns raw)).
Proof.
  unfold assemble, bindR. intros H.
  destruct (getitem raw "julian_date") as [jd | e]; [| discriminate].
  destruct all_columns.
  - inversion H. split; [apply replace_no_sentinel |].
    intros name _. apply (lookup_map_values (map replace_sentinel)).
  - destruct (drop helper_columns _) as [dropped | e] eqn:Hdrop; [| discriminate].
    inversion H. split; [apply replace_no_sentinel |].
    intros name Hin. rewrite replace_column_names in Hin.
    rewrite (drop_column_names _ _ _ Hdrop) in Hin.
    apply filter_In in Hin as [_ Hkeep]. apply negb_true_iff in Hkeep.
    unfold replace; cbn [columns].
    rewrite (lookup_map_values (map replace_sentinel)). f_equal.
    destruct (drop_keeps_other_columns _ _ _ name Hdrop Hkeep) as [-> _]. reflexivity.
Qed.

(** C2, as the code has it: in a successful load every value equal to
    -9999.900 in the data read is replaced by NaN before the optional
    resampling.  The table [resample_df] receives has the columns of the
    data read (the helper columns apart) with [replace_sentinel] applied to
    every value, and holds no value equal to the sentinel; when [resample]
    is not a string that table is the one returned. *)
Theorem loader_replaces_sentinel :
  forall env startdate enddate spacecraft species viewing resample path
         all_columns st df cat st',
    stereo_sept_loader env startdate enddate spacecraft species viewing resample
                       path all_columns st = (Ok (df, cat), st') ->
    exists filelist raw tbl,
      read_files env (col_names cat) filelist st' = (Ok raw, st')
      /\ (forall name,
             In name (column_names tbl) ->
             lookup name (columns tbl)
             = option_map (map replace_sentinel) (lookup name (columns raw)))
      /\ no_sentinel tbl
      /\ match resample with
         | PyStr s => resample_df env tbl s = Ok df
         | _ => df = tbl /\ no_sentinel df
         end.
Proof.
  intros env startdate enddate spacecraft species viewing resample path
         all_columns st df cat st' H.
  apply loader_inv in H as (filelist & raw & tbl & _ & _ & Hread & Htbl & Hres).
  apply assemble_columns in Htbl as [Hno Hcols].
  exists filelist, raw, tbl. split; [exact Hread |]. split; [exact Hcols |].
  split; [exact Hno |].
  destruct resample; try (split; [exact Hres | subst; exact Hno]).
  exact Hres.
Qed.

Lemma loader_replaces_sentinel_witness :
  exists df cat st',
    stereo_sept_loader sample_env (Date 2010 107) (Date 2010 108) "a" "e" "sun"
                       PyNone None false empty_dir = (Ok (df, cat), st')
    /\ exists filelist raw tbl,
        read_files sample_env (col_names cat) filelist st' = (Ok raw, st')
        /\ (forall name,
               In name (column_names tbl) ->
               lookup name (columns tbl)
               = option_map (map replace_sentinel) (lookup name (columns raw)))
        /\ no_sentinel tbl
        /\ df = tbl /\ no_sentinel df.
Proof.
  eexists _, _, _. split.
  - vm_compute. reflexivity.
  - eapply (loader_replaces_sentinel sample_env (Date 2010 107) (Date 2010 108)
              "a" "e" "sun" PyNone None false empty_dir).
    vm_compute. reflexivity.
Defined.

(** On the sample files: the second record of day 107 holds the sentinel
    in every flux column. *)
Example loader_sample_fluxes :
  exists df cat st',
    stereo_sept_loader sample_env (Date 2010 107) (Date 2010 108) "a" "e" "sun"
                       PyNone None false empty_dir = (Ok (df, cat), st')
    /\ lookup "ch_2" (columns df) = Some [1.5; nan; 2.5; 3.5; 4.5]%float.
Proof.
  eexists _, _, _. split; vm_compute; reflexivity.
Qed.

(** C2 as the specification words it fails: with [resample='10min'] the
    two fluxes, neither of them the sentinel, fall in one bin, and their
    mean, a value of the returned table, is -9999.900. *)
Lemma resampled_mean_equals_sentinel :
  exists df cat st',
    stereo_sept_loader sample_env (Date 2010 107) (Date 2010 107) "a" "e" "sun"
                       (PyStr "10min") None false dir_with_mean_sentinel
    = (Ok (df, cat), st')
    /\ lookup "ch_2" (columns df) = Some [sentinel]
    /\ has_sentinel df = true.
Proof.
  eexists _, _, _. split.
  - vm_compute. reflexivity.
  - split; vm_compute; reflexivity.
Qed.

(* ----------------------------------------------------------------- *)
(** *** Resampling *)

Lemma fold_min_spec ts : forall t0,
  fold_left Z.min ts t0 <= t0
  /\ (forall t, In t ts -> fold_left Z.min ts t0 <= t)
  /\ In (fold_left Z.min ts t0) (t0 :: ts).
Proof.
  induction ts as [| t ts IH]; intros t0; simpl.
  - split; [lia |]. split; [contradiction | left; reflexivity].
  - destruct (IH (Z.min t0 t)) as (H1 & H2 & H3). split; [lia |]. split.
    + intros t' [<- | Hin]; [lia | apply H2; exact Hin].
    + destruct H3 as [H3 | H3]; [| right; right; exact H3].
      rewrite <- H3.
      destruct (Z.min_spec t0 t) as [[_ E] | [_ E]]; rewrite E; auto.
Qed.

Lemma fold_max_spec ts : forall t0,
  t0 <= fold_left Z.max ts t0
  /\ (forall t, In t ts -> t <= fold_left Z.max ts t0).
Proof.
  induction ts as [| t ts IH]; intros t0; simpl.
  - split; [lia | contradiction].
  - destruct (IH (Z.max t0 t)) as (H1 & H2). split; [lia |].
    intros t' [<- | Hin]; [lia | apply H2; exact Hin].
Qed.

(** The first edge is the last multiple of the bin width, counted from the
    midnight before the first row, that is not after the first row; the
    last edge is the first such multiple after the last row. *)
Lemma bin_edges_eq first last n :
  0 < n ->
  bin_edges first last n
  = (first - (first - normalize first) mod n,
     last + n - (last - normalize first) mod n).
Proof.
  intros Hn. unfold bin_edges.
  pose proof (Z.mod_pos_bound (first - normalize first) n Hn) as Hf.
  pose proof (Z.mod_pos_bound (last - normalize first) n Hn) as Hl.
  f_equal.
  - destruct (0 <? _) eqn:E; [reflexivity |]. apply Z.ltb_ge in E. lia.
  - destruct (0 <? _) eqn:E; [lia |]. apply Z.ltb_ge in E. lia.
Qed.

Lemma bin_count first last n o :
  0 < n -> first <= last ->
  let fresult := first - (first - o) mod n in
  let lresult := last + n - (last - o) mod n in
  lresult - fresult = n * ((lresult - fresult) / n)
  /\ 0 < (lresult - fresult) / n
  /\ fresult <= first < fresult + n
  /\ last < lresult.
Proof.
  intros Hn Hle fresult lresult.
  pose proof (Z.mod_pos_bound (first - o) n Hn) as Hf.
  pose proof (Z.mod_pos_bound (last - o) n Hn) as Hl.
  pose proof (Z.div_mod (first - o) n ltac:(lia)) as Ef.
  pose proof (Z.div_mod (last - o) n ltac:(lia)) as El.
  assert (E : lresult - fresult = ((last - o) / n + 1 - (first - o) / n) * n).
  { unfold fresult, lresult. lia. }
  assert (Hq : (lresult - fresult) / n = (last - o) / n + 1 - (first - o) / n).
  { rewrite E. apply Z.div_mul. lia. }
  assert (Hmono : (first - o) / n <= (last - o) / n).
  { apply Z.div_le_mono; lia. }
  rewrite Hq. repeat split; unfold fresult, lresult in *; try lia.
Qed.

(** The bin a timestamp between the edges falls in. *)
Lemma in_some_bin fresult n k t :
  0 < n -> fresult <= t < fresult + Z.of_nat k * n ->
  exists i, (i < k)%nat /\ in_bin n (fresult + Z.of_nat i * n) t = true.
Proof.
  intros Hn Ht. exists (Z.to_nat ((t - fresult) / n)).
  pose proof (Z.div_mod (t - fresult) n ltac:(lia)) as E.
  pose proof (Z.mod_pos_bound (t - fresult) n Hn) as Hm.
  assert (Hq : 0 <= (t - fresult) / n) by (apply Z.div_pos; lia).
  assert (Hk : (t - fresult) / n < Z.of_nat k).
  { apply Z.div_lt_upper_bound; [lia |]. lia. }
  split; [lia |].
  unfold in_bin. rewrite Z2Nat.id by lia.
  apply andb_true_iff. split; [apply Z.leb_le | apply Z.ltb_lt]; lia.
Qed.

Lemma resample_mean_eq n df t0 ts :
  0 < n -> index df = t0 :: ts ->
  let first := fold_left Z.min ts t0 in
  let last := fold_left Z.max ts t0 in
  let fresult := first - (first - normalize first) mod n in
  let lresult := last + n - (last - normalize first) mod n in
  let k := Z.to_nat ((lresult - fresult) / n) in
  resample_mean n df
  = {| index_name := index_name df;
       index := map (fun i => fresult + Z.of_nat i * n) (seq 0 k);
       columns :=
         map (fun c =>
                (fst c,
                 map (fun i => mean_skipna
                                 (bin_values n (combine (index df) (snd c))
                                             (fresult + Z.of_nat i * n)))
                     (seq 0 k)))
             (columns df) |}.
Proof.
  intros Hn Hidx first last fresult lresult k.
  unfold resample_mean. rewrite Hidx. fold first last.
  rewrite bin_edges_eq by exact Hn. fold fresult lresult.
  unfold bin_labels. fold k. f_equal.
  apply map_ext. intros c. f_equal. rewrite map_map. reflexivity.
Qed.

Lemma insert_row_perm a l : Permutation (insert_row a l) (a :: l).
Proof.
  induction l as [| b l IH]; simpl; [apply Permutation_refl |].
  destruct (fst a <=? fst b); [apply Permutation_refl |].
  apply perm_trans with (b :: a :: l); [apply perm_skip; exact IH | apply perm_swap].
Qed.

(** Sorting the rows loses none and adds none. *)
Lemma sort_rows_perm l : Permutation (sort_rows l) l.
Proof.
  induction l as [| a l IH]; simpl; [apply perm_nil |].
  apply perm_trans with (a :: sort_rows l); [apply insert_row_perm |].
  apply perm_skip. exact IH.
Qed.

Lemma insert_row_sorted a l :
  Sorted (fun x y => fst x <= fst y) l ->
  Sorted (fun x y => fst x <= fst y) (insert_row a l).
Proof.
  induction 1 as [| b l Hl IH Hb]; simpl; [repeat constructor |].
  destruct (fst a <=? fst b) eqn:E.
  - apply Z.leb_le in E. repeat constructor; assumption.
  - apply Z.leb_gt in E. constructor; [exact IH |].
    destruct l as [| c l]; simpl; [constructor; lia |].
    destruct (fst a <=? fst c); constructor; [lia |].
    inversion Hb. assumption.
Qed.

(** The rows come out in index order. *)
Lemma sort_rows_sorted l : Sorted (fun x y => fst x <= fst y) (sort_rows l).
Proof.
  induction l as [| a l IH]; simpl; [constructor | apply insert_row_sorted; exact IH].
Qed.

Lemma filter_perm {A} (p : A -> bool) (l l' : list A) :
  Permutation l l' -> Permutation (filter p l) (filter p l').
Proof.
  induction 1 as [| x l l' _ IH | x y l | l l' l'' _ IH1 _ IH2]; simpl.
  - apply perm_nil.
  - destruct (p x); [apply perm_skip |]; exact IH.
  - destruct (p x), (p y); try apply Permutation_refl. apply perm_swap.
  - eapply perm_trans; eassumption.
Qed.

(** The values of a bin are those of the rows stamped within it, each as
    often as it occurs. *)
Lemma bin_values_perm n rows b :
  Permutation (bin_values n rows b)
              (map snd (filter (fun r => in_bin n b (fst r)) rows)).
Proof.
  unfold bin_values. apply Permutation_map. apply filter_perm. apply sort_rows_perm.
Qed.

Lemma bin_values_spec n rows b x :
  In x (bin_values n rows b) <-> exists t, In (t, x) rows /\ b <= t < b + n.
Proof.
  assert (H : In x (map snd (filter (fun r => in_bin n b (fst r)) rows))
              <-> exists t, In (t, x) rows /\ b <= t < b + n).
  { rewrite in_map_iff. split.
    - intros ([t x'] & Hx & Hin). simpl in Hx. subst x'.
      apply filter_In in Hin as [Hin Hbin].
      unfold in_bin in Hbin; simpl in Hbin. apply andb_true_iff in Hbin as [H1 H2].
      exists t. split; [exact Hin | lia].
    - intros (t & Hin & Ht). exists (t, x). split; [reflexivity |].
      apply filter_In. split; [exact Hin |].
      unfold in_bin; simpl. apply andb_true_iff. split; lia. }
  rewrite <- H. split; apply Permutation_in;
    [apply bin_values_perm | apply Permutation_sym, bin_values_perm].
Qed.

(** The mean passes over NaN. *)
Lemma mean_skipna_ignores_nan vals :
  mean_skipna vals = mean_skipna (filter (fun x => PrimFloat.eqb x x) vals).
Proof.
  unfold mean_skipna.
  assert (H : forall acc, fold_left kahan_step vals acc
                          = fold_left kahan_step (filter (fun x => PrimFloat.eqb x x) vals) acc).
  { induction vals as [| x vals IH]; intros acc; simpl; [reflexivity |].
    destruct (PrimFloat.eqb x x) eqn:E; simpl.
    - apply IH.
    - rewrite <- IH. f_equal. unfold kahan_step. destruct acc as [[s c] k].
      rewrite E. reflexivity. }
  rewrite H. reflexivity.
Qed.

Lemma filter_strongly_sorted {A} (R : A -> A -> Prop) (p : A -> bool) l :
  StronglySorted R l -> StronglySorted R (filter p l).
Proof.
  induction 1 as [| a l Hl IH Ha]; simpl; [constructor |].
  destruct (p a); [| exact IH].
  constructor; [exact IH |].
  apply Forall_forall. intros x Hx. apply filter_In in Hx as [Hx _].
  rewrite Forall_forall in Ha. apply Ha. exact Hx.
Qed.

(** The rows of a bin: those stamped within it, in the order of their
    stamps. *)
Lemma bin_rows_spec n rows b :
  let bucket := filter (fun r => in_bin n b (fst r)) (sort_rows rows) in
  Permutation bucket (filter (fun r => in_bin n b (fst r)) rows)
  /\ Sorted (fun x y => fst x <= fst y) bucket
  /\ bin_values n rows b = map snd bucket.
Proof.
  intros bucket. split; [apply filter_perm, sort_rows_perm |].
  split; [| reflexivity].
  apply StronglySorted_Sorted. apply filter_strongly_sorted.
  apply Sorted_StronglySorted; [| apply sort_rows_sorted].
  intros x y z Hxy Hyz. lia.
Qed.

Lemma not_nan_SF x : PrimFloat.eqb x x = true -> Prim2SF x <> S754_nan.
Proof.
  rewrite eqb_spec. intros H E. rewrite E in H. discriminate H.
Qed.

Lemma sub_zero x : PrimFloat.eqb x x = true -> (x - 0)%float = x.
Proof.
  intros H. apply Prim2SF_inj. rewrite sub_spec.
  change (Prim2SF 0) with (S754_zero false).
  pose proof (not_nan_SF x H) as Hn.
  destruct (Prim2SF x) as [[] | [] | | s m e]; try reflexivity; contradiction.
Qed.

Lemma SFsub_diag s m e : SF64sub (S754_finite s m e) (S754_finite s m e) = S754_zero false.
Proof.
  unfold SF64sub, SFsub. cbv zeta. rewrite Z.min_id.
  unfold shl_align. rewrite !Z.sub_diag. reflexivity.
Qed.

(** From an empty running sum the first value is taken without loss. *)
Lemma first_step_exact v : PrimFloat.eqb v v = true -> exact_step 0 v.
Proof.
  intros H. unfold exact_step. cbv zeta.
  pose proof (not_nan_SF v H) as Hn.
  assert (E : Prim2SF (0 + v - 0 - v)%float = S754_zero false
              \/ Prim2SF (0 + v - 0 - v)%float = S754_nan).
  { rewrite !sub_spec, add_spec. change (Prim2SF 0) with (S754_zero false).
    destruct (Prim2SF v) as [[] | [] | | s m e]; try (left; reflexivity);
      try (right; reflexivity); try contradiction.
    left. cbn [SF64add SFadd SF64sub SFsub]. apply SFsub_diag. }
  destruct E as [E | E].
  - left. apply Prim2SF_inj. exact E.
  - right. unfold is_nan. rewrite eqb_spec, E. reflexivity.
Qed.

(** One step of the compensated sum from a compensation of zero: the
    value is added as it is, and an exact step leaves the compensation at
    zero. *)
Lemma kahan_step_exact s n v :
  PrimFloat.eqb v v = true ->
  exists c, kahan_step (s, 0%float, n) v = ((s + v)%float, c, n + 1)
            /\ (exact_step s v -> c = 0%float).
Proof.
  intros H. unfold kahan_step. rewrite H, (sub_zero v H).
  eexists. split; [reflexivity |].
  unfold exact_step, is_nan. cbv zeta. intros [-> | E]; [reflexivity |].
  apply negb_true_iff in E. rewrite E. reflexivity.
Qed.

Lemma fold_kahan_exact p : forall s n,
  Forall (fun v => PrimFloat.eqb v v = true) p ->
  sums_exactly s p ->
  exists c, fold_left kahan_step p (s, 0%float, n)
            = (fold_left PrimFloat.add p s, c, n + Z.of_nat (List.length p)).
Proof.
  induction p as [| v p IH]; intros s n Hp Hs.
  - exists 0%float. simpl. rewrite Z.add_0_r. reflexivity.
  - inversion Hp as [| ? ? Hv Hp']; subst.
    destruct (kahan_step_exact s n v Hv) as (c & Hstep & Hc).
    cbn [fold_left]. rewrite Hstep.
    destruct p as [| w p].
    + exists c. simpl. reflexivity.
    + destruct Hs as [Hexact Hrest]. rewrite (Hc Hexact).
      destruct (IH (s + v)%float (n + 1) Hp' Hrest) as (c' & ->).
      exists c'. cbn [fold_left]. f_equal.
      change (List.length (v :: w :: p)) with (S (List.length (w :: p))). lia.
Qed.

Lemma present_all vals : Forall (fun v => PrimFloat.eqb v v = true) (present vals).
Proof.
  apply Forall_forall. intros v Hv. apply filter_In in Hv as [_ Hv].
  unfold is_nan in Hv. rewrite negb_involutive in Hv. exact Hv.
Qed.

Lemma fold_kahan_present vals : forall acc,
  fold_left kahan_step vals acc = fold_left kahan_step (present vals) acc.
Proof.
  induction vals as [| x vals IH]; intros acc; [reflexivity |].
  cbn [present filter fold_left]. unfold is_nan. rewrite negb_involutive.
  destruct (PrimFloat.eqb x x) eqn:E.
  - cbn [fold_left]. apply IH.
  - rewrite <- IH. f_equal. unfold kahan_step. destruct acc as [[s c] k].
    rewrite E. reflexivity.
Qed.

(** The compensated mean of pandas against the mean as the words have
    it: the two agree whenever the values present add up without loss. *)
Lemma mean_skipna_arithmetic vals :
  sums_exactly 0 (present vals) -> mean_skipna vals = arithmetic_mean vals.
Proof.
  intros H. unfold mean_skipna, arithmetic_mean.
  rewrite fold_kahan_present.
  destruct (fold_kahan_exact (present vals) 0%float 0 (present_all vals) H) as (c & ->).
  destruct (present vals) as [| v p]; [reflexivity |].
  cbn [List.length]. rewrite Z.add_0_l.
  destruct (Z.of_nat (S (List.length p)) =? 0) eqn:E; [| reflexivity].
  apply Z.eqb_eq in E. lia.
Qed.

(** Up to two values always do. *)
Lemma sums_exactly_short p :
  Forall (fun v => PrimFloat.eqb v v = true) p ->
  (List.length p <= 2)%nat -> sums_exactly 0 p.
Proof.
  intros Hp Hlen. destruct p as [| a [| b [| c p]]]; simpl in *; try exact I.
  - split; [| exact I]. apply first_step_exact. inversion Hp. assumption.
  - lia.
Qed.



(** On the sample table: three bins of ten minutes from midnight, stamped
    at minutes 5, 15 and 25; the NaN of the first bin is passed over, the
    second bin is empty. *)
Example resample_df_sample :
  resample_df sample_env sample_table "10min"
  = Ok {| index_name := Some "time";
          index := [1271462700000000000; 1271463300000000000; 1271463900000000000];
          columns := [("ch_2", [1; nan; 3]%float);
                      ("err_ch_2", [0.375; nan; 0.125]%float)] |}.
Proof. vm_compute. reflexivity. Qed.


(* ----------------------------------------------------------------- *)
(** *** The days of a range *)

Lemma year_length_bounds y : 365 <= year_length y <= 366.
Proof. unfold year_length. destruct (is_leap y); lia. Qed.

Lemma days_before_next_year y :
  days_before_year (y + 1) = days_before_year y + year_length y.
Proof.
  unfold days_before_year, year_length, is_leap.
  replace (y + 1 - 1) with y by lia.
  destruct (y mod 4 =? 0) eqn:E4; destruct (y mod 100 =? 0) eqn:E100;
    destruct (y mod 400 =? 0) eqn:E400; cbn [andb orb negb];
    repeat match goal with
           | H : (_ =? _) = true |- _ => apply Z.eqb_eq in H
           | H : (_ =? _) = false |- _ => apply Z.eqb_neq in H
           end;
    Z.div_mod_to_equations; lia.
Qed.

Lemma toordinal_next_day d :
  valid_day d ->
  toordinal (next_day d) = toordinal d + 1 /\ valid_day (next_day d).
Proof.
  unfold valid_day, toordinal, next_day. intros [H1 H2].
  destruct (day_of_year d <? year_length (year d)) eqn:E; simpl.
  - apply Z.ltb_lt in E. split; lia.
  - apply Z.ltb_ge in E. rewrite days_before_next_year.
    pose proof (year_length_bounds (year d + 1)). split; lia.
Qed.

Lemma days_before_year_mono y1 y2 :
  y1 <= y2 -> days_before_year y1 + 365 * (y2 - y1) <= days_before_year y2.
Proof.
  intros H.
  assert (Hk : forall k, 0 <= k ->
                         days_before_year y1 + 365 * k <= days_before_year (y1 + k)).
  { intros k Hk. pattern k. apply natlike_ind; [| | exact Hk].
    - replace (y1 + 0) with y1 by lia. lia.
    - intros x Hx IH. replace (y1 + Z.succ x) with (y1 + x + 1) by lia.
      rewrite days_before_next_year. pose proof (year_length_bounds (y1 + x)). lia. }
  specialize (Hk (y2 - y1) ltac:(lia)).
  replace (y1 + (y2 - y1)) with y2 in Hk by lia. exact Hk.
Qed.

(** The ordinal orders days as year and day of the year do. *)
Lemma toordinal_lt a b :
  valid_day a -> valid_day b ->
  (toordinal a < toordinal b
   <-> year a < year b \/ (year a = year b /\ day_of_year a < day_of_year b)).
Proof.
  unfold valid_day, toordinal. intros Ha Hb.
  pose proof (year_length_bounds (year a)). pose proof (year_length_bounds (year b)).
  destruct (Z.lt_trichotomy (year a) (year b)) as [Hlt | [Heq | Hgt]].
  - pose proof (days_before_year_mono (year a + 1) (year b) ltac:(lia)) as Hm.
    rewrite days_before_next_year in Hm. split; [intros _; left; exact Hlt | lia].
  - rewrite Heq in *. split; [intros; right; lia | lia].
  - pose proof (days_before_year_mono (year b + 1) (year a) ltac:(lia)) as Hm.
    rewrite days_before_next_year in Hm. split; lia.
Qed.

Lemma toordinal_inj a b :
  valid_day a -> valid_day b -> toordinal a = toordinal b -> a = b.
Proof.
  intros Ha Hb H.
  pose proof (toordinal_lt a b Ha Hb) as H1. pose proof (toordinal_lt b a Hb Ha) as H2.
  destruct a as [ya da], b as [yb db]; simpl in *.
  assert (ya = yb) by lia. subst yb.
  assert (da = db) by lia. subst db. reflexivity.
Qed.

Lemma days_from_spec n : forall d x,
  valid_day d ->
  In x (days_from n d) ->
  valid_day x /\ toordinal d <= toordinal x < toordinal d + Z.of_nat n.
Proof.
  induction n as [| n IH]; intros d x Hd Hin; simpl in Hin; [contradiction |].
  destruct (toordinal_next_day d Hd) as [Hord Hvalid].
  destruct Hin as [<- | Hin]; [split; [exact Hd | lia] |].
  destruct (IH _ _ Hvalid Hin) as [Hx Hb]. split; [exact Hx | lia].
Qed.

(** The days of a range are consecutive. *)
Lemma days_from_ordinals n : forall d,
  valid_day d ->
  map toordinal (days_from n d) = map (fun i => toordinal d + Z.of_nat i) (seq 0 n).
Proof.
  induction n as [| n IH]; intros d Hd; [reflexivity |].
  destruct (toordinal_next_day d Hd) as [Hord Hvalid]. simpl. f_equal; [lia |].
  rewrite IH by exact Hvalid. rewrite <- seq_shift, map_map.
  apply map_ext. intros i. lia.
Qed.

Lemma date_range_valid startdate enddate d :
  valid_date startdate -> valid_date enddate ->
  In d (date_range startdate enddate) -> valid_date d.
Proof.
  intros [Hys Hs] [Hye He] Hin. unfold date_range in Hin.
  destruct (days_from_spec _ _ _ Hs Hin) as [Hd Hord].
  split; [| exact Hd].
  assert (Hle : toordinal d <= toordinal enddate) by lia.
  pose proof (toordinal_lt enddate d He Hd) as H1.
  pose proof (toordinal_lt d startdate Hd Hs) as H2.
  lia.
Qed.

(** The range holds exactly the days from [startdate] to [enddate], both
    included. *)
Lemma date_range_spec startdate enddate d :
  valid_day startdate ->
  (In d (date_range startdate enddate)
   <-> valid_day d /\ toordinal startdate <= toordinal d <= toordinal enddate).
Proof.
  intros Hs. unfold date_range. split.
  - intros Hin. destruct (days_from_spec _ _ _ Hs Hin) as [Hd Hord].
    split; [exact Hd | lia].
  - intros [Hd Hord].
    set (n := Z.to_nat (toordinal enddate - toordinal startdate + 1)).
    assert (Hin : In (toordinal d) (map toordinal (days_from n startdate))).
    { rewrite days_from_ordinals by exact Hs. apply in_map_iff.
      exists (Z.to_nat (toordinal d - toordinal startdate)). split; [lia |].
      apply in_seq. unfold n. lia. }
    apply in_map_iff in Hin as (x & Hx & Hin).
    destruct (days_from_spec _ _ _ Hs Hin) as [Hxv _].
    apply toordinal_inj in Hx; [subst x; exact Hin | exact Hxv | exact Hd].
Qed.

Lemma date_range_length startdate enddate :
  List.length (date_range startdate enddate)
  = Z.to_nat (toordinal enddate - toordinal startdate + 1).
Proof.
  unfold date_range. generalize (Z.to_nat (toordinal enddate - toordinal startdate + 1)).
  intros n. revert startdate. induction n as [| n IH]; intros d; simpl; [reflexivity |].
  rewrite IH. reflexivity.
Qed.

(* ----------------------------------------------------------------- *)
(** *** File names *)

Lemma length_lower s : String.length (lower s) = String.length s.
Proof. induction s as [| c s IH]; simpl; [reflexivity | rewrite IH; reflexivity]. Qed.

Lemma append_assoc (a b c : string) : (a +++ b) +++ c = a +++ b +++ c.
Proof. induction a as [| x a IH]; simpl; [reflexivity | rewrite IH; reflexivity]. Qed.

Lemma length_append (a b : string) :
  String.length (a +++ b) = (String.length a + String.length b)%nat.
Proof. induction a as [| x a IH]; simpl; [reflexivity | rewrite IH; reflexivity]. Qed.

Lemma startswith_app_same a x y : startswith (a +++ x) (a +++ y) = startswith x y.
Proof.
  induction a as [| c a IH]; simpl; [reflexivity |].
  rewrite Ascii.eqb_refl. exact IH.
Qed.

Lemma startswith_app_len a : forall b x y,
  String.length a = String.length b ->
  startswith (a +++ x) (b +++ y) = true ->
  a = b /\ startswith x y = true.
Proof.
  induction a as [| c a IH]; intros [| c' b] x y Hlen H; simpl in *; try discriminate.
  - split; [reflexivity | exact H].
  - apply andb_true_iff in H as [Hc H]. apply Ascii.eqb_eq in Hc. subst c'.
    destruct (IH b x y ltac:(lia) H) as [-> Hxy]. split; [reflexivity | exact Hxy].
Qed.

Lemma skipn_str_app a x : skipn_str (String.length a) (a +++ x) = x.
Proof. induction a as [| c a IH]; simpl; [reflexivity | exact IH]. Qed.

Lemma list_ascii_of_append a b :
  list_ascii_of_string (a +++ b) = list_ascii_of_string a ++ list_ascii_of_string b.
Proof. induction a as [| c a IH]; simpl; [reflexivity | rewrite IH; reflexivity]. Qed.

Lemma rstrip_sep_app path : rstrip_sep (path +++ os_sep) = rstrip_sep path.
Proof.
  unfold rstrip_sep. rewrite list_ascii_of_append. simpl. rewrite rev_app_distr. reflexivity.
Qed.

Lemma In_zrange n : forall a x, a <= x < a + Z.of_nat n -> In x (zrange a n).
Proof.
  induction n as [| n IH]; intros a x H; simpl; [lia |].
  destruct (Z.eq_dec a x) as [-> | Hne]; [left; reflexivity | right].
  apply IH. lia.
Qed.

(** The years of a [Timestamp] are written with four digits. *)
Lemma year_str_length y : 1677 <= y <= 2262 -> String.length (str_int y) = 4%nat.
Proof.
  intros H.
  assert (Hall : forallb (fun y => (String.length (str_int y) =? 4)%nat)
                         (zrange 1677 586) = true) by (vm_compute; reflexivity).
  rewrite forallb_forall in Hall. apply Nat.eqb_eq. apply Hall.
  apply In_zrange. lia.
Qed.

(** A file name of the downloader starts with the stem the loader looks
    for on day [a] only when it carries the three-digit day [a]. *)
Lemma day_stem_match a b :
  1 <= a <= 366 -> 1 <= b <= 366 ->
  startswith (str_int a +++ "_") (zfill 3 (str_int b) +++ "_1min_l2_v03.dat") = true ->
  zfill 3 (str_int b) = zfill 3 (str_int a).
Proof.
  intros Ha Hb H.
  set (stem := fun a => (str_int a +++ "_", zfill 3 (str_int a))).
  set (name := fun b => (zfill 3 (str_int b) +++ "_1min_l2_v03.dat", zfill 3 (str_int b))).
  assert (Hall :
    let names := map name (zrange 1 366) in
    forallb (fun s =>
      forallb (fun n => implb (startswith (fst s) (fst n)) (snd n =? snd s)%string)
              names)
      (map stem (zrange 1 366)) = true) by (vm_compute; reflexivity).
  cbv zeta in Hall. rewrite forallb_forall in Hall.
  specialize (Hall (stem a) (in_map stem _ _ (In_zrange 366 1 a ltac:(lia)))).
  rewrite forallb_forall in Hall.
  specialize (Hall (name b) (in_map name _ _ (In_zrange 366 1 b ltac:(lia)))).
  unfold stem, name in Hall; simpl fst in Hall; simpl snd in Hall.
  rewrite H in Hall. simpl in Hall. apply String.eqb_eq. exact Hall.
Qed.

Lemma loader_species_idem species :
  loader_species (loader_species species) = loader_species species.
Proof.
  assert (H : loader_species species = "ele" \/ loader_species species = "ion"
              \/ (loader_species species = species
                  /\ (lower species =? "e")%string = false
                  /\ ((lower species =? "p") || (lower species =? "h")
                      || (lower species =? "i"))%string = false)).
  { unfold loader_species.
    destruct (lower species =? "e")%string eqn:Ee; [left; reflexivity |].
    destruct ((lower species =? "p") || (lower species =? "h")
              || (lower species =? "i"))%string eqn:Ep; [right; left; reflexivity |].
    right; right. repeat split. }
  destruct H as [-> | [-> | (-> & Ee & Ep)]]; try reflexivity.
  unfold loader_species. rewrite Ee, Ep. reflexivity.
Qed.

Lemma join_sep path name : join (path +++ os_sep) name = join path name.
Proof. unfold join. rewrite rstrip_sep_app. reflexivity. Qed.

(** What a prefix leaves of a string. *)
Lemma startswith_split p : forall k,
  startswith p k = true -> k = p +++ skipn_str (String.length p) k.
Proof.
  induction p as [| c p IH]; intros k H; simpl in *; [reflexivity |].
  destruct k as [| c' k]; [discriminate |].
  apply andb_true_iff in H as [Hc H]. apply Ascii.eqb_eq in Hc. subst c'.
  simpl. f_equal. apply IH. exact H.
Qed.

(** Only the directory a string names, not the separators it ends with,
    bears on what a pattern matches. *)
Lemma glob_match_rstrip dir dir' stem suf k :
  rstrip_sep dir = rstrip_sep dir' ->
  glob_match dir stem suf k = glob_match dir' stem suf k.
Proof.
  intros H. unfold glob_match, join. rewrite H. reflexivity.
Qed.

(** What [glob] returns for a match: the string of the directory with the
    name of the entry. *)
Lemma append_nil_r (s : string) : s +++ "" = s.
Proof. induction s as [| c s IH]; simpl; [reflexivity | rewrite IH; reflexivity]. Qed.

Lemma glob_match_name real dir stem suf k :
  rstrip_sep dir = rstrip_sep real ->
  glob_match real stem suf k = true ->
  join dir (skipn_str (String.length (join real "")) k) = k.
Proof.
  intros Hdir H. unfold glob_match in H. apply andb_true_iff in H as [H _].
  apply startswith_split in H. unfold join in *. rewrite Hdir.
  set (pre := rstrip_sep real) in *.
  set (tail := skipn_str (String.length (pre +++ os_sep +++ stem)) k) in H.
  assert (Hskip : skipn_str (String.length (pre +++ os_sep +++ ""))
                            ((pre +++ os_sep +++ stem) +++ tail) = stem +++ tail).
  { rewrite (append_nil_r os_sep).
    rewrite <- (append_assoc pre os_sep stem).
    rewrite (append_assoc (pre +++ os_sep) stem tail).
    apply skipn_str_app. }
  rewrite H. rewrite Hskip. rewrite !append_assoc. reflexivity.
Qed.

Section Resolution.

Variable env : Env.

(** What a successful [pooch.retrieve] did. *)
Lemma pooch_retrieve_inv url fname path progressbar st p st' :
  pooch_retrieve env url fname (Some path) progressbar st = (Ok p, st') ->
  p = join (resolve env path) fname
  /\ ((exists c, lookup p (files st) = Some c) /\ st' = st
      \/ lookup p (files st) = None
         /\ exists c, st' = {| files := files st ++ [(p, c)];
                               fetched := fetched st ++ [url] |}).
Proof.
  unfold pooch_retrieve.
  destruct (lookup (join (resolve env path) fname) (files st)) as [c |] eqn:E.
  - intros H. inversion H; subst. split; [reflexivity |]. left. split; [| reflexivity].
    exists c. exact E.
  - destruct (progressbar && negb (tqdm env)); [discriminate |].
    destruct (remote env url) as [content |]; [| discriminate].
    intros H. inversion H; subst. split; [reflexivity |]. right. split; [exact E |].
    exists content. reflexivity.
Qed.

Lemma pooch_retrieve_raise url fname path progressbar st e st' :
  pooch_retrieve env url fname path progressbar st = (Raise e, st') -> st' = st.
Proof.
  unfold pooch_retrieve. destruct (lookup _ (files st)); [discriminate |].
  destruct (progressbar && negb (tqdm env)); [intros H; inversion H; reflexivity |].
  destruct (remote env url); [discriminate | intros H; inversion H; reflexivity].
Qed.

(** A file that is there is not fetched again. *)
Lemma pooch_retrieve_cached url fname path progressbar st c :
  lookup (join (resolve env path) fname) (files st) = Some c ->
  pooch_retrieve env url fname (Some path) progressbar st
  = (Ok (join (resolve env path) fname), st).
Proof.
  intros H. unfold pooch_retrieve. rewrite H. reflexivity.
Qed.

(** The directory the downloader hands on (lines 63 to 65). *)
Lemma download_dir_eq c0 dir :
  (if negb (endswith os_sep (String c0 dir))
   then Some (String c0 dir +++ os_sep) else Some (String c0 dir))
  = Some (download_dir (String c0 dir)).
Proof.
  unfold download_dir. destruct (negb _); reflexivity.
Qed.

Lemma download_inv d spacecraft species viewing c0 dir st p st' :
  stereo_sept_download env d spacecraft species viewing (Some (String c0 dir)) st
  = (Ok p, st') ->
  p = local_path env (String c0 dir) spacecraft species viewing d
  /\ ((exists c, lookup p (files st) = Some c) /\ st' = st
      \/ lookup p (files st) = None
         /\ exists c url, st' = {| files := files st ++ [(p, c)];
                                   fetched := fetched st ++ [url] |})
  /\ forall st2 c2,
      lookup p (files st2) = Some c2 ->
      stereo_sept_download env d spacecraft species viewing (Some (String c0 dir)) st2
      = (Ok p, st2).
Proof.
  unfold stereo_sept_download, local_path.
  fold (loader_species species). fold (file_name spacecraft species viewing d).
  set (fname := file_name spacecraft species viewing d).
  rewrite download_dir_eq. set (dir' := download_dir (String c0 dir)).
  destruct (if ((lower spacecraft =? "ahead") || (lower spacecraft =? "a"))%string
            then Some ahead_base
            else if ((lower spacecraft =? "behind") || (lower spacecraft =? "b"))%string
                 then Some behind_base else None) as [base |]; [| discriminate].
  set (url := base +++ str_int (year d) +++ "/" +++ fname).
  unfold try_except.
  destruct (pooch_retrieve env url fname (Some dir') true st)
    as [[p1 | e1] st1] eqn:E1.
  - intros H. inversion H; subst p1 st1.
    destruct (pooch_retrieve_inv _ _ _ _ _ _ _ E1) as [-> Hcase].
    split; [reflexivity |]. split.
    + destruct Hcase as [Hc | [Hn (c & ->)]]; [left; exact Hc | right].
      split; [exact Hn |]. exists c, url. reflexivity.
    + intros st2 c2 H2. rewrite (pooch_retrieve_cached _ _ _ _ _ _ H2). reflexivity.
  - pose proof (pooch_retrieve_raise _ _ _ _ _ _ _ E1) as ->.
    destruct (exn_class e1 =? "ModuleNotFoundError")%string; [| discriminate].
    intros E2.
    destruct (pooch_retrieve_inv _ _ _ _ _ _ _ E2) as [-> Hcase].
    split; [reflexivity |]. split.
    + destruct Hcase as [Hc | [Hn (c & ->)]]; [left; exact Hc | right].
      split; [exact Hn |]. exists c, url. reflexivity.
    + intros st2 c2 H2. rewrite (pooch_retrieve_cached _ _ _ _ _ _ H2). reflexivity.
Qed.

End Resolution.

(** Among the names the downloader gives, the pattern the loader looks for
    on a day matches the name of that day only. *)
Lemma glob_match_file_name dir dir' spacecraft species viewing d e :
  rstrip_sep dir = rstrip_sep dir' ->
  valid_date d -> valid_date e ->
  loader_species species = species ->
  glob_match dir (glob_stem spacecraft species viewing d) ".dat"
             (join dir' (file_name spacecraft species viewing e)) = true ->
  file_name spacecraft species viewing e = file_name spacecraft species viewing d.
Proof.
  intros Hdir [Hyd Hd] [Hye He] Hsp H.
  unfold glob_match in H. apply andb_true_iff in H as [H _].
  unfold join in *. rewrite Hdir in H.
  rewrite !startswith_app_same in H.
  unfold glob_stem, file_name in *. rewrite Hsp in *.
  rewrite startswith_app_same in H.
  apply startswith_app_len in H as [_ H]; [| symmetry; apply length_lower].
  rewrite startswith_app_same in H.
  apply startswith_app_len in H as [_ H]; [| symmetry; apply length_lower].
  rewrite startswith_app_same in H.
  apply startswith_app_len in H as [_ H]; [| symmetry; apply length_lower].
  rewrite startswith_app_same in H.
  apply startswith_app_len in H as [Hy H];
    [| rewrite !year_str_length by assumption; reflexivity].
  rewrite startswith_app_same in H.
  pose proof (year_length_bounds (year d)). pose proof (year_length_bounds (year e)).
  apply day_stem_match in H; [| lia | lia].
  unfold strftime_j. rewrite Hy, H. reflexivity.
Qed.

(** The stem of a day, which carries the day unpadded, against the name
    of that day, which carries it with three digits. *)
Lemma day_stem_own a :
  1 <= a <= 366 ->
  startswith (str_int a +++ "_") (zfill 3 (str_int a) +++ "_1min_l2_v03.dat")
  = (100 <=? a)
  /\ (100 <= a -> zfill 3 (str_int a) = str_int a).
Proof.
  intros Ha.
  assert (Hall :
    forallb (fun a =>
      Bool.eqb (startswith (str_int a +++ "_")
                           (zfill 3 (str_int a) +++ "_1min_l2_v03.dat"))
               (100 <=? a)
      && implb (100 <=? a) (zfill 3 (str_int a) =? str_int a)%string)
      (zrange 1 366) = true) by (vm_compute; reflexivity).
  rewrite forallb_forall in Hall.
  specialize (Hall a (In_zrange 366 1 a ltac:(lia))).
  apply andb_true_iff in Hall as [H1 H2]. split.
  - apply Bool.eqb_prop. exact H1.
  - intros H. apply Z.leb_le in H. rewrite H in H2. apply String.eqb_eq. exact H2.
Qed.

(** The pattern of a day against the name the downloader gives the file
    of that day. *)
Lemma pattern_finds_own_download path spacecraft species viewing d :
  valid_date d ->
  lower spacecraft = spacecraft ->
  lower (loader_species species) = species ->
  lower viewing = viewing ->
  glob_match (path +++ os_sep) (glob_stem spacecraft species viewing d) ".dat"
             (join path (file_name spacecraft species viewing d))
  = (100 <=? day_of_year d).
Proof.
  intros [_ Hd] Hsc Hsp Hv.
  pose proof (year_length_bounds (year d)) as Hlen.
  destruct (day_stem_own (day_of_year d) ltac:(lia)) as [Hstart Hpad].
  unfold glob_match. rewrite join_sep. unfold join.
  unfold glob_stem, file_name, strftime_j. rewrite Hsc, Hsp, Hv.
  rewrite !startswith_app_same.
  rewrite Hstart.
  destruct (100 <=? day_of_year d) eqn:E; [| reflexivity].
  apply Z.leb_le in E. rewrite (Hpad E).
  change (str_int (day_of_year d) +++ "_1min_l2_v03.dat")
    with (str_int (day_of_year d) +++ "_" +++ "1min_l2_v03.dat").
  rewrite <- !append_assoc. rewrite skipn_str_app. reflexivity.
Qed.

Section Stability.

Variable env : Env.
Variables (c0 : ascii) (dir : string).
Variables spacecraft species viewing : string.
Hypothesis species_normal : loader_species species = species.

Let path := String c0 dir.

Hypothesis path_resolved : resolved_directory env path.

Let resolve_day := resolve_file env path spacecraft species viewing.
Let on_day (d : date) : string -> bool :=
  glob_match (path +++ os_sep) (glob_stem spacecraft species viewing d) ".dat".
Let saved := local_path env path spacecraft species viewing.

(** In a directory given resolved, the downloader saves under the string
    of the directory, and the pattern returns the paths of the files. *)
Lemma saved_eq d : saved d = join path (file_name spacecraft species viewing d).
Proof.
  unfold saved, local_path, join. destruct path_resolved as (_ & ->). reflexivity.
Qed.

Lemma glob_resolved stem suf st :
  glob env (path +++ os_sep) stem suf st
  = (Ok (filter (glob_match (path +++ os_sep) stem suf) (map fst (files st))), st).
Proof.
  unfold glob. f_equal. f_equal.
  destruct path_resolved as (Hreal & _).
  assert (Hdir : rstrip_sep (path +++ os_sep)
                 = rstrip_sep (resolve env (path +++ os_sep))).
  { rewrite Hreal. apply rstrip_sep_app. }
  induction (map fst (files st)) as [| k l IH]; cbn [filter map]; [reflexivity |].
  rewrite <- (glob_match_rstrip _ _ stem suf k Hdir).
  destruct (glob_match (path +++ os_sep) stem suf k) eqn:E; cbn [map]; [| exact IH].
  rewrite IH. f_equal. apply (glob_match_name _ _ stem suf k Hdir).
  rewrite <- (glob_match_rstrip _ _ stem suf k Hdir). exact E.
Qed.

(** What a successful resolution of one day did: a local file matched, or
    none did and the downloader gave the file of the day. *)
Lemma resolve_file_inv d st p st' :
  resolve_day d st = (Ok p, st') ->
  (exists more, filter (on_day d) (map fst (files st)) = p :: more) /\ st' = st
  \/ filter (on_day d) (map fst (files st)) = []
     /\ stereo_sept_download env d spacecraft species viewing (Some path) st
        = (Ok p, st').
Proof.
  unfold resolve_day, resolve_file, bind, ret. rewrite glob_resolved.
  fold (glob_stem spacecraft species viewing d). fold (on_day d).
  destruct (filter (on_day d) (map fst (files st))) as [| file more].
  - intros H. right. split; [reflexivity | exact H].
  - intros H. inversion H; subst. left. split; [exists more; reflexivity | reflexivity].
Qed.

Lemma resolve_file_found d st file more :
  filter (on_day d) (map fst (files st)) = file :: more ->
  resolve_day d st = (Ok file, st).
Proof.
  intros H. unfold resolve_day, resolve_file, bind, ret. rewrite glob_resolved.
  fold (glob_stem spacecraft species viewing d). fold (on_day d).
  rewrite H. reflexivity.
Qed.

Lemma resolve_file_missing d st :
  filter (on_day d) (map fst (files st)) = [] ->
  resolve_day d st
  = stereo_sept_download env d spacecraft species viewing (Some path) st.
Proof.
  intros H. unfold resolve_day, resolve_file, bind, ret. rewrite glob_resolved.
  fold (glob_stem spacecraft species viewing d). fold (on_day d).
  rewrite H. reflexivity.
Qed.

(** Among the files of the downloader, the pattern of a day matches the
    file of that day only. *)
Lemma on_day_saved d e :
  valid_date d -> valid_date e -> on_day d (saved e) = true -> saved e = saved d.
Proof.
  intros Hd He H. rewrite !saved_eq in *. f_equal.
  unfold on_day in H.
  eapply glob_match_file_name; [| exact Hd | exact He | exact species_normal | exact H].
  apply rstrip_sep_app.
Qed.

(** A day resolved once resolves to the same file, with nothing fetched,
    in any directory that has since gained only files of the downloader. *)
Lemma resolve_file_stable d st p st' :
  valid_date d ->
  resolve_day d st = (Ok p, st') ->
  (exists added, files st' = files st ++ added
                 /\ Forall (fun k => k = saved d) (map fst added))
  /\ forall st2 more,
      files st2 = files st' ++ more ->
      Forall (is_local_path env path spacecraft species viewing) (map fst more) ->
      resolve_day d st2 = (Ok p, st2).
Proof.
  intros Hd H. apply resolve_file_inv in H as [[(rest & Hglob) ->] | [Hglob Hdl]].
  - split; [exists []; rewrite app_nil_r; split; [reflexivity | constructor] |].
    intros st2 more Hfiles _.
    eapply resolve_file_found.
    rewrite Hfiles, map_app, filter_app, Hglob. reflexivity.
  - apply download_inv in Hdl as (Hp & Hcase & Hcached).
    fold (saved d) in Hp.
    assert (Hadded : exists added,
               files st' = files st ++ added
               /\ Forall (fun k => k = saved d) (map fst added)
               /\ exists c, lookup p (files st') = Some c).
    { destruct Hcase as [[(c & Hc) ->] | [Hn (c & url & ->)]].
      - exists []. rewrite app_nil_r. repeat split; [constructor | exists c; exact Hc].
      - exists [(p, c)]. simpl. repeat split.
        + constructor; [exact Hp | constructor].
        + exists c. apply lookup_app_new. exact Hn. }
    destruct Hadded as (added & Hfiles' & Hkeys & c & Hc).
    split; [exists added; split; assumption |].
    intros st2 more Hfiles Hmore.
    assert (Hc2 : lookup p (files st2) = Some c).
    { rewrite Hfiles. apply lookup_app_some. exact Hc. }
    destruct (filter_head_or_nil (on_day d) p (map fst (files st2)))
      as [Hnil | (l' & Hhead)].
    + rewrite Hfiles, Hfiles', !map_app.
      intros k Hin Hk. apply in_app_or in Hin as [Hin | Hin].
      * apply in_app_or in Hin as [Hin | Hin].
        -- exfalso. assert (Hf : In k (filter (on_day d) (map fst (files st)))).
           { apply filter_In. split; assumption. }
           rewrite Hglob in Hf. exact Hf.
        -- rewrite Forall_forall in Hkeys. rewrite (Hkeys k Hin). symmetry. exact Hp.
      * rewrite Forall_forall in Hmore. destruct (Hmore k Hin) as (e & He & ->).
        fold (saved e) in *. rewrite Hp. apply on_day_saved; assumption.
    + rewrite (resolve_file_missing d st2 Hnil). exact (Hcached st2 c Hc2).
    + eapply resolve_file_found. exact Hhead.
Qed.

(** The whole list of files, resolved once, resolves again to the same
    list in the directory the first resolution left, with nothing
    fetched. *)
Lemma resolve_files_stable dates : forall st filelist st1,
  Forall valid_date dates ->
  mapM resolve_day dates st = (Ok filelist, st1) ->
  (exists added, files st1 = files st ++ added
                 /\ Forall (is_local_path env path spacecraft species viewing)
                           (map fst added))
  /\ forall st2 more,
      files st2 = files st1 ++ more ->
      Forall (is_local_path env path spacecraft species viewing) (map fst more) ->
      mapM resolve_day dates st2 = (Ok filelist, st2)
      /\ Forall2 (fun d p => resolve_day d st2 = (Ok p, st2)) dates filelist.
Proof.
  induction dates as [| d rest IH]; intros st filelist st1 Hvalid H.
  - simpl in H. inversion H; subst.
    split; [exists []; rewrite app_nil_r; split; [reflexivity | constructor] |].
    intros st2 more _ _. split; [reflexivity | constructor].
  - inversion Hvalid as [| ? ? Hd Hrest]; subst.
    simpl in H. unfold bind in H.
    destruct (resolve_day d st) as [[p | e] st'] eqn:Ed; [| discriminate].
    destruct (mapM resolve_day rest st') as [[fl' | e] st1'] eqn:Erest; [| discriminate].
    unfold ret in H. inversion H; subst filelist st1'. clear H.
    destruct (resolve_file_stable d st p st' Hd Ed) as ((a1 & Hf1 & Hk1) & Hstable).
    destruct (IH st' fl' st1 Hrest Erest) as ((a2 & Hf2 & Hk2) & IHstable).
    split.
    + exists (a1 ++ a2). rewrite Hf2, Hf1, app_assoc. split; [reflexivity |].
      rewrite map_app. apply Forall_app. split; [| exact Hk2].
      eapply Forall_impl; [| exact Hk1]. intros k ->. exists d. split; [exact Hd | reflexivity].
    + intros st2 more Hfiles Hmore. simpl. unfold bind.
      assert (Hd2 : resolve_day d st2 = (Ok p, st2)).
      { apply (Hstable st2 (a2 ++ more)).
        - rewrite Hfiles, Hf2, app_assoc. reflexivity.
        - rewrite map_app. apply Forall_app. split; assumption. }
      destruct (IHstable st2 more Hfiles Hmore) as [Hrest2 Heach].
      rewrite Hd2, Hrest2. split; [reflexivity |]. constructor; assumption.
Qed.

(** How a day was found when the resolution left the directory as it
    was: by the pattern, or, the pattern matching no file, by the
    downloader, which returned the file at its place and fetched nothing. *)
Lemma resolve_file_how d st p :
  resolve_day d st = (Ok p, st) ->
  (exists more,
      glob env (path +++ os_sep) (glob_stem spacecraft species viewing d) ".dat" st
      = (Ok (p :: more), st))
  \/ (glob env (path +++ os_sep) (glob_stem spacecraft species viewing d) ".dat" st
      = (Ok [], st)
      /\ p = saved d
      /\ exists c, lookup (saved d) (files st) = Some c).
Proof.
  intros H. rewrite glob_resolved. fold (on_day d).
  apply resolve_file_inv in H as [[(more & Hglob) _] | [Hglob Hdl]].
  - left. exists more. rewrite Hglob. reflexivity.
  - right. rewrite Hglob. split; [reflexivity |].
    apply download_inv in Hdl as (Hp & Hcase & _). fold (saved d) in Hp.
    split; [exact Hp |]. subst p.
    destruct Hcase as [[Hc _] | [_ (c & url & Hst)]]; [exact Hc |].
    exfalso. apply (f_equal (fun x => List.length (files x))) in Hst.
    cbn [files] in Hst. rewrite length_app in Hst. simpl in Hst. lia.
Qed.

End Stability.

(* ----------------------------------------------------------------- *)
(** *** Loading twice *)

Lemma loader_intro env startdate enddate spacecraft species viewing resample path
      all_columns st filelist cat raw tbl df st' :
  build_filelist env (loader_path env path) (loader_spacecraft spacecraft)
                 (loader_species species) viewing
                 (date_range startdate enddate) st = (Ok filelist, st') ->
  channel_catalog (loader_species species) = Ok cat ->
  read_files env (col_names cat) filelist st' = (Ok raw, st') ->
  assemble env all_columns raw = Ok tbl ->
  match resample with
  | PyStr s => resample_df env tbl s = Ok df
  | _ => df = tbl
  end ->
  stereo_sept_loader env startdate enddate spacecraft species viewing resample
                     path all_columns st = (Ok (df, cat), st').
Proof.
  intros Hfiles Hcat Hread Htbl Hres.
  unfold stereo_sept_loader, bind, lift, ret.
  fold (loader_species species). fold (loader_spacecraft spacecraft).
  fold (loader_path env path).
  rewrite Hfiles, Hcat, Hread, Htbl.
  destruct resample; try (subst df; reflexivity).
  rewrite Hres. reflexivity.
Qed.

Lemma loader_path_nonempty env path :
  exists c0 dir, loader_path env path = String c0 dir.
Proof.
  unfold loader_path. destruct path as [[| c p] |].
  - destruct (cwd env) as [| c p]; simpl; eexists _, _; reflexivity.
  - eexists _, _; reflexivity.
  - destruct (cwd env) as [| c p]; simpl; eexists _, _; reflexivity.
Qed.

Lemma length_np_sort l : List.length (np_sort l) = List.length l.
Proof.
  induction l as [| a l IH]; simpl; [reflexivity |].
  rewrite <- IH. generalize (np_sort l). intros l'.
  induction l' as [| b l' IHl]; simpl; [reflexivity |].
  destruct (String.leb a b); simpl; [reflexivity | rewrite IHl; reflexivity].
Qed.

Lemma mapM_length {A B} (f : A -> M B) l : forall st bs st',
  mapM f l st = (Ok bs, st') -> List.length bs = List.length l.
Proof.
  induction l as [| a l IH]; intros st bs st' H; simpl in H.
  - inversion H. reflexivity.
  - unfold bind in H. destruct (f a st) as [[b | e] st1]; [| discriminate].
    destruct (mapM f l st1) as [[bs' | e] st2] eqn:E; [| discriminate].
    inversion H; subst. simpl. f_equal. eapply IH. exact E.
Qed.

Lemma build_filelist_stable env path spacecraft species viewing dates st filelist st1 :
  (exists c0 dir, path = String c0 dir) ->
  resolved_directory env path ->
  loader_species species = species ->
  Forall valid_date dates ->
  build_filelist env path spacecraft species viewing dates st = (Ok filelist, st1) ->
  build_filelist env path spacecraft species viewing dates st1 = (Ok filelist, st1)
  /\ List.length filelist = List.length dates
  /\ exists resolved,
      Forall2 (fun d p => resolve_file env path spacecraft species viewing d st1
                          = (Ok p, st1)) dates resolved.
Proof.
  intros (c0 & dir & ->) Hres Hsp Hvalid. unfold build_filelist, bind, ret.
  destruct (mapM _ dates st) as [[fl | e] st'] eqn:E; [| discriminate].
  intros H. inversion H; subst filelist st'. clear H.
  destruct (resolve_files_stable env c0 dir spacecraft species viewing Hsp Hres dates
              st fl st1 Hvalid E) as [_ Hstable].
  destruct (Hstable st1 []) as [Hagain Heach];
    [rewrite app_nil_r; reflexivity | constructor |].
  rewrite Hagain. split; [reflexivity |].
  split; [| exists fl; exact Heach].
  rewrite length_np_sort. eapply mapM_length. exact E.
Qed.

Lemma read_more_exist env names l : forall df st raw st',
  read_more env names l df st = (Ok raw, st') ->
  Forall (fun p => exists f, lookup (resolve env p) (files st) = Some f) l.
Proof.
  induction l as [| file rest IH]; intros df st raw st' H; [constructor |].
  simpl in H. unfold bind in H.
  destruct (read_csv env file names st) as [[t | e] st1] eqn:E; [| discriminate].
  pose proof (read_csv_state _ _ _ _ _ _ E) as ->.
  constructor; [| eapply IH; exact H].
  unfold read_csv in E. destruct (lookup _ (files st)) as [f |]; [| discriminate].
  exists f. reflexivity.
Qed.

Lemma read_files_exist env names l st raw st' :
  read_files env names l st = (Ok raw, st') ->
  Forall (fun p => exists f, lookup (resolve env p) (files st) = Some f) l.
Proof.
  unfold read_files, bind, lift. destruct l as [| f0 rest]; [discriminate |].
  simpl. destruct (read_csv env f0 names st) as [[t | e] st1] eqn:E; [| discriminate].
  pose proof (read_csv_state _ _ _ _ _ _ E) as ->. intros H.
  constructor; [| eapply read_more_exist; exact H].
  unfold read_csv in E. destruct (lookup _ (files st)) as [f |]; [| discriminate].
  exists f. reflexivity.
Qed.




(* ----------------------------------------------------------------- *)
(** *** One file per day, in which order *)

Lemma ascii_compare_refl c : Ascii.compare c c = Eq.
Proof. unfold Ascii.compare. apply N.compare_refl. Qed.

Lemma compare_app_same a x y : String.compare (a +++ x) (a +++ y) = String.compare x y.
Proof.
  induction a as [| c a IH]; simpl; [reflexivity |].
  rewrite ascii_compare_refl. exact IH.
Qed.

Lemma compare_app_lt a : forall b x y,
  String.length a = String.length b ->
  String.compare a b = Lt ->
  String.compare (a +++ x) (b +++ y) = Lt.
Proof.
  induction a as [| c a IH]; intros [| c' b] x y Hlen H; simpl in *; try discriminate.
  destruct (Ascii.compare c c'); [| reflexivity | discriminate].
  apply IH; [lia | exact H].
Qed.

(** Written with four digits, a year comes before the next. *)
Lemma year_str_next y :
  1677 <= y < 2262 -> String.compare (str_int y) (str_int (y + 1)) = Lt.
Proof.
  intros H.
  assert (Hall : forallb (fun y => match String.compare (str_int y) (str_int (y + 1)) with
                                   | Lt => true
                                   | _ => false
                                   end) (zrange 1677 585) = true)
    by (vm_compute; reflexivity).
  rewrite forallb_forall in Hall. specialize (Hall y (In_zrange 585 1677 y ltac:(lia))).
  destruct (String.compare (str_int y) (str_int (y + 1))); [discriminate | reflexivity | discriminate].
Qed.

(** Written with three digits, a day of the year comes before the next. *)
Lemma day_str_next a :
  1 <= a < 366 ->
  String.length (zfill 3 (str_int a)) = String.length (zfill 3 (str_int (a + 1)))
  /\ String.compare (zfill 3 (str_int a)) (zfill 3 (str_int (a + 1))) = Lt.
Proof.
  intros H.
  assert (Hall : forallb (fun a =>
                   (String.length (zfill 3 (str_int a))
                    =? String.length (zfill 3 (str_int (a + 1))))%nat
                   && match String.compare (zfill 3 (str_int a)) (zfill 3 (str_int (a + 1))) with
                      | Lt => true
                      | _ => false
                      end) (zrange 1 365) = true)
    by (vm_compute; reflexivity).
  rewrite forallb_forall in Hall. specialize (Hall a (In_zrange 365 1 a ltac:(lia))).
  apply andb_true_iff in Hall as [H1 H2]. apply Nat.eqb_eq in H1. split; [exact H1 |].
  destruct (String.compare _ _); [discriminate | reflexivity | discriminate].
Qed.

(** The file of a day sorts before the file of the next day. *)
Lemma local_path_next env path spacecraft species viewing d :
  valid_date d -> valid_date (next_day d) ->
  String.leb (local_path env path spacecraft species viewing d)
             (local_path env path spacecraft species viewing (next_day d)) = true.
Proof.
  intros [Hy Hd] [Hy' _].
  pose proof (year_length_bounds (year d)) as Hlen.
  unfold String.leb, local_path, join, file_name.
  rewrite !compare_app_same.
  unfold next_day in *. destruct (day_of_year d <? year_length (year d)) eqn:E; simpl in *.
  - apply Z.ltb_lt in E. rewrite !compare_app_same. unfold strftime_j; simpl.
    destruct (day_str_next (day_of_year d) ltac:(lia)) as [Hl Hc].
    rewrite (compare_app_lt _ _ _ _ Hl Hc). reflexivity.
  - rewrite (compare_app_lt (str_int (year d)) (str_int (year d + 1))).
    + reflexivity.
    + rewrite !year_str_length by lia. reflexivity.
    + apply year_str_next. lia.
Qed.

Lemma np_sort_days (f : date -> string) n : forall d,
  (forall x, In x (days_from n d) -> In (next_day x) (days_from n d) ->
             String.leb (f x) (f (next_day x)) = true) ->
  np_sort (map f (days_from n d)) = map f (days_from n d).
Proof.
  induction n as [| n IH]; intros d H; [reflexivity |].
  change (np_sort (map f (days_from (S n) d)))
    with (insert_str (f d) (np_sort (map f (days_from n (next_day d))))).
  rewrite IH.
  - destruct n as [| n]; [reflexivity |]. simpl.
    rewrite (H d); [reflexivity | left; reflexivity | right; left; reflexivity].
  - intros x Hx Hnext. apply H; right; assumption.
Qed.

Section Names.

Variable env : Env.
Variables (c0 : ascii) (dir : string).
Variables spacecraft species viewing : string.
Hypothesis species_normal : loader_species species = species.

Let path := String c0 dir.

Hypothesis path_resolved : resolved_directory env path.

Let resolve_day := resolve_file env path spacecraft species viewing.
Let on_day (d : date) : string -> bool :=
  glob_match (path +++ os_sep) (glob_stem spacecraft species viewing d) ".dat".
Let saved := local_path env path spacecraft species viewing.

Lemma on_day_resolved d k :
  glob_match (resolve env (path +++ os_sep)) (glob_stem spacecraft species viewing d)
             ".dat" k = on_day d k.
Proof.
  unfold on_day. apply glob_match_rstrip.
  destruct path_resolved as (-> & _). symmetry. apply rstrip_sep_app.
Qed.

(** Then the files resolved are those of the days, in the order of the
    days. *)
Lemma resolve_files_names dates : forall st filelist st1,
  Forall valid_date dates ->
  finds_only_downloads env path spacecraft species viewing dates st ->
  mapM resolve_day dates st = (Ok filelist, st1) ->
  filelist = map saved dates.
Proof.
  induction dates as [| d rest IH]; intros st filelist st1 Hvalid Hlocal H.
  - simpl in H. inversion H. reflexivity.
  - inversion Hvalid as [| ? ? Hd Hrest]; subst.
    simpl in H. unfold bind in H.
    destruct (resolve_day d st) as [[p | e] st'] eqn:Ed; [| discriminate].
    destruct (mapM resolve_day rest st') as [[fl' | e] st1'] eqn:Erest; [| discriminate].
    unfold ret in H. inversion H; subst filelist st1'. clear H.
    destruct (resolve_file_stable env c0 dir spacecraft species viewing species_normal
                path_resolved d st p st' Hd Ed) as ((added & Hfiles & Hkeys) & _).
    assert (Hp : p = saved d).
    { destruct (resolve_file_inv env c0 dir spacecraft species viewing path_resolved
                  d st p st' Ed) as [[(more & Hglob) _] | [_ Hdl]].
      - assert (Hin : In p (filter (on_day d) (map fst (files st))))
          by (unfold on_day, path; rewrite Hglob; left; reflexivity).
        apply filter_In in Hin as [Hin Hm]. rewrite <- on_day_resolved in Hm.
        apply (Hlocal d p (or_introl eq_refl) Hin Hm).
      - apply download_inv in Hdl as (Hp & _). exact Hp. }
    simpl. f_equal; [exact Hp |].
    apply (IH st' fl' st1 Hrest); [| exact Erest].
    intros d' k Hd' Hk Hm. rewrite Hfiles, map_app in Hk.
    apply in_app_or in Hk as [Hk | Hk].
    + apply (Hlocal d' k (or_intror Hd') Hk Hm).
    + rewrite Forall_forall in Hkeys. rewrite (Hkeys k Hk) in *.
      rewrite on_day_resolved in Hm.
      apply (on_day_saved env c0 dir spacecraft species viewing species_normal
               path_resolved d' d); [| exact Hd | exact Hm].
      rewrite Forall_forall in Hrest. apply Hrest. exact Hd'.
Qed.

End Names.

(** The rows of the table read are those of the files, file after file. *)
Lemma read_more_rows env names l : forall df st raw st',
  read_more env names l df st = (Ok raw, st') ->
  exists tables,
    Forall2 (fun p t => read_csv env p names st = (Ok t, st)) l tables
    /\ forall name, In name names -> In name (column_names df) ->
                    lookup name (columns raw)
                    = Some (col name df ++ List.concat (map (col name) tables)).
Proof.
  induction l as [| file rest IH]; intros df st raw st' H; simpl in H.
  - inversion H; subst. exists []. split; [constructor |].
    intros name _ Hin. simpl. rewrite app_nil_r. unfold col.
    destruct (lookup_in_names name (columns raw) Hin) as [v ->]. reflexivity.
  - unfold bind in H. destruct (read_csv env file names st) as [[t | e] st1] eqn:E;
      [| discriminate].
    pose proof (read_csv_state _ _ _ _ _ _ E) as ->.
    destruct (IH _ _ _ _ H) as (tables & Hall & Hcols).
    exists (t :: tables). split; [constructor; assumption |].
    intros name Hname Hin. rewrite (Hcols name Hname);
      [| rewrite concat_column_names; exact Hin].
    f_equal. simpl. rewrite app_assoc. f_equal.
    unfold col at 1. unfold concat; simpl.
    rewrite (lookup_map_keyed
               (fun k v => v ++ match lookup k (columns t) with
                                | Some w => w
                                | None => map (fun _ => nan) (index t)
                                end)).
    destruct (lookup_in_names name (columns df) Hin) as [v Hv].
    unfold col. rewrite Hv. simpl.
    assert (Ht : In name (column_names t))
      by (rewrite (read_csv_column_names _ _ _ _ _ _ E); exact Hname).
    destruct (lookup_in_names name (columns t) Ht) as [w ->]. reflexivity.
Qed.

Lemma read_files_rows env names l st raw st' :
  read_files env names l st = (Ok raw, st') ->
  exists tables,
    Forall2 (fun p t => read_csv env p names st = (Ok t, st)) l tables
    /\ forall name, In name names ->
                    lookup name (columns raw)
                    = Some (List.concat (map (col name) tables)).
Proof.
  unfold read_files, bind, lift. destruct l as [| f0 rest]; [discriminate |].
  simpl. destruct (read_csv env f0 names st) as [[t | e] st1] eqn:E; [| discriminate].
  pose proof (read_csv_state _ _ _ _ _ _ E) as ->. intros H.
  destruct (read_more_rows _ _ _ _ _ _ _ H) as (tables & Hall & Hcols).
  exists (t :: tables). split; [constructor; assumption |].
  intros name Hname. simpl. apply Hcols; [exact Hname |].
  rewrite (read_csv_column_names _ _ _ _ _ _ E). exact Hname.
Qed.

Lemma assemble_index env all_columns raw tbl :
  assemble env all_columns raw = Ok tbl ->
  exists julian_date,
    getitem raw "julian_date" = Ok julian_date
    /\ index tbl = map (julian_to_datetime env) julian_date.
Proof.
  unfold assemble, bindR. destruct (getitem raw "julian_date") as [jd | e]; [| discriminate].
  intros H. exists jd. split; [reflexivity |].
  destruct all_columns.
  - inversion H. reflexivity.
  - unfold drop in H. destruct (filter _ helper_columns); [| discriminate].
    inversion H. reflexivity.
Qed.




(* ----------------------------------------------------------------- *)
(** *** The download of one file *)

(** [pooch.retrieve] raises no [ModuleNotFoundError]: the first attempt,
    with the progress bar, decides the outcome. *)
Lemma retrieve_with_fallback env url fname path st :
  try_except (pooch_retrieve env url fname path true) "ModuleNotFoundError"
             (pooch_retrieve env url fname path false) st
  = pooch_retrieve env url fname path true st.
Proof.
  unfold try_except, pooch_retrieve.
  destruct (lookup _ (files st)); [reflexivity |].
  destruct (true && negb (tqdm env)); [reflexivity |].
  destruct (remote env url); reflexivity.
Qed.

(** The downloader for a spacecraft it knows: one call of [pooch.retrieve]
    for the address and the name of the day, into the directory given. *)
Lemma download_known env d spacecraft species viewing c0 dir st :
  known_spacecraft spacecraft = true ->
  stereo_sept_download env d spacecraft species viewing (Some (String c0 dir)) st
  = pooch_retrieve env (download_url spacecraft species viewing d)
                   (file_name spacecraft species viewing d)
                   (Some (download_dir (String c0 dir))) true st.
Proof.
  intros Hknown.
  unfold stereo_sept_download, download_url, base_url.
  fold (loader_species species). fold (file_name spacecraft species viewing d).
  set (fname := file_name spacecraft species viewing d) in *.
  rewrite download_dir_eq.
  unfold known_spacecraft in Hknown.
  assert (Hbase :
    (if ((lower spacecraft =? "ahead") || (lower spacecraft =? "a"))%string
     then Some ahead_base
     else if ((lower spacecraft =? "behind") || (lower spacecraft =? "b"))%string
          then Some behind_base else None)
    = Some (if ((lower spacecraft =? "ahead") || (lower spacecraft =? "a"))%string
            then ahead_base else behind_base)).
  { destruct (lower spacecraft =? "ahead")%string, (lower spacecraft =? "a")%string,
             (lower spacecraft =? "behind")%string, (lower spacecraft =? "b")%string;
      simpl in *; try reflexivity; discriminate. }
  rewrite Hbase. apply retrieve_with_fallback.
Qed.

(** The download of a file that is not in the directory yet. *)
Lemma download_missing env d spacecraft species viewing c0 dir st :
  tqdm env = true ->
  known_spacecraft spacecraft = true ->
  lookup (local_path env (String c0 dir) spacecraft species viewing d) (files st) = None ->
  stereo_sept_download env d spacecraft species viewing (Some (String c0 dir)) st
  = match remote env (download_url spacecraft species viewing d) with
    | Some content =>
        (Ok (local_path env (String c0 dir) spacecraft species viewing d),
         {| files := files st
                     ++ [(local_path env (String c0 dir) spacecraft species viewing d,
                          content)];
            fetched := fetched st ++ [download_url spacecraft species viewing d] |})
    | None => (Raise (HTTPError (download_url spacecraft species viewing d)), st)
    end.
Proof.
  intros Htqdm Hknown Hnew. rewrite (download_known _ _ _ _ _ _ _ _ Hknown).
  unfold local_path in *. unfold pooch_retrieve. rewrite Hnew, Htqdm. cbn [andb negb].
  destruct (remote env _); reflexivity.
Qed.

(** X1: with the progress-bar package installed and a spacecraft the
    downloader knows, a file that is not at its place (the name of line 77
    in the directory given, as the file system resolves it) is asked for
    at the address base/year/name: when the server has it, it is saved at
    that place, the address is logged and the resolved path is returned;
    when it has not, the download fails with the error of the server and
    the directory stays as it was. *)
Theorem download_fetches_missing_file :
  forall env d spacecraft species viewing c0 dir st,
    tqdm env = true ->
    known_spacecraft spacecraft = true ->
    lookup (local_path env (String c0 dir) spacecraft species viewing d) (files st) = None ->
    local_path env (String c0 dir) spacecraft species viewing d
    = join (resolve env (download_dir (String c0 dir)))
           (file_name spacecraft species viewing d)
    /\ stereo_sept_download env d spacecraft species viewing (Some (String c0 dir)) st
       = match remote env (download_url spacecraft species viewing d) with
         | Some content =>
             (Ok (local_path env (String c0 dir) spacecraft species viewing d),
              {| files := files st
                          ++ [(local_path env (String c0 dir) spacecraft species viewing d,
                               content)];
                 fetched := fetched st ++ [download_url spacecraft species viewing d] |})
         | None => (Raise (HTTPError (download_url spacecraft species viewing d)), st)
         end.
Proof.
  intros env d spacecraft species viewing c0 dir st Htqdm Hknown Hnew.
  split; [reflexivity |].
  apply download_missing; assumption.
Qed.

Lemma download_fetches_missing_file_witness :
  tqdm sample_env = true
  /\ known_spacecraft "a" = true
  /\ lookup (local_path sample_env "data" "a" "e" "sun" (Date 2010 107)) (files empty_dir)
     = None
  /\ local_path sample_env "data" "a" "e" "sun" (Date 2010 107)
     = "/home/user/data/sept_a_ele_sun_2010_107_1min_l2_v03.dat"
  /\ local_path sample_env "data" "a" "e" "sun" (Date 2010 107)
     = join (resolve sample_env (download_dir "data"))
            (file_name "a" "e" "sun" (Date 2010 107))
  /\ stereo_sept_download sample_env (Date 2010 107) "a" "e" "sun" (Some "data") empty_dir
     = match remote sample_env (download_url "a" "e" "sun" (Date 2010 107)) with
       | Some content =>
           (Ok (local_path sample_env "data" "a" "e" "sun" (Date 2010 107)),
            {| files := files empty_dir
                        ++ [(local_path sample_env "data" "a" "e" "sun" (Date 2010 107),
                             content)];
               fetched := fetched empty_dir
                          ++ [download_url "a" "e" "sun" (Date 2010 107)] |})
       | None => (Raise (HTTPError (download_url "a" "e" "sun" (Date 2010 107))), empty_dir)
       end.
Proof.
  split; [reflexivity |]. split; [reflexivity |]. split; [reflexivity |].
  split; [reflexivity |].
  apply (download_fetches_missing_file sample_env (Date 2010 107) "a" "e" "sun"
           "d"%char "ata" empty_dir); reflexivity.
Defined.

Lemma download_unbound env d spacecraft species viewing path st :
  known_spacecraft spacecraft = false ->
  stereo_sept_download env d spacecraft species viewing path st
  = (Raise (UnboundLocalError "base"), st).
Proof.
  unfold known_spacecraft, stereo_sept_download. intros H.
  destruct (lower spacecraft =? "ahead")%string, (lower spacecraft =? "a")%string,
           (lower spacecraft =? "behind")%string, (lower spacecraft =? "b")%string;
    try discriminate H; reflexivity.
Qed.

(* ----------------------------------------------------------------- *)
(** *** Which downloads the pattern of the loader finds *)

(** X2: for lower-case arguments, the pattern the loader looks for on a
    day (line 136, the day of the year unpadded) matches the file the
    downloader saves for that day (line 77, the day with three digits)
    exactly from day 100 of the year on: the downloads of the first 99
    days of a year are never found by the pattern. *)
Theorem glob_finds_download_from_day_100 :
  forall path spacecraft species viewing d,
    valid_date d ->
    lower spacecraft = spacecraft ->
    lower (loader_species species) = species ->
    lower viewing = viewing ->
    glob_match (path +++ os_sep) (glob_stem spacecraft species viewing d) ".dat"
               (join path (file_name spacecraft species viewing d))
    = (100 <=? day_of_year d).
Proof.
  intros path spacecraft species viewing d Hd Hsc Hsp Hv.
  apply pattern_finds_own_download; assumption.
Qed.

Lemma glob_finds_download_from_day_100_witness :
  valid_date (Date 2010 9)
  /\ lower "ahead" = "ahead"
  /\ lower (loader_species "ele") = "ele"
  /\ lower "sun" = "sun"
  /\ glob_match ("/home/user/data" +++ os_sep)
                 (glob_stem "ahead" "ele" "sun" (Date 2010 9)) ".dat"
                 (join "/home/user/data" (file_name "ahead" "ele" "sun" (Date 2010 9)))
      = (100 <=? day_of_year (Date 2010 9)).
Proof.
  split; [vm_compute; repeat split; discriminate |].
  split; [reflexivity |]. split; [reflexivity |]. split; [reflexivity |].
  apply (glob_finds_download_from_day_100 "/home/user/data" "ahead" "ele" "sun"
           (Date 2010 9)); [vm_compute; repeat split; discriminate | reflexivity ..].
Defined.

(* ----------------------------------------------------------------- *)
(** *** The arguments of the loader *)

Lemma loader_spacecraft_idem spacecraft :
  loader_spacecraft (loader_spacecraft spacecraft) = loader_spacecraft spacecraft.
Proof.
  unfold loader_spacecraft.
  destruct ((lower spacecraft =? "a") || (lower spacecraft =? "sta"))%string eqn:Ea.
  - reflexivity.
  - destruct ((lower spacecraft =? "b") || (lower spacecraft =? "stb"))%string eqn:Eb.
    + reflexivity.
    + rewrite Ea, Eb. reflexivity.
Qed.

(** The loader normalises the spacecraft itself. *)
Lemma loader_spacecraft_alias env startdate enddate spacecraft species viewing resample
      path all_columns :
  stereo_sept_loader env startdate enddate (loader_spacecraft spacecraft) species
                     viewing resample path all_columns
  = stereo_sept_loader env startdate enddate spacecraft species viewing resample
                       path all_columns.
Proof.
  unfold stereo_sept_loader.
  fold (loader_spacecraft spacecraft).
  fold (loader_spacecraft (loader_spacecraft spacecraft)).
  rewrite loader_spacecraft_idem. reflexivity.
Qed.

(** X3: a spacecraft or species given by an alias (a, sta, b, stb, e, p,
    h, i, in any case) is loaded exactly as the code the loader turns it
    into (ahead, behind, ele, ion): same outcome, same directory. *)
Theorem loader_aliases :
  forall env startdate enddate spacecraft species viewing resample path all_columns st,
    stereo_sept_loader env startdate enddate spacecraft species viewing resample
                       path all_columns st
    = stereo_sept_loader env startdate enddate (loader_spacecraft spacecraft)
                         (loader_species species) viewing resample path all_columns st.
Proof.
  intros env startdate enddate spacecraft species viewing resample path all_columns st.
  unfold stereo_sept_loader.
  fold (loader_species species). fold (loader_spacecraft spacecraft).
  fold (loader_species (loader_species species)).
  fold (loader_spacecraft (loader_spacecraft spacecraft)).
  rewrite loader_species_idem, loader_spacecraft_idem. reflexivity.
Qed.

Lemma channel_catalog_unknown species :
  (species =? "ele")%string = false -> (species =? "ion")%string = false ->
  channel_catalog species = Raise (UnboundLocalError "channels_dict").
Proof.
  intros He Hi. unfold channel_catalog.
  destruct (mean_E_loop e_ch_strings) as [m |] eqn:E; [| vm_compute in E; discriminate].
  cbn [bindR]. rewrite He, Hi. reflexivity.
Qed.

Lemma channel_catalog_known species :
  ((species =? "ele") || (species =? "ion"))%string = true ->
  exists cat, channel_catalog species = Ok cat.
Proof.
  intros H. apply orb_true_iff in H as [H | H]; apply String.eqb_eq in H; subst;
    vm_compute; eexists; reflexivity.
Qed.

(** X4: for a species that the loader does not turn into ele or ion (ELE
    in upper case is one), no table is ever returned: either the
    resolution of the files fails, or it succeeds, downloads included, and
    the load then fails with UnboundLocalError for [channels_dict]. *)
Theorem loader_unknown_species :
  forall env startdate enddate spacecraft species viewing resample path all_columns
         st r st',
    known_species species = false ->
    stereo_sept_loader env startdate enddate spacecraft species viewing resample
                       path all_columns st = (r, st') ->
    exists e,
      r = Raise e
      /\ (build_filelist env (loader_path env path) (loader_spacecraft spacecraft)
                         (loader_species species) viewing
                         (date_range startdate enddate) st = (Raise e, st')
          \/ e = UnboundLocalError "channels_dict"
             /\ exists filelist,
                 build_filelist env (loader_path env path) (loader_spacecraft spacecraft)
                                (loader_species species) viewing
                                (date_range startdate enddate) st = (Ok filelist, st')).
Proof.
  intros env startdate enddate spacecraft species viewing resample path all_columns
         st r st' Hsp.
  unfold known_species in Hsp. apply orb_false_iff in Hsp as [He Hi].
  unfold stereo_sept_loader, bind, lift.
  fold (loader_species species). fold (loader_spacecraft spacecraft).
  fold (loader_path env path).
  destruct (build_filelist _ _ _ _ _ _ _) as [[filelist | e] st1].
  - rewrite (channel_catalog_unknown _ He Hi).
    intros H. inversion H; subst. eexists. split; [reflexivity |].
    right. split; [reflexivity |]. exists filelist. reflexivity.
  - intros H. inversion H; subst. exists e. split; [reflexivity |]. left. reflexivity.
Qed.

Lemma loader_unknown_species_witness :
  known_species "ELE" = false
  /\ exists r st',
      stereo_sept_loader sample_env (Date 2010 107) (Date 2010 107) "a" "ELE" "sun"
                         PyNone None false empty_dir = (r, st')
      /\ fetched st' = [sample_url "ele" "107"]
      /\ exists e,
          r = Raise e
          /\ (build_filelist sample_env (loader_path sample_env None)
                             (loader_spacecraft "a") (loader_species "ELE") "sun"
                             (date_range (Date 2010 107) (Date 2010 107)) empty_dir
              = (Raise e, st')
              \/ e = UnboundLocalError "channels_dict"
                 /\ exists filelist,
                     build_filelist sample_env (loader_path sample_env None)
                                    (loader_spacecraft "a") (loader_species "ELE") "sun"
                                    (date_range (Date 2010 107) (Date 2010 107))
                                    empty_dir = (Ok filelist, st')).
Proof.
  split; [reflexivity |].
  eexists. eexists. split; [vm_compute; reflexivity |].
  split; [vm_compute; reflexivity |].
  eapply (loader_unknown_species sample_env (Date 2010 107) (Date 2010 107) "a" "ELE"
            "sun" PyNone None false empty_dir); [reflexivity | vm_compute; reflexivity].
Defined.

(* ----------------------------------------------------------------- *)
(** *** Ranges and days that give no file *)

(** X5: when the end date lies before the start date the range has no
    day and no file is resolved; the load fails, with the directory
    untouched, on the first element of the empty file list (IndexError),
    or before that on the catalog of an unknown species. *)
Theorem loader_reversed_range :
  forall env startdate enddate spacecraft species viewing resample path all_columns st,
    toordinal enddate < toordinal startdate ->
    exists e,
      stereo_sept_loader env startdate enddate spacecraft species viewing resample
                         path all_columns st = (Raise e, st)
      /\ exn_class e
         = if known_species species then "IndexError" else "UnboundLocalError".
Proof.
  intros env startdate enddate spacecraft species viewing resample path all_columns
         st Hrev.
  unfold stereo_sept_loader, bind, lift.
  fold (loader_species species). fold (loader_spacecraft spacecraft).
  fold (loader_path env path).
  unfold date_range.
  replace (Z.to_nat (toordinal enddate - toordinal startdate + 1)) with 0%nat by lia.
  cbn [days_from build_filelist mapM]. unfold build_filelist, bind, ret. cbn [mapM].
  unfold ret. cbn [np_sort fold_right].
  unfold known_species.
  destruct ((loader_species species =? "ele") || (loader_species species =? "ion"))%string
    eqn:E.
  - destruct (channel_catalog_known _ E) as (cat & ->).
    eexists. split; reflexivity.
  - apply orb_false_iff in E as [He Hi].
    rewrite (channel_catalog_unknown _ He Hi).
    eexists. split; reflexivity.
Qed.

Lemma loader_reversed_range_witness :
  toordinal (Date 2010 107) < toordinal (Date 2010 108)
  /\ exists e,
      stereo_sept_loader sample_env (Date 2010 108) (Date 2010 107) "a" "e" "sun"
                         PyNone None false dir_with_day_107
      = (Raise e, dir_with_day_107)
      /\ exn_class e = if known_species "e" then "IndexError" else "UnboundLocalError".
Proof.
  split; [reflexivity |].
  apply (loader_reversed_range sample_env (Date 2010 108) (Date 2010 107) "a" "e" "sun"
           PyNone None false dir_with_day_107). reflexivity.
Defined.

(** When the pattern of the first day matches no local file, the load ends
    as the download of that day ends if that fails. *)
Lemma loader_first_download_fails env startdate enddate spacecraft species viewing
      resample path all_columns st e st' :
  toordinal startdate <= toordinal enddate ->
  glob env (loader_path env path +++ os_sep)
       (glob_stem (loader_spacecraft spacecraft) (loader_species species)
                  viewing startdate) ".dat" st = (Ok [], st) ->
  stereo_sept_download env startdate (loader_spacecraft spacecraft)
                       (loader_species species) viewing (Some (loader_path env path)) st
  = (Raise e, st') ->
  stereo_sept_loader env startdate enddate spacecraft species viewing resample
                     path all_columns st = (Raise e, st').
Proof.
  intros Hrange Hglob Hdl.
  unfold stereo_sept_loader, bind.
  fold (loader_species species). fold (loader_spacecraft spacecraft).
  fold (loader_path env path).
  unfold date_range.
  destruct (Z.to_nat (toordinal enddate - toordinal startdate + 1)) as [| n] eqn:En;
    [lia |].
  cbn [days_from]. unfold build_filelist, bind. cbn [mapM]. unfold bind.
  unfold resolve_file at 1. unfold bind.
  fold (glob_stem (loader_spacecraft spacecraft) (loader_species species) viewing
                  startdate).
  rewrite Hglob, Hdl. reflexivity.
Qed.

(** X6: with the progress-bar package installed and a known spacecraft,
    when the file of the first day is neither found by the pattern nor at
    the place of the download, and the server does not have it, the load
    fails with the error of the server for the address of that day and
    leaves the directory as it was. *)
Theorem loader_first_day_unavailable :
  forall env startdate enddate spacecraft species viewing resample path all_columns st,
    tqdm env = true ->
    known_spacecraft (loader_spacecraft spacecraft) = true ->
    toordinal startdate <= toordinal enddate ->
    glob env (loader_path env path +++ os_sep)
         (glob_stem (loader_spacecraft spacecraft) (loader_species species)
                    viewing startdate) ".dat" st = (Ok [], st) ->
    lookup (local_path env (loader_path env path) (loader_spacecraft spacecraft)
                       (loader_species species) viewing startdate) (files st) = None ->
    remote env (download_url (loader_spacecraft spacecraft) (loader_species species)
                             viewing startdate) = None ->
    stereo_sept_loader env startdate enddate spacecraft species viewing resample
                       path all_columns st
    = (Raise (HTTPError (download_url (loader_spacecraft spacecraft)
                                      (loader_species species) viewing startdate)), st).
Proof.
  intros env startdate enddate spacecraft species viewing resample path all_columns st
         Htqdm Hknown Hrange Hglob Hlocal Hremote.
  apply loader_first_download_fails; [exact Hrange | exact Hglob |].
  destruct (loader_path_nonempty env path) as (c0 & dir & Hpath).
  rewrite Hpath in *.
  rewrite (download_missing env _ _ _ _ c0 dir st Htqdm Hknown Hlocal), Hremote.
  reflexivity.
Qed.

Lemma loader_first_day_unavailable_witness :
  tqdm sample_env = true
  /\ known_spacecraft (loader_spacecraft "stb") = true
  /\ toordinal (Date 2010 107) <= toordinal (Date 2010 108)
  /\ stereo_sept_loader sample_env (Date 2010 107) (Date 2010 108) "stb" "e" "sun"
                        PyNone None false dir_with_day_107
     = (Raise (HTTPError (download_url (loader_spacecraft "stb") (loader_species "e")
                                       "sun" (Date 2010 107))), dir_with_day_107).
Proof.
  split; [reflexivity |]. split; [reflexivity |]. split; [vm_compute; discriminate |].
  apply (loader_first_day_unavailable sample_env (Date 2010 107) (Date 2010 108) "stb"
           "e" "sun" PyNone None false dir_with_day_107);
    first [reflexivity | vm_compute; discriminate].
Defined.

(** X7: the loader itself does not check the spacecraft: for a code it
    does not turn into one the downloader knows, and a first day the
    pattern finds no local file for, the load fails with the
    UnboundLocalError of the downloader for [base], the directory
    untouched. *)
Theorem loader_unknown_spacecraft :
  forall env startdate enddate spacecraft species viewing resample path all_columns st,
    known_spacecraft (loader_spacecraft spacecraft) = false ->
    toordinal startdate <= toordinal enddate ->
    glob env (loader_path env path +++ os_sep)
         (glob_stem (loader_spacecraft spacecraft) (loader_species species)
                    viewing startdate) ".dat" st = (Ok [], st) ->
    stereo_sept_loader env startdate enddate spacecraft species viewing resample
                       path all_columns st
    = (Raise (UnboundLocalError "base"), st).
Proof.
  intros env startdate enddate spacecraft species viewing resample path all_columns st
         Hunknown Hrange Hglob.
  apply loader_first_download_fails; [exact Hrange | exact Hglob |].
  apply download_unbound. exact Hunknown.
Qed.

Lemma loader_unknown_spacecraft_witness :
  known_spacecraft (loader_spacecraft "mars") = false
  /\ toordinal (Date 2010 107) <= toordinal (Date 2010 108)
  /\ stereo_sept_loader sample_env (Date 2010 107) (Date 2010 108) "mars" "e" "sun"
                        PyNone None false dir_with_day_107
     = (Raise (UnboundLocalError "base"), dir_with_day_107).
Proof.
  split; [reflexivity |]. split; [vm_compute; discriminate |].
  apply (loader_unknown_spacecraft sample_env (Date 2010 107) (Date 2010 108) "mars"
           "e" "sun" PyNone None false dir_with_day_107);
    first [reflexivity | vm_compute; discriminate].
Defined.

(* ----------------------------------------------------------------- *)
(** *** What a load does to the directory *)

Lemma downloads_of_none env path spacecraft species viewing st :
  downloads_of env path spacecraft species viewing [] st st.
Proof.
  exists []. rewrite !app_nil_r. repeat split. constructor.
Qed.

Lemma lookup_app_none {A} k (l l' : list (string * A)) :
  lookup k (l ++ l') = None -> lookup k l = None.
Proof.
  induction l as [| [k' a] l IH]; simpl; [reflexivity |].
  destruct (k' =? k)%string; [discriminate | exact IH].
Qed.

Lemma downloads_of_trans env path spacecraft species viewing days1 days2 st st1 st2 :
  downloads_of env path spacecraft species viewing days1 st st1 ->
  downloads_of env path spacecraft species viewing days2 st1 st2 ->
  downloads_of env path spacecraft species viewing (days1 ++ days2) st st2.
Proof.
  intros (a1 & Hf1 & Hu1 & H1) (a2 & Hf2 & Hu2 & H2).
  exists (a1 ++ a2). rewrite Hf2, Hf1, Hu2, Hu1, map_app, !app_assoc.
  repeat split. apply Forall2_app; [exact H1 |].
  eapply Forall2_impl; [| exact H2].
  intros d kc (Hk & Hr & Hn). repeat split; try assumption.
  rewrite Hf1 in Hn. eapply lookup_app_none. exact Hn.
Qed.

Section Frame.

Variable env : Env.
Variables (c0 : ascii) (dir : string).
Variables spacecraft species viewing : string.

Let path := String c0 dir.

(** A call of the downloader leaves the directory as it is, or adds the
    file of the day. *)
Lemma download_cases d st r st' :
  stereo_sept_download env d spacecraft species viewing (Some path) st = (r, st') ->
  st' = st
  \/ r = Ok (local_path env path spacecraft species viewing d)
     /\ downloads_of env path spacecraft species viewing [d] st st'.
Proof.
  destruct (known_spacecraft spacecraft) eqn:Hknown.
  2: { rewrite (download_unbound _ _ _ _ _ _ _ Hknown).
       intros H. inversion H. left. reflexivity. }
  unfold path. rewrite (download_known _ _ _ _ _ _ _ _ Hknown).
  unfold pooch_retrieve, downloads_of, local_path.
  destruct (lookup _ (files st)) eqn:E; [intros H; inversion H; left; reflexivity |].
  destruct (true && negb (tqdm env)); [intros H; inversion H; left; reflexivity |].
  destruct (remote env _) as [content |] eqn:Er;
    [| intros H; inversion H; left; reflexivity].
  intros H. inversion H. right. split; [reflexivity |].
  eexists. cbn [files fetched map]. split; [reflexivity |]. split; [reflexivity |].
  constructor; [| constructor]. cbn [fst snd]. repeat split; assumption.
Qed.

Lemma resolve_file_cases d st r st' :
  resolve_file env path spacecraft species viewing d st = (r, st') ->
  exists days,
    (days = [] \/ days = [d])
    /\ downloads_of env path spacecraft species viewing days st st'.
Proof.
  unfold resolve_file, bind, glob, ret.
  destruct (filter _ (map fst (files st))) as [| file more].
  - intros H. apply download_cases in H as [-> | [_ H]].
    + exists []. split; [left; reflexivity | apply downloads_of_none].
    + exists [d]. split; [right; reflexivity | exact H].
  - intros H. inversion H; subst.
    exists []. split; [left; reflexivity | apply downloads_of_none].
Qed.

Lemma resolve_files_cases dates : forall st r st',
  mapM (resolve_file env path spacecraft species viewing) dates st = (r, st') ->
  exists days,
    incl days dates /\ (List.length days <= List.length dates)%nat
    /\ downloads_of env path spacecraft species viewing days st st'.
Proof.
  induction dates as [| d rest IH]; intros st r st' H.
  - inversion H; subst. exists []. split; [intros x [] |]. split; [simpl; lia |].
    apply downloads_of_none.
  - cbn [mapM] in H. unfold bind in H.
    destruct (resolve_file env path spacecraft species viewing d st)
      as [[p | e] st1] eqn:Ed;
      apply resolve_file_cases in Ed as (days1 & Hdays1 & H1).
    + assert (Hrest : exists days2,
                 incl days2 rest /\ (List.length days2 <= List.length rest)%nat
                 /\ downloads_of env path spacecraft species viewing days2 st1 st').
      { destruct (mapM _ rest st1) as [[fl | e] st2] eqn:Er;
          apply IH in Er; unfold ret in H; inversion H; subst; exact Er. }
      destruct Hrest as (days2 & Hincl & Hlen & H2).
      exists (days1 ++ days2). split; [| split].
      * intros x Hx. apply in_app_or in Hx as [Hx | Hx].
        -- destruct Hdays1 as [-> | ->]; [destruct Hx |].
           destruct Hx as [<- | []]. left. reflexivity.
        -- right. apply Hincl. exact Hx.
      * rewrite length_app. destruct Hdays1 as [-> | ->]; simpl; lia.
      * eapply downloads_of_trans; eassumption.
    + inversion H; subst. exists days1. split; [| split; [| exact H1]].
      * intros x Hx. destruct Hdays1 as [-> | ->]; [destruct Hx |].
        destruct Hx as [<- | []]. left. reflexivity.
      * destruct Hdays1 as [-> | ->]; simpl; lia.
Qed.

End Frame.

(** Whatever the outcome of a load, the directory is the one the
    resolution of the files left. *)
Lemma loader_state env startdate enddate spacecraft species viewing resample path
      all_columns st r st' :
  stereo_sept_loader env startdate enddate spacecraft species viewing resample
                     path all_columns st = (r, st') ->
  exists r0,
    mapM (resolve_file env (loader_path env path) (loader_spacecraft spacecraft)
                       (loader_species species) viewing)
         (date_range startdate enddate) st = (r0, st').
Proof.
  unfold stereo_sept_loader, build_filelist, bind, lift, ret.
  fold (loader_species species). fold (loader_spacecraft spacecraft).
  fold (loader_path env path).
  destruct (mapM _ _ st) as [[filelist | e] st1].
  2: { intros H. inversion H. eexists. reflexivity. }
  destruct (channel_catalog _) as [cat | e].
  2: { intros H. inversion H. eexists. reflexivity. }
  destruct (read_files env _ _ st1) as [[raw | e] st2] eqn:Hread;
    pose proof (read_files_state _ _ _ _ _ _ Hread) as ->.
  2: { intros H. inversion H. eexists. reflexivity. }
  destruct (assemble env all_columns raw) as [tbl | e].
  2: { intros H. inversion H. eexists. reflexivity. }
  destruct resample; try (intros H; inversion H; eexists; reflexivity).
  destruct (resample_df env tbl s); intros H; inversion H; eexists; reflexivity.
Qed.

(** X8: whatever its outcome, a load only adds files to the directory:
    the files that were there stay, in their order and with their content,
    and what is added are downloads of days of the range, at most one per
    day, each saved under the name of the downloader, at a path that was
    free, with the content the server holds at the address logged. *)
Theorem loader_only_adds_downloads :
  forall env startdate enddate spacecraft species viewing resample path all_columns
         st r st',
    stereo_sept_loader env startdate enddate spacecraft species viewing resample
                       path all_columns st = (r, st') ->
    exists days,
      incl days (date_range startdate enddate)
      /\ (List.length days <= List.length (date_range startdate enddate))%nat
      /\ downloads_of env (loader_path env path) (loader_spacecraft spacecraft)
                      (loader_species species) viewing days st st'.
Proof.
  intros env startdate enddate spacecraft species viewing resample path all_columns
         st r st' H.
  apply loader_state in H as (r0 & H).
  destruct (loader_path_nonempty env path) as (c0 & dir & Hpath).
  rewrite Hpath in *.
  exact (resolve_files_cases env c0 dir _ _ _ _ _ _ _ H).
Qed.

Lemma loader_only_adds_downloads_witness :
  exists r st',
    stereo_sept_loader sample_env (Date 2010 107) (Date 2010 108) "a" "e" "sun"
                       PyNone None false dir_with_day_107 = (r, st')
    /\ exists days,
        incl days (date_range (Date 2010 107) (Date 2010 108))
        /\ (List.length days
            <= List.length (date_range (Date 2010 107) (Date 2010 108)))%nat
        /\ downloads_of sample_env (loader_path sample_env None) (loader_spacecraft "a")
                        (loader_species "e") "sun" days dir_with_day_107 st'.
Proof.
  eexists. eexists. split; [vm_compute; reflexivity |].
  eapply (loader_only_adds_downloads sample_env (Date 2010 107) (Date 2010 108) "a" "e"
            "sun" PyNone None false dir_with_day_107). vm_compute. reflexivity.
Defined.

(* ----------------------------------------------------------------- *)
(** *** The order the files are read in *)

Lemma insert_str_perm s l : Permutation (insert_str s l) (s :: l).
Proof.
  induction l as [| x l IH]; simpl; [apply Permutation_refl |].
  destruct (String.leb s x); [apply Permutation_refl |].
  apply perm_trans with (x :: s :: l); [apply perm_skip; exact IH | apply perm_swap].
Qed.

Lemma np_sort_perm l : Permutation (np_sort l) l.
Proof.
  induction l as [| s l IH]; simpl; [apply perm_nil |].
  apply perm_trans with (s :: np_sort l); [apply insert_str_perm |].
  apply perm_skip. exact IH.
Qed.

Lemma insert_str_sorted s l :
  Sorted (fun a b => String.leb a b = true) l ->
  Sorted (fun a b => String.leb a b = true) (insert_str s l).
Proof.
  induction 1 as [| x l Hl IH Hx]; simpl; [repeat constructor |].
  destruct (String.leb s x) eqn:E.
  - repeat constructor; assumption.
  - assert (Hxs : String.leb x s = true).
    { destruct (String.leb_total s x) as [H | H]; [congruence | exact H]. }
    constructor; [exact IH |].
    destruct l as [| y l]; simpl; [constructor; exact Hxs |].
    destruct (String.leb s y); constructor; [exact Hxs |].
    inversion Hx. assumption.
Qed.

Lemma np_sort_sorted l : Sorted (fun a b => String.leb a b = true) (np_sort l).
Proof.
  induction l as [| s l IH]; simpl; [constructor | apply insert_str_sorted; exact IH].
Qed.

(** X9: the files a load reads are the files resolved for the days of the
    range, one per day, each as often as it was resolved, put in ascending
    order of their paths. *)
Theorem loader_reads_files_in_path_order :
  forall env startdate enddate spacecraft species viewing resample path all_columns
         st df cat st',
    stereo_sept_loader env startdate enddate spacecraft species viewing resample
                       path all_columns st = (Ok (df, cat), st') ->
    exists resolved filelist raw,
      mapM (resolve_file env (loader_path env path) (loader_spacecraft spacecraft)
                         (loader_species species) viewing)
           (date_range startdate enddate) st = (Ok resolved, st')
      /\ List.length resolved = List.length (date_range startdate enddate)
      /\ Permutation filelist resolved
      /\ Sorted (fun a b => String.leb a b = true) filelist
      /\ read_files env (col_names cat) filelist st' = (Ok raw, st').
Proof.
  intros env startdate enddate spacecraft species viewing resample path all_columns
         st df cat st' H.
  apply loader_inv in H as (filelist & raw & tbl & Hfiles & _ & Hread & _).
  unfold build_filelist, bind, ret in Hfiles.
  destruct (mapM _ _ st) as [[resolved | e] st1] eqn:E; [| discriminate].
  inversion Hfiles; subst.
  exists resolved, (np_sort resolved), raw.
  split; [reflexivity |]. split; [eapply mapM_length; exact E |].
  split; [apply np_sort_perm |]. split; [apply np_sort_sorted | exact Hread].
Qed.

Lemma loader_reads_files_in_path_order_witness :
  exists df cat st',
    stereo_sept_loader sample_env (Date 2010 9) (Date 2010 10) "a" "e" "sun"
                       PyNone None false dir_with_unpadded_names = (Ok (df, cat), st')
    /\ exists resolved filelist raw,
        mapM (resolve_file sample_env (loader_path sample_env None)
                           (loader_spacecraft "a") (loader_species "e") "sun")
             (date_range (Date 2010 9) (Date 2010 10)) dir_with_unpadded_names
        = (Ok resolved, st')
        /\ List.length resolved = List.length (date_range (Date 2010 9) (Date 2010 10))
        /\ Permutation filelist resolved
        /\ Sorted (fun a b => String.leb a b = true) filelist
        /\ read_files sample_env (col_names cat) filelist st' = (Ok raw, st').
Proof.
  eexists. eexists. eexists. split; [vm_compute; reflexivity |].
  eapply (loader_reads_files_in_path_order sample_env (Date 2010 9) (Date 2010 10) "a"
            "e" "sun" PyNone None false dir_with_unpadded_names).
  vm_compute. reflexivity.
Defined.

(* ----------------------------------------------------------------- *)
(** *** One row per record *)

Lemma lookup_In {A} k (l : list (string * A)) v :
  lookup k l = Some v -> In (k, v) l.
Proof.
  induction l as [| [k' a] l IH]; simpl; [discriminate |].
  destruct (k' =? k)%string eqn:E.
  - intros H. inversion H; subst. apply String.eqb_eq in E. subst. left. reflexivity.
  - intros H. right. apply IH. exact H.
Qed.

Lemma well_formed_lookup df name v :
  well_formed df -> lookup name (columns df) = Some v ->
  List.length v = List.length (index df).
Proof.
  intros Hwf H. apply lookup_In in H. unfold well_formed in Hwf.
  rewrite Forall_forall in Hwf. exact (Hwf _ H).
Qed.

Lemma read_csv_rows_shape names rows df :
  read_csv_rows names rows = Ok df ->
  well_formed df /\ List.length (index df) = List.length rows.
Proof.
  unfold read_csv_rows. destruct (existsb _ _); [discriminate |].
  intros H. inversion H; subst. clear H. unfold well_formed. cbn [columns index].
  rewrite length_map, length_seq. split; [| reflexivity].
  apply Forall_map. apply Forall_forall. intros jn _. cbn [snd].
  rewrite length_map. reflexivity.
Qed.

Lemma read_csv_shape env file names st df st' :
  read_csv env file names st = (Ok df, st') ->
  well_formed df
  /\ exists f, lookup (resolve env file) (files st) = Some f
               /\ List.length (index df) = List.length (data_rows f).
Proof.
  unfold read_csv. destruct (lookup _ (files st)) as [f |]; [| discriminate].
  intros H. inversion H as [[Hr Hs]]. apply read_csv_rows_shape in Hr as [Hwf Hlen].
  split; [exact Hwf |]. exists f. split; [reflexivity | exact Hlen].
Qed.

Lemma concat_shape df t_df :
  well_formed df -> well_formed t_df ->
  well_formed (concat df t_df)
  /\ List.length (index (concat df t_df))
     = (List.length (index df) + List.length (index t_df))%nat.
Proof.
  intros Hd Ht. unfold concat, well_formed in *. cbn [columns index].
  rewrite length_app. split; [| reflexivity].
  apply Forall_map. rewrite Forall_forall in *. intros c Hc. cbn [fst snd].
  rewrite length_app, (Hd c Hc). f_equal.
  destruct (lookup (fst c) (columns t_df)) as [v |] eqn:E.
  - apply lookup_In in E. exact (Ht _ E).
  - apply length_map.
Qed.

Lemma read_more_shape env names l : forall df st raw st',
  well_formed df ->
  read_more env names l df st = (Ok raw, st') ->
  well_formed raw
  /\ exists contents,
      Forall2 (fun p f => lookup (resolve env p) (files st) = Some f) l contents
      /\ List.length (index raw)
         = (List.length (index df)
            + List.length (List.concat (map data_rows contents)))%nat.
Proof.
  induction l as [| file rest IH]; intros df st raw st' Hwf H; simpl in H.
  - inversion H; subst. split; [exact Hwf |]. exists []. split; [constructor |].
    simpl. lia.
  - unfold bind in H. destruct (read_csv env file names st) as [[t | e] st1] eqn:E;
      [| discriminate].
    pose proof (read_csv_state _ _ _ _ _ _ E) as ->.
    apply read_csv_shape in E as (Ht & f & Hf & Hlen).
    destruct (concat_shape df t Hwf Ht) as [Hc Hclen].
    apply (IH _ _ _ _ Hc) in H as (Hraw & contents & Hall & Hrlen).
    split; [exact Hraw |]. exists (f :: contents). split; [constructor; assumption |].
    cbn [map List.concat]. rewrite length_app. lia.
Qed.

Lemma read_files_shape env names l st raw st' :
  read_files env names l st = (Ok raw, st') ->
  well_formed raw
  /\ exists contents,
      Forall2 (fun p f => lookup (resolve env p) (files st) = Some f) l contents
      /\ List.length (index raw) = List.length (List.concat (map data_rows contents)).
Proof.
  unfold read_files, bind, lift, item.
  destruct l as [| file0 rest]; [discriminate |]. cbn [nth_error tl].
  destruct (read_csv env file0 names st) as [[df | e] st1] eqn:E; [| discriminate].
  pose proof (read_csv_state _ _ _ _ _ _ E) as ->.
  apply read_csv_shape in E as (Ht & f & Hf & Hlen).
  intros H. apply (read_more_shape _ _ _ _ _ _ _ Ht) in H as (Hraw & contents & Hall & Hrlen).
  split; [exact Hraw |]. exists (f :: contents). split; [constructor; assumption |].
  cbn [map List.concat]. rewrite length_app. lia.
Qed.

Lemma drop_shape labels df df' :
  drop labels df = Ok df' -> well_formed df -> well_formed df'.
Proof.
  unfold drop. destruct (filter _ labels); [| discriminate].
  intros H Hwf. inversion H; subst. unfold well_formed in *. cbn [columns index].
  rewrite Forall_forall in *. intros c Hc. apply filter_In in Hc as [Hc _].
  exact (Hwf c Hc).
Qed.

Lemma replace_shape a b df : well_formed df -> well_formed (replace a b df).
Proof.
  unfold replace, well_formed. cbn [columns index]. intros Hwf.
  apply Forall_map. eapply Forall_impl; [| exact Hwf].
  intros c Hc. cbn [snd]. rewrite length_map. exact Hc.
Qed.

Lemma assemble_shape env all_columns raw tbl :
  assemble env all_columns raw = Ok tbl ->
  well_formed raw ->
  well_formed tbl /\ List.length (index tbl) = List.length (index raw).
Proof.
  unfold assemble, getitem. intros H Hwf.
  destruct (lookup "julian_date" (columns raw)) as [jd |] eqn:E; [| discriminate].
  cbn [bindR] in H.
  pose proof (well_formed_lookup _ _ _ Hwf E) as Hjd.
  set (df1 := set_index raw (map (julian_to_datetime env) jd) (Some "time")) in H.
  assert (H1 : well_formed df1 /\ List.length (index df1) = List.length (index raw)).
  { unfold df1, set_index, well_formed. cbn [columns index]. rewrite length_map.
    split; [| exact Hjd]. rewrite Hjd. exact Hwf. }
  destruct H1 as [Hwf1 Hlen1].
  destruct all_columns.
  - cbn [bindR] in H. inversion H; subst. split; [apply replace_shape; exact Hwf1 |].
    exact Hlen1.
  - destruct (drop helper_columns df1) as [df2 | e] eqn:Ed; [| discriminate].
    cbn [bindR] in H. inversion H; subst.
    split; [apply replace_shape; eapply drop_shape; eassumption |].
    unfold drop in Ed. destruct (filter _ helper_columns); [| discriminate].
    inversion Ed; subst. exact Hlen1.
Qed.

Lemma resample_mean_shape n df : well_formed df -> well_formed (resample_mean n df).
Proof.
  intros Hwf. unfold resample_mean. destruct (index df) as [| t0 ts] eqn:E.
  - exact Hwf.
  - destruct (bin_edges _ _ n) as [fresult lresult].
    unfold well_formed. cbn [columns index].
    apply Forall_map. apply Forall_forall. intros c _. cbn [snd].
    apply length_map.
Qed.

Lemma resample_df_shape env df s out :
  resample_df env df s = Ok out -> well_formed df -> well_formed out.
Proof.
  unfold resample_df, resample_rule, pd_Timedelta. intros H Hwf.
  destruct (to_offset env s) as [n |]; [| discriminate].
  destruct (Timedelta env s) as [td |]; [| discriminate].
  cbn in H. inversion H; subst.
  pose proof (resample_mean_shape (Z.pos n) df Hwf) as Hm.
  unfold set_index, well_formed in *. cbn [columns index]. rewrite length_map.
  exact Hm.
Qed.

(** X10: in the table a load returns every column has one value per row
    of the index; without resampling the table has one row per record of
    the files read (comment lines and blank lines give none): no record is
    filtered out, merged or deduplicated. *)
Theorem loader_rows_are_records :
  forall env startdate enddate spacecraft species viewing resample path all_columns
         st df cat st',
    stereo_sept_loader env startdate enddate spacecraft species viewing resample
                       path all_columns st = (Ok (df, cat), st') ->
    well_formed df
    /\ exists filelist contents,
        build_filelist env (loader_path env path) (loader_spacecraft spacecraft)
                       (loader_species species) viewing
                       (date_range startdate enddate) st = (Ok filelist, st')
        /\ Forall2 (fun p f => lookup (resolve env p) (files st') = Some f) filelist contents
        /\ (isinstance_str resample = false ->
            List.length (index df)
            = List.length (List.concat (map data_rows contents))).
Proof.
  intros env startdate enddate spacecraft species viewing resample path all_columns
         st df cat st' H.
  apply loader_inv in H as (filelist & raw & tbl & Hfiles & _ & Hread & Htbl & Hres).
  apply read_files_shape in Hread as (Hraw & contents & Hall & Hlen).
  destruct (assemble_shape _ _ _ _ Htbl Hraw) as [Hwf Hidx].
  split.
  - destruct resample; try (subst df; exact Hwf).
    eapply resample_df_shape; eassumption.
  - exists filelist, contents. split; [exact Hfiles |]. split; [exact Hall |].
    intros Hstr. destruct resample; try discriminate; subst df; lia.
Qed.

Lemma loader_rows_are_records_witness :
  exists df cat st',
    stereo_sept_loader sample_env (Date 2010 107) (Date 2010 108) "a" "e" "sun"
                       PyNone None false empty_dir = (Ok (df, cat), st')
    /\ List.length (index df) = 5%nat
    /\ well_formed df
    /\ exists filelist contents,
        build_filelist sample_env (loader_path sample_env None) (loader_spacecraft "a")
                       (loader_species "e") "sun"
                       (date_range (Date 2010 107) (Date 2010 108)) empty_dir
        = (Ok filelist, st')
        /\ Forall2 (fun p f => lookup (resolve sample_env p) (files st') = Some f) filelist contents
        /\ (isinstance_str PyNone = false ->
            List.length (index df)
            = List.length (List.concat (map data_rows contents))).
Proof.
  eexists. eexists. eexists. split; [vm_compute; reflexivity |].
  split; [reflexivity |].
  eapply (loader_rows_are_records sample_env (Date 2010 107) (Date 2010 108) "a" "e"
            "sun" PyNone None false empty_dir). vm_compute. reflexivity.
Defined.

Lemma length_col_names cat :
  List.length (col_names cat) = (2 * List.length cat + 7)%nat.
Proof.
  unfold col_names, ch_names, err_ch_names.
  rewrite !length_app, !length_map. simpl. lia.
Qed.

(** X11: with [all_columns=True] the table keeps every column of the
    files, in the order of the files: the six time fields, the fluxes, the
    uncertainties and the integration time, seven more than twice the
    number of channels; the index is named time. *)
Theorem loader_all_columns :
  forall env startdate enddate spacecraft species viewing resample path st
         df cat st',
    stereo_sept_loader env startdate enddate spacecraft species viewing resample
                       path true st = (Ok (df, cat), st') ->
    column_names df = col_names cat
    /\ List.length (column_names df) = (2 * List.length cat + 7)%nat
    /\ Forall (fun name => mem_str name (column_names df) = true) helper_columns
    /\ index_name df = Some "time".
Proof.
  intros env startdate enddate spacecraft species viewing resample path st df cat st' H.
  apply loader_inv in H as (filelist & raw & tbl & _ & _ & Hread & Htbl & Hres).
  apply read_files_column_names in Hread.
  unfold assemble in Htbl.
  destruct (getitem raw "julian_date") as [jd | e]; [| discriminate].
  cbn [bindR] in Htbl. inversion Htbl as [Ht]. clear Htbl.
  assert (Hnames : column_names tbl = col_names cat
                   /\ index_name tbl = Some "time").
  { subst tbl. rewrite replace_column_names. split; [exact Hread | reflexivity]. }
  assert (Hdf : column_names df = col_names cat /\ index_name df = Some "time").
  { destruct resample; try (subst df; exact Hnames).
    apply resample_df_names in Hres as [-> ->]. exact Hnames. }
  destruct Hdf as [Hc Hi]. rewrite Hc.
  split; [reflexivity |]. split; [apply length_col_names |]. split; [| exact Hi].
  unfold col_names, helper_columns, mem_str.
  repeat constructor; rewrite ?existsb_app; simpl;
    rewrite ?orb_true_r; reflexivity.
Qed.

Lemma loader_all_columns_witness :
  exists df cat st',
    stereo_sept_loader sample_env (Date 2010 107) (Date 2010 108) "a" "e" "sun"
                       PyNone None true empty_dir = (Ok (df, cat), st')
    /\ column_names df = col_names cat
    /\ List.length (column_names df) = (2 * List.length cat + 7)%nat
    /\ Forall (fun name => mem_str name (column_names df) = true) helper_columns
    /\ index_name df = Some "time".
Proof.
  eexists. eexists. eexists. split; [vm_compute; reflexivity |].
  eapply (loader_all_columns sample_env (Date 2010 107) (Date 2010 108) "a" "e" "sun"
            PyNone None empty_dir). vm_compute. reflexivity.
Defined.

(* ----------------------------------------------------------------- *)
(** *** The catalog against its labels *)

(** X12: in the catalog a load returns, the bins count up from 2, every
    label reads as two energies, each channel starts at the energy the
    channel before it ends at, and the width [DE] of a channel, in MeV, is
    the width of the range of its label, in keV. *)
Theorem loader_catalog_consistent :
  forall env startdate enddate spacecraft species viewing resample path all_columns
         st df cat st',
    stereo_sept_loader env startdate enddate spacecraft species viewing resample
                       path all_columns st = (Ok (df, cat), st') ->
    map ch_bin cat = zrange 2 (List.length cat)
    /\ forallb DE_is_label_width cat = true
    /\ contiguous cat = true.
Proof.
  intros env startdate enddate spacecraft species viewing resample path all_columns
         st df cat st' H.
  apply loader_inv in H as (_ & _ & _ & _ & Hcat & _).
  apply channel_catalog_cases in Hcat as [[_ Hcat] | [_ Hcat]];
    vm_compute in Hcat; inversion Hcat; subst cat; vm_compute; repeat split.
Qed.

Lemma loader_catalog_consistent_witness :
  exists df cat st',
    stereo_sept_loader sample_env (Date 2010 107) (Date 2010 107) "a" "p" "sun"
                       PyNone None false empty_dir = (Ok (df, cat), st')
    /\ map ch_bin cat = zrange 2 (List.length cat)
    /\ forallb DE_is_label_width cat = true
    /\ contiguous cat = true.
Proof.
  eexists. eexists. eexists. split; [vm_compute; reflexivity |].
  eapply (loader_catalog_consistent sample_env (Date 2010 107) (Date 2010 107) "a" "p"
            "sun" PyNone None false empty_dir). vm_compute. reflexivity.
Defined.

(* ----------------------------------------------------------------- *)
(** *** The shape of a resampled table *)

Lemma resample_df_inv env df s out :
  resample_df env df s = Ok out ->
  exists n td,
    to_offset env s = Some n /\ Timedelta env s = Some td
    /\ out = set_index (resample_mean (Z.pos n) df)
                       (map (fun t => t + td / 2) (index (resample_mean (Z.pos n) df)))
                       (index_name (resample_mean (Z.pos n) df)).
Proof.
  unfold resample_df, resample_rule, pd_Timedelta. intros H.
  destruct (to_offset env s) as [n |]; [| discriminate].
  destruct (Timedelta env s) as [td |]; [| discriminate].
  cbn in H. inversion H. exists n, td. repeat split.
Qed.

Lemma resample_df_intro env df s n td :
  to_offset env s = Some n -> Timedelta env s = Some td ->
  resample_df env df s
  = Ok (set_index (resample_mean (Z.pos n) df)
                  (map (fun t => t + td / 2) (index (resample_mean (Z.pos n) df)))
                  (index_name (resample_mean (Z.pos n) df))).
Proof.
  intros Hn Htd. unfold resample_df, resample_rule, pd_Timedelta.
  rewrite Hn, Htd. reflexivity.
Qed.

Lemma bin_centres_increasing a n c k : forall s,
  0 < n ->
  Sorted Z.lt (map (fun t => t + c) (map (fun i => a + Z.of_nat i * n) (seq s k))).
Proof.
  induction k as [| k IH]; intros s Hn; cbn [map seq]; [constructor |].
  constructor; [apply IH; exact Hn |].
  destruct k; cbn [map seq]; constructor.
  rewrite Nat2Z.inj_succ, Z.mul_succ_l. lia.
Qed.

(** X13: a table resampled by [resample_df] has the columns of the
    source, in the same order, and its index name; its columns are as long
    as its index when those of the source are; and its timestamps increase
    strictly, whatever the order of the rows of the source. *)
Theorem resample_df_keeps_shape :
  forall env df resample out,
    resample_df env df resample = Ok out ->
    column_names out = column_names df
    /\ index_name out = index_name df
    /\ (well_formed df -> well_formed out)
    /\ Sorted Z.lt (index out).
Proof.
  intros env df resample out H.
  destruct (resample_df_names _ _ _ _ H) as [Hnames Hname].
  split; [exact Hnames |]. split; [exact Hname |].
  split; [apply (resample_df_shape _ _ _ _ H) |].
  apply resample_df_inv in H as (n & td & _ & _ & ->).
  unfold set_index. cbn [index].
  destruct (index df) as [| t0 ts] eqn:Hidx.
  - unfold resample_mean. rewrite Hidx. rewrite Hidx. constructor.
  - rewrite (resample_mean_eq (Z.pos n) df t0 ts ltac:(lia) Hidx). cbn [index].
    apply bin_centres_increasing. lia.
Qed.

Lemma resample_df_keeps_shape_witness :
  exists out,
    resample_df sample_env
                {| index_name := Some "time";
                   index := [1271463700000000000; 1271462460000000000];
                   columns := [("ch_2", [3; 1]%float)] |} "10min" = Ok out
    /\ index out = [1271462700000000000; 1271463300000000000; 1271463900000000000]
    /\ column_names out = ["ch_2"]
    /\ index_name out = Some "time"
    /\ (well_formed {| index_name := Some "time";
                       index := [1271463700000000000; 1271462460000000000];
                       columns := [("ch_2", [3; 1]%float)] |} -> well_formed out)
    /\ Sorted Z.lt (index out).
Proof.
  eexists. split; [vm_compute; reflexivity |]. split; [reflexivity |].
  eapply (resample_df_keeps_shape sample_env
            {| index_name := Some "time";
               index := [1271463700000000000; 1271462460000000000];
               columns := [("ch_2", [3; 1]%float)] |} "10min").
  vm_compute. reflexivity.
Defined.

Lemma mean_skipna_all_nan vals :
  Forall (fun x => is_nan x = true) vals -> is_nan (mean_skipna vals) = true.
Proof.
  intros H. rewrite mean_skipna_ignores_nan.
  replace (filter (fun x => PrimFloat.eqb x x) vals) with (@nil float).
  - reflexivity.
  - induction H as [| x vals Hx _ IH]; simpl; [reflexivity |].
    unfold is_nan in Hx. apply negb_true_iff in Hx. rewrite Hx. exact IH.
Qed.

Lemma nth_map_seq_float (f : nat -> float) k i :
  (i < k)%nat -> nth i (map f (seq 0 k)) 0%float = f i.
Proof.
  intros H. rewrite (nth_indep _ 0%float (f 0%nat)) by (rewrite length_map, length_seq; exact H).
  rewrite map_nth. rewrite seq_nth by exact H. reflexivity.
Qed.



(* ----------------------------------------------------------------- *)
(** *** The dispatching function *)

(** The outcome of the body of the [try] when the three calls into sunpy
    succeed. *)
Lemma cdaweb_load_fetched env sunpy tr dataset path resample st found st1 fetched_ st2
      df st3 :
  Fido_search sunpy tr dataset st = (Ok found, st1) ->
  Fido_fetch sunpy found path st1 = (Ok fetched_, st2) ->
  TimeSeries sunpy (np_sort fetched_) st2 = (Ok df, st3) ->
  cdaweb_load env sunpy tr dataset path resample st
  = match resample with
    | PyStr s =>
        match resample_df env df s with
        | Ok out => (Ok (out, np_sort fetched_), st3)
        | Raise e => (Raise e, st3)
        end
    | _ => (Ok (df, np_sort fetched_), st3)
    end.
Proof.
  intros Hs Hf Ht. unfold cdaweb_load, bind, lift, ret. rewrite Hs, Hf, Ht.
  destruct resample; reflexivity.
Qed.

(** What [stereo_load] does for an instrument other than SEPT, once the
    data set and the time range are there. *)
Lemma stereo_load_cdaweb env sunpy instrument startdate enddate spacecraft mag_coord
      sept_species sept_viewing path resample st dataset tr :
  (upper instrument =? "SEPT")%string = false ->
  cdaweb_dataset instrument (loader_spacecraft spacecraft) mag_coord = Ok dataset ->
  a_Time sunpy startdate enddate = Ok tr ->
  stereo_load env sunpy instrument startdate enddate spacecraft mag_coord
              sept_species sept_viewing path resample st
  = let printed := if arg_eqb sunpy startdate enddate then [must_differ_message] else [] in
    match cdaweb_load env sunpy tr dataset path resample st with
    | (Ok (df, downloaded_files), st') =>
        (printed, (Ok (CdawebData df downloaded_files), st'))
    | (Raise e, st') =>
        if (exn_class e =? "RuntimeError")%string
        then (printed ++ [unable_message sunpy dataset startdate enddate],
              (Ok NoData, st'))
        else (printed, (Raise e, st'))
    end.
Proof.
  intros Hi Hd Ht. unfold stereo_load. rewrite Hi.
  fold (loader_spacecraft spacecraft). rewrite Hd, Ht. reflexivity.
Qed.

(** X15: for the instrument SEPT, in any case, [stereo_load] is
    [stereo_sept_loader] on the days its start and end values are read as,
    with the other arguments as given and [all_columns=False]: same
    outcome, same directory; the spacecraft code it normalises is the one
    the loader would have normalised; a start or end value that is read as
    no day fails before anything is done.  One line is printed exactly
    when the start and end values as passed compare equal, which changes
    nothing else. *)
Theorem stereo_load_sept :
  forall env sunpy instrument startdate enddate spacecraft mag_coord sept_species
         sept_viewing path resample st,
    upper instrument = "SEPT" ->
    stereo_load env sunpy instrument startdate enddate spacecraft mag_coord
                sept_species sept_viewing path resample st
    = (if arg_eqb sunpy startdate enddate then [must_differ_message] else [],
       match to_day sunpy startdate, to_day sunpy enddate with
       | Ok start_day, Ok end_day =>
           match stereo_sept_loader env start_day end_day spacecraft sept_species
                                    sept_viewing resample path false st with
           | (Ok res, st') => (Ok (SeptData (fst res) (snd res)), st')
           | (Raise e, st') => (Raise e, st')
           end
       | Raise e, _ => (Raise e, st)
       | Ok _, Raise e => (Raise e, st)
       end).
Proof.
  intros env sunpy instrument startdate enddate spacecraft mag_coord sept_species
         sept_viewing path resample st Hi.
  unfold stereo_load. rewrite Hi. cbn [String.eqb Ascii.eqb Bool.eqb andb].
  fold (loader_spacecraft spacecraft).
  f_equal. unfold bind, ret, lift.
  destruct (to_day sunpy startdate) as [start_day | e]; [| reflexivity].
  destruct (to_day sunpy enddate) as [end_day | e]; [| reflexivity].
  rewrite loader_spacecraft_alias.
  destruct (stereo_sept_loader _ _ _ _ _ _ _ _ _ st) as [[res | e] st']; reflexivity.
Qed.

Lemma stereo_load_sept_witness :
  upper "sept" = "SEPT"
  /\ arg_eqb sample_sunpy "2010-107" "2010/107" = false
  /\ to_day sample_sunpy "2010-107" = Ok (Date 2010 107)
  /\ to_day sample_sunpy "2010/107" = Ok (Date 2010 107)
  /\ stereo_load sample_env sample_sunpy "sept" "2010-107" "2010/107" "STA"
                 "RTN" "e" "sun" None PyNone empty_dir
     = (if arg_eqb sample_sunpy "2010-107" "2010/107" then [must_differ_message] else [],
        match to_day sample_sunpy "2010-107", to_day sample_sunpy "2010/107" with
        | Ok start_day, Ok end_day =>
            match stereo_sept_loader sample_env start_day end_day "STA" "e"
                                     "sun" PyNone None false empty_dir with
            | (Ok res, st') => (Ok (SeptData (fst res) (snd res)), st')
            | (Raise e, st') => (Raise e, st')
            end
        | Raise e, _ => (Raise e, empty_dir)
        | Ok _, Raise e => (Raise e, empty_dir)
        end).
Proof.
  split; [reflexivity |]. split; [reflexivity |]. split; [reflexivity |].
  split; [reflexivity |].
  apply (stereo_load_sept sample_env sample_sunpy "sept" "2010-107" "2010/107"
           "STA" "RTN" "e" "sun" None PyNone empty_dir). reflexivity.
Defined.

(** The letter a spacecraft code starts with, in upper case. *)
Lemma upper_of_lower_a c : lower_ascii c = "a"%char -> upper_ascii c = "A"%char.
Proof.
  destruct c as [[] [] [] [] [] [] [] []]; vm_compute; intros H;
    first [reflexivity | discriminate H].
Qed.

Lemma upper_of_lower_b c : lower_ascii c = "b"%char -> upper_ascii c = "B"%char.
Proof.
  destruct c as [[] [] [] [] [] [] [] []]; vm_compute; intros H;
    first [reflexivity | discriminate H].
Qed.

(** X16: for every code of a spacecraft (a, sta, ahead, b, stb, behind,
    in any case) the CDAWeb data set asked for is STA or STB, then _L1_
    and the instrument in upper case, followed by the coordinate system in
    upper case exactly when the instrument starts with MAG. *)
Theorem stereo_load_dataset :
  forall instrument spacecraft mag_coord,
    is_ahead spacecraft = true \/ is_behind spacecraft = true ->
    cdaweb_dataset instrument (loader_spacecraft spacecraft) mag_coord
    = Ok ((if is_ahead spacecraft then "STA" else "STB") +++ "_L1_" +++ upper instrument
          +++ (if (firstn_str 3 (upper instrument) =? "MAG")%string
               then "_" +++ upper mag_coord else "")).
Proof.
  intros instrument spacecraft mag_coord H.
  assert (Hsc : str_item0 (upper (loader_spacecraft spacecraft))
                = Ok (if is_ahead spacecraft then "A" else "B")).
  { unfold is_ahead, is_behind, loader_spacecraft in *.
    destruct (lower spacecraft =? "a")%string eqn:E1; [reflexivity |].
    destruct (lower spacecraft =? "sta")%string eqn:E2; [reflexivity |].
    cbn [orb] in *.
    destruct (lower spacecraft =? "b")%string eqn:E3.
    { apply String.eqb_eq in E3. rewrite E3. reflexivity. }
    destruct (lower spacecraft =? "stb")%string eqn:E4.
    { apply String.eqb_eq in E4. rewrite E4. reflexivity. }
    cbn [orb] in *.
    destruct (lower spacecraft =? "ahead")%string eqn:E5.
    - apply String.eqb_eq in E5. destruct spacecraft as [| c rest]; [discriminate |].
      cbn [lower] in E5. inversion E5 as [[Hc Hrest]].
      cbn [upper str_item0]. rewrite (upper_of_lower_a c Hc). reflexivity.
    - destruct H as [H | H]; [discriminate |].
      apply String.eqb_eq in H. destruct spacecraft as [| c rest]; [discriminate |].
      cbn [lower] in H. inversion H as [[Hc Hrest]].
      cbn [upper str_item0]. rewrite (upper_of_lower_b c Hc). reflexivity. }
  unfold cdaweb_dataset. rewrite Hsc. cbn [bindR].
  destruct (is_ahead spacecraft);
    destruct (firstn_str 3 (upper instrument) =? "MAG")%string;
    cbn [String.append]; rewrite ?append_nil_r; reflexivity.
Qed.

Lemma stereo_load_dataset_witness :
  (is_ahead "Ahead" = true \/ is_behind "Ahead" = true)
  /\ cdaweb_dataset "magb" (loader_spacecraft "Ahead") "rtn" = Ok "STA_L1_MAGB_RTN"
  /\ cdaweb_dataset "magb" (loader_spacecraft "Ahead") "rtn"
     = Ok ((if is_ahead "Ahead" then "STA" else "STB") +++ "_L1_" +++ upper "magb"
           +++ (if (firstn_str 3 (upper "magb") =? "MAG")%string
                then "_" +++ upper "rtn" else "")).
Proof.
  split; [left; reflexivity |]. split; [reflexivity |].
  apply (stereo_load_dataset "magb" "Ahead" "rtn"). left. reflexivity.
Defined.

(** X17: for an instrument other than SEPT, a RuntimeError raised by the
    search, by the download or by the reading of the downloaded files is
    not passed on: one line naming the data set and the dates is printed
    and a pair of empty lists is returned, the directory staying as the
    failed call left it. *)
Theorem stereo_load_swallows_RuntimeError :
  forall env sunpy instrument startdate enddate spacecraft mag_coord sept_species
         sept_viewing path resample st dataset tr e st',
    (upper instrument =? "SEPT")%string = false ->
    cdaweb_dataset instrument (loader_spacecraft spacecraft) mag_coord = Ok dataset ->
    a_Time sunpy startdate enddate = Ok tr ->
    exn_class e = "RuntimeError" ->
    Fido_search sunpy tr dataset st = (Raise e, st')
    \/ (exists found st1,
           Fido_search sunpy tr dataset st = (Ok found, st1)
           /\ (Fido_fetch sunpy found path st1 = (Raise e, st')
               \/ exists fetched_ st2,
                   Fido_fetch sunpy found path st1 = (Ok fetched_, st2)
                   /\ TimeSeries sunpy (np_sort fetched_) st2 = (Raise e, st'))) ->
    stereo_load env sunpy instrument startdate enddate spacecraft mag_coord
                sept_species sept_viewing path resample st
    = ((if arg_eqb sunpy startdate enddate then [must_differ_message] else [])
       ++ [unable_message sunpy dataset startdate enddate],
       (Ok NoData, st')).
Proof.
  intros env sunpy instrument startdate enddate spacecraft mag_coord sept_species
         sept_viewing path resample st dataset tr e st' Hi Hd Ht He Hfail.
  rewrite (stereo_load_cdaweb _ _ _ _ _ _ _ _ _ _ _ _ _ _ Hi Hd Ht). cbv zeta.
  assert (Hbody : cdaweb_load env sunpy tr dataset path resample st = (Raise e, st')).
  { unfold cdaweb_load, bind.
    destruct Hfail as [-> | (found & st1 & -> & [-> | (fetched_ & st2 & -> & ->)])];
      reflexivity. }
  rewrite Hbody, He. reflexivity.
Qed.

Lemma stereo_load_swallows_RuntimeError_witness :
  (upper "let" =? "SEPT")%string = false
  /\ cdaweb_dataset "let" (loader_spacecraft "stb") "RTN" = Ok "STB_L1_LET"
  /\ a_Time sample_sunpy "2010/107" "2010/108" = Ok ("2010/107", "2010/108")
  /\ exn_class (Exn "RuntimeError" "Download failed") = "RuntimeError"
  /\ stereo_load sample_env sample_sunpy "let" "2010/107" "2010/108" "stb"
                 "RTN" "e" "sun" None (PyStr "10min") empty_dir
     = ((if arg_eqb sample_sunpy "2010/107" "2010/108" then [must_differ_message] else [])
        ++ [unable_message sample_sunpy "STB_L1_LET" "2010/107" "2010/108"],
        (Ok NoData, empty_dir)).
Proof.
  split; [reflexivity |]. split; [reflexivity |]. split; [reflexivity |].
  split; [reflexivity |].
  apply (stereo_load_swallows_RuntimeError sample_env sample_sunpy "let" "2010/107"
           "2010/108" "stb" "RTN" "e" "sun" None (PyStr "10min") empty_dir
           "STB_L1_LET" ("2010/107", "2010/108")
           (Exn "RuntimeError" "Download failed") empty_dir);
    try reflexivity.
  right. exists "STB_L1_LET", empty_dir. split; [reflexivity |]. left. reflexivity.
Defined.

(** X18: for an instrument other than SEPT, no exception of class
    RuntimeError leaves [stereo_load], unless the time range itself raises
    one. *)
Theorem stereo_load_raises_no_RuntimeError :
  forall env sunpy instrument startdate enddate spacecraft mag_coord sept_species
         sept_viewing path resample st printed e st',
    (upper instrument =? "SEPT")%string = false ->
    (forall e', a_Time sunpy startdate enddate = Raise e' ->
                (exn_class e' =? "RuntimeError")%string = false) ->
    stereo_load env sunpy instrument startdate enddate spacecraft mag_coord
                sept_species sept_viewing path resample st
    = (printed, (Raise e, st')) ->
    (exn_class e =? "RuntimeError")%string = false.
Proof.
  intros env sunpy instrument startdate enddate spacecraft mag_coord sept_species
         sept_viewing path resample st printed e st' Hi Htime.
  unfold stereo_load. rewrite Hi.
  unfold cdaweb_dataset.
  destruct (str_item0 _) as [c | e0] eqn:Ec; cbn [bindR].
  - assert (Hd : exists dataset,
        (if (firstn_str 3 (upper instrument) =? "MAG")%string
         then Ok (("ST" +++ c) +++ "_L1_" +++ upper instrument +++ "_" +++ upper mag_coord)
         else Ok (("ST" +++ c) +++ "_L1_" +++ upper instrument)) = Ok dataset).
    { destruct (firstn_str 3 (upper instrument) =? "MAG")%string; eexists; reflexivity. }
    destruct Hd as (dataset & ->).
    destruct (a_Time sunpy startdate enddate) as [tr | e1] eqn:Et.
    + destruct (cdaweb_load env sunpy tr dataset path resample st)
        as [[[df fl] | e2] st2].
      * discriminate.
      * destruct (exn_class e2 =? "RuntimeError")%string eqn:E2; [discriminate |].
        intros H. inversion H; subst. exact E2.
    + intros H. inversion H; subst. apply Htime. reflexivity.
  - intros H. inversion H; subst.
    match type of Ec with str_item0 ?u = _ => destruct u end; [| discriminate Ec].
    inversion Ec. reflexivity.
Qed.

Lemma stereo_load_raises_no_RuntimeError_witness :
  (upper "het" =? "SEPT")%string = false
  /\ (forall e', a_Time sample_sunpy "2010/107" "2010/108" = Raise e' ->
                 (exn_class e' =? "RuntimeError")%string = false)
  /\ stereo_load sample_env sample_sunpy "het" "2010/107" "2010/108" "a"
                 "RTN" "e" "sun" None (PyStr "notafrequency") empty_dir
     = ([], (Raise (resample_warning "notafrequency"), empty_dir))
  /\ (exn_class (resample_warning "notafrequency") =? "RuntimeError")%string = false.
Proof.
  assert (Htime : forall e', a_Time sample_sunpy "2010/107" "2010/108" = Raise e' ->
                             (exn_class e' =? "RuntimeError")%string = false)
    by (intros e' H; vm_compute in H; discriminate H).
  split; [reflexivity |]. split; [exact Htime |]. split; [reflexivity |].
  apply (stereo_load_raises_no_RuntimeError sample_env sample_sunpy "het" "2010/107"
           "2010/108" "a" "RTN" "e" "sun" None (PyStr "notafrequency") empty_dir
           [] (resample_warning "notafrequency") empty_dir);
    [reflexivity | exact Htime | reflexivity].
Defined.

(** X19: for an instrument other than SEPT, when the search, the download
    and the reading succeed, the files are returned in ascending order of
    their paths with the table; a [resample] that is not a string leaves
    the table as read, and a string that pandas cannot read raises the
    warning of [resample_df], which the handler for RuntimeError lets
    through, with the downloaded files left in the directory. *)
Theorem stereo_load_cdaweb_result :
  forall env sunpy instrument startdate enddate spacecraft mag_coord sept_species
         sept_viewing path resample st dataset tr found st1 fetched_ st2 df st3,
    (upper instrument =? "SEPT")%string = false ->
    cdaweb_dataset instrument (loader_spacecraft spacecraft) mag_coord = Ok dataset ->
    a_Time sunpy startdate enddate = Ok tr ->
    Fido_search sunpy tr dataset st = (Ok found, st1) ->
    Fido_fetch sunpy found path st1 = (Ok fetched_, st2) ->
    TimeSeries sunpy (np_sort fetched_) st2 = (Ok df, st3) ->
    exists downloaded_files,
      Permutation downloaded_files fetched_
      /\ Sorted (fun a b => String.leb a b = true) downloaded_files
      /\ stereo_load env sunpy instrument startdate enddate spacecraft mag_coord
                     sept_species sept_viewing path resample st
         = (if arg_eqb sunpy startdate enddate then [must_differ_message] else [],
            (match resample with
             | PyStr s =>
                 match to_offset env s, Timedelta env s with
                 | Some _, Some _ =>
                     df' <-r resample_df env df s ;;
                     Ok (CdawebData df' downloaded_files)
                 | _, _ => Raise (resample_warning s)
                 end
             | _ => Ok (CdawebData df downloaded_files)
             end, st3)).
Proof.
  intros env sunpy instrument startdate enddate spacecraft mag_coord sept_species
         sept_viewing path resample st dataset tr found st1 fetched_ st2 df st3
         Hi Hd Ht Hs Hf Hts.
  exists (np_sort fetched_). split; [apply np_sort_perm |].
  split; [apply np_sort_sorted |].
  rewrite (stereo_load_cdaweb _ _ _ _ _ _ _ _ _ _ _ _ _ _ Hi Hd Ht). cbv zeta.
  rewrite (cdaweb_load_fetched _ _ _ _ _ _ _ _ _ _ _ _ _ Hs Hf Hts).
  destruct resample; try reflexivity.
  unfold resample_df, resample_rule, pd_Timedelta.
  destruct (to_offset env s) as [n |]; [| reflexivity].
  destruct (Timedelta env s) as [td |]; reflexivity.
Qed.

Lemma stereo_load_cdaweb_result_witness :
  (upper "het" =? "SEPT")%string = false
  /\ cdaweb_dataset "het" (loader_spacecraft "a") "RTN" = Ok "STA_L1_HET"
  /\ a_Time sample_sunpy "2010/107" "2010/108" = Ok ("2010/107", "2010/108")
  /\ exists downloaded_files,
      Permutation downloaded_files
                  ["/home/user/sunpy/data/sta_l1_het_20100418_v01.cdf";
                   "/home/user/sunpy/data/sta_l1_het_20100417_v01.cdf"]
      /\ Sorted (fun a b => String.leb a b = true) downloaded_files
      /\ stereo_load sample_env sample_sunpy "het" "2010/107" "2010/108" "a"
                     "RTN" "e" "sun" None (PyStr "notafrequency") empty_dir
         = (if arg_eqb sample_sunpy "2010/107" "2010/108" then [must_differ_message] else [],
            (match to_offset sample_env "notafrequency",
                   Timedelta sample_env "notafrequency" with
             | Some _, Some _ =>
                 df' <-r resample_df sample_env sample_table "notafrequency" ;;
                 Ok (CdawebData df' downloaded_files)
             | _, _ => Raise (resample_warning "notafrequency")
             end, empty_dir)).
Proof.
  split; [reflexivity |]. split; [reflexivity |]. split; [reflexivity |].
  apply (stereo_load_cdaweb_result sample_env sample_sunpy "het" "2010/107"
           "2010/108" "a" "RTN" "e" "sun" None (PyStr "notafrequency") empty_dir
           "STA_L1_HET" ("2010/107", "2010/108") "STA_L1_HET" empty_dir
           ["/home/user/sunpy/data/sta_l1_het_20100418_v01.cdf";
            "/home/user/sunpy/data/sta_l1_het_20100417_v01.cdf"] empty_dir
           sample_table empty_dir); reflexivity.
Defined.
